(** * Persona pipeline: retry/backoff, response validation, script length

    A shallow embedding of the backend services of the repository and of
    what surrounds them:

    - [PersonaPipelineService] ([generatePersona], [retryWithBackoff],
      [isTransientError]);
    - [GeminiService] ([parseProfileAnalysis], [parsePersonaResult],
      [generateAudioScript], [cleanAudioScript], [countWords], ...);
    - [ElevenLabsService] ([synthesizeSpeech]);
    - the validation of the input form ([validateArticleText],
      [validateDesignBrief], [handleSubmit]) and the list of origins read
      by [bootstrap].

    Conventions.  A JavaScript string is a [string] whose characters are
    read as code units below 256 (Latin-1).  Asynchronous code is written
    in state-passing style over an abstract world [W] (the remote services
    and the clock); every computation also returns the list of events it
    performed, so that invocations, requests and delays can be counted.
    The events are the calls made by the retry executor, the timers, the
    requests sent to the two remote services and the lines logged by the
    pipeline service; the lines logged by the other two services are left
    out.  What the code takes from its platform ([JSON.parse], the remote
    model and speech service, the clock, the base64 encoder, the printing
    of doubles) is a variable of the section that uses it. *)

From Stdlib Require Import String Ascii List ZArith Lia Bool Arith DecimalString.
From Stdlib Require Import Floats.PrimFloat.
Import ListNotations.

Local Open Scope string_scope.
Local Open Scope list_scope.
Local Open Scope nat_scope.

(** String concatenation, the [+] and template literals of the source. *)
Infix "+++" := String.append (right associativity, at level 60).

(** ** JavaScript string primitives *)

Module JsString.

Definition chars (s : string) : list ascii := list_ascii_of_string s.
Definition str (l : list ascii) : string := string_of_list_ascii l.

Definition code (c : ascii) : nat := nat_of_ascii c.

(** [\s] of a regular expression, and what [trim] strips: TAB, LF, VT, FF,
    CR, SPACE and NBSP are the white space and line terminators below 256. *)
Definition isWhitespace (c : ascii) : bool :=
  let n := code c in
  ((9 <=? n) && (n <=? 13)) || (n =? 32) || (n =? 160).

(** [[a-z]] *)
Definition isLowerAZ (c : ascii) : bool :=
  let n := code c in (97 <=? n) && (n <=? 122).

(** One character of [String.prototype.toLowerCase]: A-Z, and the Latin-1
    capitals U+00C0..U+00DE except the multiplication sign U+00D7. *)
Definition lowerChar (c : ascii) : ascii :=
  let n := code c in
  if ((65 <=? n) && (n <=? 90))
     || ((192 <=? n) && (n <=? 222) && negb (n =? 215))
  then ascii_of_nat (n + 32) else c.

Fixpoint toLowerCase (s : string) : string :=
  match s with
  | EmptyString => EmptyString
  | String c s' => String (lowerChar c) (toLowerCase s')
  end.

(** [s.startsWith(p)] *)
Definition startsWith (s p : string) : bool := String.prefix p s.

(** [s.includes(p)] *)
Fixpoint includes (s p : string) : bool :=
  startsWith s p ||
  match s with
  | EmptyString => false
  | String _ s' => includes s' p
  end.

(** [s.substring(0, n)] *)
Definition substring0 (n : nat) (s : string) : string :=
  str (firstn n (chars s)).

Fixpoint dropWhile {A} (p : A -> bool) (l : list A) : list A :=
  match l with
  | [] => []
  | x :: l' => if p x then dropWhile p l' else l
  end.

Definition trimStartL (l : list ascii) : list ascii := dropWhile isWhitespace l.
Definition trimEndL (l : list ascii) : list ascii :=
  rev (dropWhile isWhitespace (rev l)).

(** [s.trim()] *)
Definition trim (s : string) : string :=
  str (trimEndL (trimStartL (chars s))).

(** [s.lastIndexOf(c)] for a one-character pattern; [None] stands for -1. *)
Fixpoint lastIndexOfL (c : ascii) (l : list ascii) : option nat :=
  match l with
  | [] => None
  | x :: l' =>
      match lastIndexOfL c l' with
      | Some i => Some (S i)
      | None => if Ascii.eqb x c then Some 0 else None
      end
  end.

Definition lastIndexOf (c : ascii) (s : string) : option nat :=
  lastIndexOfL c (chars s).

(** The number of maximal runs of characters satisfying [p]. *)
Fixpoint countRuns (p : ascii -> bool) (inRun : bool) (l : list ascii) : nat :=
  match l with
  | [] => 0
  | c :: l' =>
      if p c then (if inRun then 0 else 1) + countRuns p true l'
      else countRuns p false l'
  end.

(** [s.split(/\s+/).length]: one piece more than there are white-space runs. *)
Definition splitWhitespaceLength (s : string) : nat :=
  S (countRuns isWhitespace false (chars s)).

(** [s.replace(/\s+/g, ' ')] *)
Fixpoint collapseWhitespaceL (inRun : bool) (l : list ascii) : list ascii :=
  match l with
  | [] => []
  | c :: l' =>
      if isWhitespace c
      then (if inRun then [] else [" "%char]) ++ collapseWhitespaceL true l'
      else c :: collapseWhitespaceL false l'
  end.

Definition collapseWhitespace (s : string) : string :=
  str (collapseWhitespaceL false (chars s)).

(** Global removal of a code fence: [s.replace(/FENCE[a-z]*\n?/g, '')] when
    [letters] is set and [s.replace(/FENCE\n?/g, '')] otherwise.  Matches
    are found left to right and do not overlap; [[a-z]*] is greedy. *)
Inductive FenceMode : Type :=
| Scan                      (* looking for the next match *)
| Drop (n : nat)            (* drop this character and n more of the fence *)
| Letters                   (* inside [a-z]* *)
| Newline.                  (* at the optional \n *)

Definition afterFence (letters : bool) : FenceMode :=
  if letters then Letters else Newline.

Fixpoint removeFenceL (fence : string) (letters : bool)
         (m : FenceMode) (l : list ascii) : list ascii :=
  match l with
  | [] => []
  | c :: l' =>
      let scanHere :=
        if startsWith (str l) fence && negb (String.length fence =? 0)
        then
          match String.length fence with
          | 1 => removeFenceL fence letters (afterFence letters) l'
          | k => removeFenceL fence letters (Drop (k - 2)) l'
          end
        else c :: removeFenceL fence letters Scan l' in
      let newlineHere :=
        if Ascii.eqb c "010"%char
        then removeFenceL fence letters Scan l'
        else scanHere in
      match m with
      | Scan => scanHere
      | Drop 0 => removeFenceL fence letters (afterFence letters) l'
      | Drop (S n) => removeFenceL fence letters (Drop n) l'
      | Letters =>
          if isLowerAZ c
          then removeFenceL fence letters Letters l'
          else newlineHere
      | Newline => newlineHere
      end
  end.

Definition removeFence (fence : string) (letters : bool) (s : string) : string :=
  str (removeFenceL fence letters Scan (chars s)).

Definition isQuote (c : ascii) : bool :=
  Ascii.eqb c "034"%char || Ascii.eqb c "'"%char.

(** [s.replace(/^["']|["']$/g, '')]: one quote at the start and one at the
    end of what is left. *)
Definition stripOuterQuotes (s : string) : string :=
  let l1 := match chars s with
            | c :: l' => if isQuote c then l' else c :: l'
            | [] => []
            end in
  let l2 := match rev l1 with
            | c :: r => if isQuote c then rev r else l1
            | [] => []
            end in
  str l2.

(** Template-literal rendering of an integer (in decimal, as JavaScript
    prints the integers below 10^21). *)
Definition ofZ (z : Z) : string := NilZero.string_of_int (Z.to_int z).
Definition ofNat (n : nat) : string := ofZ (Z.of_nat n).

Definition nl : string := String "010"%char EmptyString.

End JsString.

Import JsString.

(** ** Errors, outcomes and events *)

(** [Error]: an object with a [message]. *)
Record Error : Type := mkError { message : string }.

(** What a [catch (error)] clause of a service may receive: the [message] of
    a foreign error can be [undefined], hence the [error.message?.includes]
    and [error.message || 'Unknown error'] of the source. *)
Record CaughtError : Type := mkCaught { caughtMessage : option string }.

Definition caught (m : string) : CaughtError := mkCaught (Some m).

(** [error.message?.includes(p)] used as a condition. *)
Definition messageIncludes (e : CaughtError) (p : string) : bool :=
  match caughtMessage e with
  | Some m => includes m p
  | None => false
  end.

(** [`${error.message}`] *)
Definition messageText (e : CaughtError) : string :=
  match caughtMessage e with
  | Some m => m
  | None => "undefined"
  end.

Inductive Outcome (E A : Type) : Type :=
| Returned (a : A)
| Thrown (e : E).
Arguments Returned {E A} a.
Arguments Thrown {E A} e.

Inductive Level : Type := LOG | WARN | ERROR.

(** A generated-text request: the prompt template and the values that fill
    its holes (the fixed instruction text of a template is not repeated). *)
Inductive Prompt (Doc : Type) : Type :=
| ArticleAnalysisPrompt (articleText : string)
| PersonaGenerationPrompt (analysis : Doc) (designBrief : string)
| AudioScriptPrompt (persona : Doc) (wordCountGuidance : string).
Arguments ArticleAnalysisPrompt {Doc} articleText.
Arguments PersonaGenerationPrompt {Doc} analysis designBrief.
Arguments AudioScriptPrompt {Doc} persona wordCountGuidance.

(** What a computation did, in order.  [Invoked] is one call of the wrapped
    function by the retry executor, with the events of that call inside. *)
#[warnings="-register-all"]
Inductive Event (Doc : Type) : Type :=
| Logged (level : Level) (line : string)
| Slept (ms : Z)
| Invoked (operationName : string) (inner : list (Event Doc))
| Requested (prompt : Prompt Doc)
| Converted (voiceId : string) (text : string).
Arguments Logged {Doc} level line.
Arguments Slept {Doc} ms.
Arguments Invoked {Doc} operationName inner.
Arguments Requested {Doc} prompt.
Arguments Converted {Doc} voiceId text.

Definition isInvoked {Doc} (ev : Event Doc) : bool :=
  match ev with Invoked _ _ => true | _ => false end.

(** The invocations, delays and requests of a trace (top level only: what
    happens inside an invocation belongs to the invoked function). *)
Definition invocations {Doc} (tr : list (Event Doc)) : nat :=
  List.length (filter isInvoked tr).
Definition delays {Doc} (tr : list (Event Doc)) : list Z :=
  flat_map (fun ev => match ev with Slept ms => [ms] | _ => [] end) tr.
Definition requests {Doc} (tr : list (Event Doc)) : list (Prompt Doc) :=
  flat_map (fun ev => match ev with Requested p => [p] | _ => [] end) tr.

(** ** The monad of asynchronous code *)

Section Async.

Variable W : Type.     (* the world: remote services and the clock *)
Variable Doc : Type.   (* documents carried by prompts *)

(** A computation started in a world ends by returning or throwing, in a
    new world, having performed some events. *)
Definition M (E A : Type) : Type := W -> Outcome E A * W * list (Event Doc).

Definition ret {E A} (a : A) : M E A := fun w => (Returned a, w, []).
Definition throw {E A} (e : E) : M E A := fun w => (Thrown e, w, []).

Definition bind {E A B} (c : M E A) (k : A -> M E B) : M E B :=
  fun w =>
    match c w with
    | (Returned a, w1, tr1) =>
        let '(r, w2, tr2) := k a w1 in (r, w2, tr1 ++ tr2)
    | (Thrown e, w1, tr1) => (Thrown e, w1, tr1)
    end.

(** [try { c } catch (error) { h error }] *)
Definition tryCatch {E E' A} (c : M E A) (h : E -> M E' A) : M E' A :=
  fun w =>
    match c w with
    | (Returned a, w1, tr1) => (Returned a, w1, tr1)
    | (Thrown e, w1, tr1) =>
        let '(r, w2, tr2) := h e w1 in (r, w2, tr1 ++ tr2)
    end.

Definition emit {E} (ev : Event Doc) : M E unit :=
  fun w => (Returned tt, w, [ev]).

(** [this.logger.log / warn / error] of the pipeline service. *)
Definition logger {E} (level : Level) (line : string) : M E unit :=
  emit (Logged level line).

End Async.

Arguments ret {W Doc E A} a.
Arguments throw {W Doc E A} e.
Arguments bind {W Doc E A B} c k.
Arguments tryCatch {W Doc E E' A} c h.
Arguments emit {W Doc E} ev.
Arguments logger {W Doc E} level line.

Declare Scope async_scope.
Delimit Scope async_scope with async.
Notation "x <- c ;; k" := (bind c (fun x => k))
  (at level 61, c at next level, right associativity) : async_scope.
Notation "c ;; k" := (bind c (fun _ => k))
  (at level 61, right associativity) : async_scope.
Local Open Scope async_scope.

(** Pure code that may throw: [inl m] is an error thrown with message [m]. *)
Definition Res (A : Type) : Type := (string + A)%type.

Notation "'let!' x ':=' c 'in' k" :=
  (match c with inl e => inl e | inr x => k end)
  (at level 10, x name, c at level 100, k at level 200).

(** ** JSON documents *)

Module Json.

(** The values [JSON.parse] builds.  A number is an IEEE double; the members
    of an object are kept in order, one per key. *)
#[warnings="-register-all"]
Inductive JSON : Type :=
| JNull
| JBool (b : bool)
| JNum (x : float)
| JStr (s : string)
| JArr (items : list JSON)
| JObj (members : list (string * JSON)).

(** A JavaScript value read out of a document: [None] is [undefined]. *)
Definition Value : Type := option JSON.

(** [!!v] *)
Definition truthy (v : Value) : bool :=
  match v with
  | None => false
  | Some JNull => false
  | Some (JBool b) => b
  | Some (JNum x) => negb (PrimFloat.eqb x 0%float || PrimFloat.is_nan x)
  | Some (JStr s) => negb (String.eqb s "")
  | Some (JArr _) => true
  | Some (JObj _) => true
  end.

Fixpoint lookupMember (k : string) (members : list (string * JSON)) : Value :=
  match members with
  | [] => None
  | (k', v) :: rest => if String.eqb k' k then Some v else lookupMember k rest
  end.

(** [v.k] and [v[k]] for the field names the parsers read (none of them is
    a property of a string, number, boolean or array): a TypeError on
    [undefined] and [null]. *)
Definition getProp (v : Value) (k : string) : Res Value :=
  match v with
  | None => inl ("Cannot read properties of undefined (reading '" +++ k +++ "')")
  | Some JNull => inl ("Cannot read properties of null (reading '" +++ k +++ "')")
  | Some (JObj members) => inr (lookupMember k members)
  | Some _ => inr None
  end.

(** [Array.isArray(v)] *)
Definition isArray (v : Value) : bool :=
  match v with Some (JArr _) => true | _ => false end.

(** [v.length === 0] for an array [v]. *)
Definition isEmptyArray (v : Value) : bool :=
  match v with Some (JArr []) => true | _ => false end.

Fixpoint setMember (k : string) (v : JSON) (members : list (string * JSON))
  : list (string * JSON) :=
  match members with
  | [] => [(k, v)]
  | (k', v') :: rest =>
      if String.eqb k' k then (k, v) :: rest else (k', v') :: setMember k v rest
  end.

(** The object [parsed] once its member [k] has become [v]. *)
Definition withMember (parsed : JSON) (k : string) (v : JSON) : JSON :=
  match parsed with
  | JObj members => JObj (setMember k v members)
  | other => other
  end.

Section Assign.

(** [Number.prototype.toString] *)
Variable numberToString : float -> string.

(** [target.k = v] in strict mode, giving the target afterwards.  An array
    keeps its items (a named property is not one of them); a primitive
    makes the assignment throw. *)
Definition assignProp (target : Value) (k : string) (v : JSON) : Res JSON :=
  match target with
  | None => inl ("Cannot set properties of undefined (setting '" +++ k +++ "')")
  | Some JNull => inl ("Cannot set properties of null (setting '" +++ k +++ "')")
  | Some (JObj members) => inr (JObj (setMember k v members))
  | Some (JArr items) => inr (JArr items)
  | Some (JBool b) =>
      inl ("Cannot create property '" +++ k +++ "' on boolean '"
           +++ (if b then "true" else "false") +++ "'")
  | Some (JNum x) =>
      inl ("Cannot create property '" +++ k +++ "' on number '"
           +++ numberToString x +++ "'")
  | Some (JStr s) =>
      inl ("Cannot create property '" +++ k +++ "' on string '" +++ s +++ "'")
  end.

End Assign.

End Json.

Import Json.

(** ** GeminiService *)

Module GeminiService.

(** How [Promise.race([model.generateContent(prompt), timer])] settles. *)
Inductive Settled : Type :=
| Fulfilled (text : string)
    (* the request resolved; [text] is
       result.response.candidates[0].content.parts[0].text *)
| Rejected (e : CaughtError)
    (* the request rejected, or the response has no such text *)
| TimedOut.
    (* the 30 second timer settled first *)

(** [text.trim()], then the two fence replacements when it starts with a fence. *)
Definition stripJsonFences (text : string) : string :=
  let cleanText := trim text in
  if startsWith cleanText "```"
  then removeFence "```" false (removeFence "```json" false cleanText)
  else cleanText.

Definition validVerbosity : list string := [ "low"; "medium"; "high" ].

(** [validVerbosity.includes(v)] *)
Definition isValidVerbosity (v : Value) : bool :=
  match v with
  | Some (JStr s) => existsb (String.eqb s) validVerbosity
  | _ => false
  end.

(** [!parsed.f1 || !parsed.f2 || ...], read left to right. *)
Fixpoint anyFalsy (parsed : Value) (fields : list string) : Res bool :=
  match fields with
  | [] => inr false
  | field :: rest =>
      let! v := getProp parsed field in
      if truthy v then anyFalsy parsed rest else inr true
  end.

(** [for (const field of requiredFields) if (!parsed[field]) throw ...] *)
Fixpoint checkRequired (parsed : Value) (fields : list string) : Res unit :=
  match fields with
  | [] => inr tt
  | field :: rest =>
      let! v := getProp parsed field in
      if truthy v then checkRequired parsed rest
      else inl ("Missing required field: " +++ field)
  end.

Definition requiredFields : list string :=
  [ "personaName"; "summary"; "professionalContext"; "communicationStyle";
    "designBiases"; "contentBiases"; "briefConflicts"; "designGuidance" ].

Section Parsers.

(** [JSON.parse]: [inl m] is a SyntaxError with message [m]. *)
Variable JSON_parse : string -> Res JSON.
Variable numberToString : float -> string.

(** The verbosity check that ends both parsers:
    [if (!validVerbosity.includes(parsed.communicationStyle.verbosity))
       parsed.communicationStyle.verbosity = 'medium'] *)
Definition repairVerbosity (parsed : JSON) : Res JSON :=
  let! communicationStyle := getProp (Some parsed) "communicationStyle" in
  let! verbosity := getProp communicationStyle "verbosity" in
  if isValidVerbosity verbosity then inr parsed
  else
    let! repaired := assignProp numberToString communicationStyle "verbosity" (JStr "medium") in
    inr (withMember parsed "communicationStyle" repaired).

(** The [catch] of both parsers. *)
Definition parseFailure {A} (r : Res A) : Error + A :=
  match r with
  | inl m => inl (mkError ("Failed to parse Gemini response: " +++ m))
  | inr a => inr a
  end.

(** The validation of [parseProfileAnalysis], from the structure check to
    the verbosity check. *)
Definition validateAnalysis (parsed : JSON) : Res JSON :=
  let! missing :=
    anyFalsy (Some parsed)
      [ "professionalContext"; "communicationStyle";
        "inferredDesignPreferences"; "inferredContentPreferences" ] in
  if missing then inl "Invalid profile analysis structure"
  else repairVerbosity parsed.

Definition parseProfileAnalysis (text : string) : Error + JSON :=
  parseFailure
    (let cleanText := stripJsonFences text in
     let! parsed := JSON_parse cleanText in
     validateAnalysis parsed).

(** The validation of [parsePersonaResult], from the loop over the required
    fields to the verbosity check. *)
Definition validatePersona (parsed : JSON) : Res JSON :=
  let! _ := checkRequired (Some parsed) requiredFields in
  let! professionalContext := getProp (Some parsed) "professionalContext" in
  let! bad := anyFalsy professionalContext [ "role"; "industry"; "seniority" ] in
  if bad then inl "Invalid professionalContext structure" else
  let! communicationStyle := getProp (Some parsed) "communicationStyle" in
  let! bad := anyFalsy communicationStyle [ "tone"; "verbosity" ] in
  if bad then inl "Invalid communicationStyle structure" else
  let! designBiases := getProp (Some parsed) "designBiases" in
  let! bad := anyFalsy designBiases [ "visualStyle"; "uxPriority" ] in
  if bad then inl "Invalid designBiases structure" else
  let! contentBiases := getProp (Some parsed) "contentBiases" in
  let! respondsTo := getProp contentBiases "respondsTo" in
  if negb (isArray respondsTo) then inl "Invalid contentBiases structure" else
  let! avoids := getProp contentBiases "avoids" in
  if negb (isArray avoids) then inl "Invalid contentBiases structure" else
  let! briefConflicts := getProp (Some parsed) "briefConflicts" in
  if negb (isArray briefConflicts) then inl "briefConflicts must be an array" else
  let! designGuidance := getProp (Some parsed) "designGuidance" in
  let! bad := anyFalsy designGuidance [ "do"; "avoid" ] in
  if bad then inl "Invalid designGuidance structure" else
  let! do_ := getProp designGuidance "do" in
  if negb (isArray do_)
  then inl "designGuidance.do and designGuidance.avoid must be arrays" else
  let! avoid := getProp designGuidance "avoid" in
  if negb (isArray avoid)
  then inl "designGuidance.do and designGuidance.avoid must be arrays" else
  if isEmptyArray do_
  then inl "designGuidance.do must contain at least one item" else
  if isEmptyArray avoid
  then inl "designGuidance.avoid must contain at least one item" else
  repairVerbosity parsed.

Definition parsePersonaResult (text : string) : Error + JSON :=
  parseFailure
    (let cleanText := stripJsonFences text in
     let! parsed := JSON_parse cleanText in
     validatePersona parsed).

End Parsers.

(** [cleanAudioScript] *)
Definition cleanAudioScript (text : string) : string :=
  let cleanText := trim text in
  let cleanText :=
    if startsWith cleanText "```"
    then removeFence "```" false (removeFence "```" true cleanText)
    else cleanText in
  let cleanText := stripOuterQuotes cleanText in
  trim (collapseWhitespace cleanText).

(** [countWords]: the non-empty pieces of [text.split(/\s+/)]. *)
Definition countWords (text : string) : nat :=
  countRuns (fun c => negb (isWhitespace c)) false (chars text).

(** [buildAudioScriptPrompt(persona, previousWordCount?)]: the guidance line
    is added when [previousWordCount] is truthy. *)
Definition buildAudioScriptPrompt (persona : JSON) (previousWordCount : option nat)
  : Prompt JSON :=
  let wordCountGuidance :=
    match previousWordCount with
    | Some n =>
        if n =? 0 then ""
        else nl +++ "IMPORTANT: Your previous attempt had " +++ ofNat n
             +++ " words. Please adjust to be between 110-130 words exactly."
    | None => ""
    end in
  AudioScriptPrompt persona wordCountGuidance.

(** The truncation applied to a script of more than 800 characters (the
    same statements follow both the first draft and the regenerated one):
    [truncated = script.substring(0, 800).trim()],
    [lastPeriod = truncated.lastIndexOf('.')], and
    [lastPeriod > 600 ? truncated.substring(0, lastPeriod + 1) : truncated]. *)
Definition truncateScript (script : string) : string :=
  let truncated := trim (substring0 800 script) in
  let lastPeriod := lastIndexOf "."%char truncated in
  match lastPeriod with
  | Some i => if 600 <? i then substring0 (i + 1) truncated else truncated
  | None => truncated
  end.

Section Service.

Variable W : Type.
Variable JSON_parse : string -> Res JSON.
Variable numberToString : float -> string.
(** The remote model, raced against the 30 second timer. *)
Variable generateContent : Prompt JSON -> W -> Settled * W.

(** [await Promise.race([model.generateContent(prompt), timer])] and the
    reading of the text of the response. *)
Definition request (prompt : Prompt JSON) : M W JSON CaughtError string :=
  fun w =>
    match generateContent prompt w with
    | (Fulfilled text, w1) => (Returned text, w1, [Requested prompt])
    | (Rejected e, w1) => (Thrown e, w1, [Requested prompt])
    | (TimedOut, w1) => (Thrown (caught "Gemini API timeout"), w1, [Requested prompt])
    end.

(** A parser called inside the [try] of a method. *)
Definition parsed {A} (r : Error + A) : M W JSON CaughtError A :=
  match r with
  | inl e => throw (caught (message e))
  | inr a => ret a
  end.

(** The [catch] shared by the methods, which differ in [context] only. *)
Definition rethrow {A} (context : string) (error : CaughtError) : M W JSON Error A :=
  if messageIncludes error "timeout" then
    throw (mkError "Gemini API timeout. Please try again.")
  else if messageIncludes error "API key" || messageIncludes error "authentication" then
    throw (mkError "Invalid Gemini API credentials. Please check your configuration.")
  else if messageIncludes error "quota" || messageIncludes error "rate limit" then
    throw (mkError "Gemini API rate limit exceeded. Please try again later.")
  else
    throw (mkError (context +++ messageText error)).

Definition analyzeArticleText (articleText : string) : M W JSON Error JSON :=
  tryCatch
    (text <- request (ArticleAnalysisPrompt articleText) ;;
     parsed (parseProfileAnalysis JSON_parse numberToString text))
    (rethrow "Failed to analyze article text: ").

Definition generatePersona (analysis : JSON) (designBrief : string)
  : M W JSON Error JSON :=
  tryCatch
    (text <- request (PersonaGenerationPrompt analysis designBrief) ;;
     parsed (parsePersonaResult JSON_parse numberToString text))
    (rethrow "Failed to generate persona: ").

Definition generateAudioScript (persona : JSON) : M W JSON Error string :=
  tryCatch
    (let prompt := buildAudioScriptPrompt persona None in
     text <- request prompt ;;
     let script := cleanAudioScript text in
     let wordCount := countWords script in
     let charCount := String.length script in
     if 800 <? charCount then
       ret (truncateScript script)
     else if (wordCount <? 110) || (150 <? wordCount) then
       let retryPrompt := buildAudioScriptPrompt persona (Some wordCount) in
       retryText <- request retryPrompt ;;
       let retryScript := cleanAudioScript retryText in
       let retryWordCount := countWords retryScript in
       let retryCharCount := String.length retryScript in
       if 800 <? retryCharCount then
         ret (truncateScript retryScript)
       else
         let finalScript :=
           if (110 <=? retryWordCount) && (retryWordCount <=? 150)
           then retryScript else script in
         ret finalScript
     else
       ret script)
    (rethrow "Failed to generate audio script: ").

End Service.

End GeminiService.

(** ** ElevenLabsService *)

Module ElevenLabsService.

Record AudioResult : Type := mkAudioResult {
  audioBuffer : list Byte.byte;
  audioUrl : option string;
  duration : Z
}.

(** The stream [textToSpeech.convert] resolves with: the chunks read by
    [for await], and the error that ends the reading, if one does. *)
Record AudioStream : Type := mkAudioStream {
  chunks : list (list Byte.byte);
  streamError : option CaughtError
}.

Section Service.

Variable W : Type.
Variable Doc : Type.
(** 'EXAVITQu4vr4xnSDxMaL' unless configured otherwise. *)
Variable voiceId : string.
(** [this.client.textToSpeech.convert(voiceId, { text, ... })] *)
Variable convert : string -> string -> W -> (CaughtError + AudioStream) * W.
(** [Math.ceil((wordCount / 150) * 60)], computed on doubles. *)
Variable estimatedDuration : nat -> Z.

Definition textToSpeech (script : string) : M W Doc CaughtError AudioStream :=
  fun w =>
    match convert voiceId script w with
    | (inr stream, w1) => (Returned stream, w1, [Converted voiceId script])
    | (inl e, w1) => (Thrown e, w1, [Converted voiceId script])
    end.

(** The [try] block of [synthesizeSpeech]. *)
Definition synthesizeBody (script : string) : M W Doc CaughtError AudioResult :=
  if String.eqb script "" || (String.length (trim script) =? 0) then
    throw (caught "Script cannot be empty")
  else
    audioStream <- textToSpeech script ;;
    match streamError audioStream with
    | Some e => throw e
    | None =>
        let audioBuffer := concat (chunks audioStream) in
        let wordCount := splitWhitespaceLength script in
        ret (mkAudioResult audioBuffer None (estimatedDuration wordCount))
    end.

Definition synthesizeSpeech (script : string) : M W Doc Error AudioResult :=
  tryCatch (synthesizeBody script)
    (fun error =>
       if messageIncludes error "quota" || messageIncludes error "rate limit" then
         throw (mkError "ElevenLabs rate limit exceeded. Please try again later.")
       else if messageIncludes error "authentication" || messageIncludes error "API key" then
         throw (mkError "ElevenLabs authentication failed. Please check API key configuration.")
       else if messageIncludes error "Script cannot be empty" then
         throw (mkError (messageText error))
       else
         throw (mkError ("Audio synthesis failed: "
                         +++ match caughtMessage error with
                             | Some m => if String.eqb m "" then "Unknown error" else m
                             | None => "Unknown error"
                             end))).

End Service.

End ElevenLabsService.

(** ** PersonaPipelineService: classifier and retry executor *)

Module PersonaPipelineService.

Definition transientPatterns : list string :=
  [ "timeout"; "network"; "connection"; "econnrefused"; "enotfound";
    "etimedout"; "socket hang up"; "temporarily unavailable" ].

Definition nonRetryablePatterns : list string :=
  [ "rate limit"; "quota"; "authentication"; "api key"; "invalid";
    "not found"; "private"; "inaccessible"; "validation" ].

Definition isTransientError (error : Error) : bool :=
  let message := toLowerCase (message error) in
  let isTransient :=
    existsb (fun pattern => includes message pattern) transientPatterns in
  let isNonRetryable :=
    existsb (fun pattern => includes message pattern) nonRetryablePatterns in
  isTransient && negb isNonRetryable.

Section Executor.

Variable W : Type.
Variable Doc : Type.
(** [sleep(ms)]: the world after a timer of [ms] milliseconds. *)
Variable sleepWorld : Z -> W -> W.

Definition sleep (ms : Z) : M W Doc Error unit :=
  fun w => (Returned tt, sleepWorld ms w, [Slept ms]).

(** [await fn()]: the events of the call are kept inside [Invoked]. *)
Definition invoke {T} (operationName : string) (fn : M W Doc Error T)
  : M W Doc Error T :=
  fun w => let '(r, w1, tr) := fn w in (r, w1, [Invoked operationName tr]).

(** The values of [attempt] in
    [for (let attempt = 0; attempt <= maxRetries; attempt++)]. *)
Definition attemptRange (maxRetries : Z) : list Z :=
  map Z.of_nat (seq 0 (Z.to_nat (maxRetries + 1))).

(** The loop of [retryWithBackoff] over the remaining values of [attempt];
    once they are used up, the [throw] that follows the loop. *)
Fixpoint retryLoop {T} (fn : M W Doc Error T) (operationName : string)
         (maxRetries : Z) (attempts : list Z) (lastError : option Error)
  : M W Doc Error T :=
  match attempts with
  | [] =>
      match lastError with
      | Some e => throw e
      | None => throw (mkError (operationName +++ " failed after all retries"))
      end
  | attempt :: rest =>
      tryCatch (invoke operationName fn)
        (fun error =>
           let isTransient := isTransientError error in
           if (attempt =? maxRetries)%Z || negb isTransient then
             logger ERROR
               (operationName +++ " failed after " +++ ofZ (attempt + 1)
                +++ " attempt(s): " +++ message error) ;;
             throw error
           else
             let delay := (2 ^ attempt * 1000)%Z in
             logger WARN
               (operationName +++ " failed (attempt " +++ ofZ (attempt + 1)
                +++ "/" +++ ofZ (maxRetries + 1) +++ "): " +++ message error
                +++ ". Retrying in " +++ ofZ delay +++ "ms...") ;;
             sleep delay ;;
             retryLoop fn operationName maxRetries rest (Some error))
  end.

Definition retryWithBackoff {T} (fn : M W Doc Error T) (operationName : string)
           (maxRetries : Z) : M W Doc Error T :=
  retryLoop fn operationName maxRetries (attemptRange maxRetries) None.

End Executor.

(** *** The pipeline *)

Record PersonaGenerationResult (PersonaResult : Type) : Type := mkResult {
  persona : PersonaResult;
  audioUrl : string;
  audioScript : string;
  processingTime : Z
}.
Arguments mkResult {PersonaResult} persona audioUrl audioScript processingTime.
Arguments persona {PersonaResult} p.
Arguments audioUrl {PersonaResult} p.
Arguments audioScript {PersonaResult} p.
Arguments processingTime {PersonaResult} p.

(** The injected [GeminiService], as the pipeline uses it. *)
Record GeminiServiceOps (W Doc ProfileAnalysis PersonaResult : Type) : Type := {
  analyzeArticleText : string -> M W Doc Error ProfileAnalysis;
  generatePersonaFrom : ProfileAnalysis -> string -> M W Doc Error PersonaResult;
  generateAudioScript : PersonaResult -> M W Doc Error string
}.
Arguments analyzeArticleText {W Doc ProfileAnalysis PersonaResult} g articleText.
Arguments generatePersonaFrom {W Doc ProfileAnalysis PersonaResult} g analysis designBrief.
Arguments generateAudioScript {W Doc ProfileAnalysis PersonaResult} g persona.

(** The injected [ElevenLabsService]. *)
Record ElevenLabsServiceOps (W Doc : Type) : Type := {
  synthesizeSpeech : string -> M W Doc Error ElevenLabsService.AudioResult
}.
Arguments synthesizeSpeech {W Doc} e script.

Section Pipeline.

Variable W : Type.
Variable Doc : Type.
Variable ProfileAnalysis : Type.
Variable PersonaResult : Type.
(** [persona.personaName] *)
Variable personaName : PersonaResult -> string.
(** [Date.now()] *)
Variable now : W -> Z.
Variable sleepWorld : Z -> W -> W.
(** [buffer.toString('base64')] *)
Variable toBase64 : list Byte.byte -> string.
Variable geminiService : GeminiServiceOps W Doc ProfileAnalysis PersonaResult.
Variable elevenLabsService : ElevenLabsServiceOps W Doc.

Definition dateNow : M W Doc Error Z := fun w => (Returned (now w), w, []).

Definition stage1 (articleText : string) : M W Doc Error ProfileAnalysis :=
  retryWithBackoff W Doc sleepWorld
    (analyzeArticleText geminiService articleText) "Article text analysis" 2.

Definition stage2 (analysis : ProfileAnalysis) (designBrief : string)
  : M W Doc Error PersonaResult :=
  retryWithBackoff W Doc sleepWorld
    (generatePersonaFrom geminiService analysis designBrief) "Persona generation" 2.

Definition stage3 (persona : PersonaResult) : M W Doc Error string :=
  retryWithBackoff W Doc sleepWorld
    (generateAudioScript geminiService persona) "Audio script generation" 2.

Definition stage4 (audioScript : string)
  : M W Doc Error ElevenLabsService.AudioResult :=
  retryWithBackoff W Doc sleepWorld
    (synthesizeSpeech elevenLabsService audioScript) "Audio synthesis" 2.

(** The inner [try]/[catch] of step 4, giving [audioUrl].  The handler only
    logs ([JSON.stringify] of an [Error] is {}) and leaves the URL empty. *)
Definition synthesizeOrDegrade (audioScript : string) : M W Doc Error string :=
  tryCatch
    (logger LOG "Calling ElevenLabs service..." ;;
     audioResult <- stage4 audioScript ;;
     let buffer := ElevenLabsService.audioBuffer audioResult in
     logger LOG ("Audio result received. Buffer size: "
                 +++ ofNat (List.length buffer) +++ " bytes") ;;
     let base64Audio := toBase64 buffer in
     logger LOG ("Base64 conversion complete. Length: "
                 +++ ofNat (String.length base64Audio) +++ " characters") ;;
     let audioUrl := "data:audio/mpeg;base64," +++ base64Audio in
     logger LOG ("Audio URL created. Length: "
                 +++ ofNat (String.length audioUrl) +++ " characters") ;;
     logger LOG "Audio synthesis complete" ;;
     ret audioUrl)
    (fun audioError =>
       logger ERROR ("Audio synthesis failed: " +++ message audioError) ;;
       logger ERROR "Full error object:" ;;
       logger WARN "Continuing without audio - text script will be provided" ;;
       ret "").

Definition generatePersona (articleText designBrief : string)
  : M W Doc Error (PersonaGenerationResult PersonaResult) :=
  logger LOG "Starting persona generation pipeline" ;;
  startTime <- dateNow ;;
  tryCatch
    (logger LOG "Step 1/4: Analyzing article text with Gemini" ;;
     analysis <- stage1 articleText ;;
     logger LOG "Article analysis complete" ;;
     logger LOG "Step 2/4: Generating persona with Gemini" ;;
     persona <- stage2 analysis designBrief ;;
     logger LOG ("Persona generated: " +++ personaName persona) ;;
     logger LOG "Step 3/4: Generating audio script with Gemini" ;;
     audioScript <- stage3 persona ;;
     logger LOG ("Audio script generated ("
                 +++ ofNat (splitWhitespaceLength audioScript) +++ " words)") ;;
     logger LOG "Step 4/4: Synthesizing audio with ElevenLabs" ;;
     audioUrl <- synthesizeOrDegrade audioScript ;;
     endTime <- dateNow ;;
     let processingTime := (endTime - startTime)%Z in
     logger LOG ("Pipeline complete in " +++ ofZ processingTime +++ "ms") ;;
     ret (mkResult persona audioUrl audioScript processingTime))
    (fun error =>
       endTime <- dateNow ;;
       let processingTime := (endTime - startTime)%Z in
       logger ERROR ("Pipeline failed after " +++ ofZ processingTime
                     +++ "ms: " +++ message error) ;;
       throw (mkError ("Persona generation failed: " +++ message error))).

(** The runs in which one of the first three stages fails after the retry
    handling: the error it throws and the world it leaves. *)
Inductive FatalStage (articleText designBrief : string) (w0 : W) : Error -> W -> Prop :=
| fatal_analysis e w1 tr1 :
    stage1 articleText w0 = (Thrown e, w1, tr1) ->
    FatalStage articleText designBrief w0 e w1
| fatal_persona analysis w1 tr1 e w2 tr2 :
    stage1 articleText w0 = (Returned analysis, w1, tr1) ->
    stage2 analysis designBrief w1 = (Thrown e, w2, tr2) ->
    FatalStage articleText designBrief w0 e w2
| fatal_script analysis w1 tr1 persona w2 tr2 e w3 tr3 :
    stage1 articleText w0 = (Returned analysis, w1, tr1) ->
    stage2 analysis designBrief w1 = (Returned persona, w2, tr2) ->
    stage3 persona w2 = (Thrown e, w3, tr3) ->
    FatalStage articleText designBrief w0 e w3.

End Pipeline.

End PersonaPipelineService.

(** ** The services wired together, as the application injects them *)

Module App.

(** [String(v)], the rendering of a value inside a template literal. *)
Fixpoint render (numberToString : float -> string) (v : JSON) : string :=
  match v with
  | JNull => "null"
  | JBool b => if b then "true" else "false"
  | JNum x => numberToString x
  | JStr s => s
  | JArr items =>
      (fix join (items : list JSON) : string :=
         match items with
         | [] => ""
         | item :: rest =>
             (match item with
              | JNull => ""
              | other => render numberToString other
              end)
             +++ (match rest with [] => "" | _ => "," +++ join rest end)
         end) items
  | JObj _ => "[object Object]"
  end.

Section Wiring.

Variable W : Type.
Variable JSON_parse : string -> Res JSON.
Variable numberToString : float -> string.
Variable generateContent : Prompt JSON -> W -> GeminiService.Settled * W.
Variable voiceId : string.
Variable convert :
  string -> string -> W -> (CaughtError + ElevenLabsService.AudioStream) * W.
Variable estimatedDuration : nat -> Z.
Variable now : W -> Z.
Variable sleepWorld : Z -> W -> W.
Variable toBase64 : list Byte.byte -> string.

Definition geminiService : PersonaPipelineService.GeminiServiceOps W JSON JSON JSON :=
  {| PersonaPipelineService.analyzeArticleText :=
       GeminiService.analyzeArticleText W JSON_parse numberToString generateContent;
     PersonaPipelineService.generatePersonaFrom :=
       GeminiService.generatePersona W JSON_parse numberToString generateContent;
     PersonaPipelineService.generateAudioScript :=
       GeminiService.generateAudioScript W generateContent |}.

Definition elevenLabsService : PersonaPipelineService.ElevenLabsServiceOps W JSON :=
  {| PersonaPipelineService.synthesizeSpeech :=
       ElevenLabsService.synthesizeSpeech W JSON voiceId convert estimatedDuration |}.

(** [`${persona.personaName}`] *)
Definition personaName (persona : JSON) : string :=
  match getProp (Some persona) "personaName" with
  | inr (Some v) => render numberToString v
  | _ => "undefined"
  end.

Definition generatePersona (articleText designBrief : string)
  : M W JSON Error (PersonaPipelineService.PersonaGenerationResult JSON) :=
  PersonaPipelineService.generatePersona W JSON JSON JSON personaName now sleepWorld
    toBase64 geminiService elevenLabsService articleText designBrief.

End Wiring.

End App.

(** ** InputForm: the validation before a submission *)

Module InputForm.

Definition minWords : Z := 100.
Definition maxWords : Z := 10000.

(** [text.trim().split(/\s+/).filter(word => word.length > 0).length] *)
Definition wordCount (text : string) : Z :=
  Z.of_nat (GeminiService.countWords (trim text)).

(** [undefined] is [None]. *)
Definition validateArticleText (text : string) : option string :=
  if String.eqb (trim text) "" then Some "Article text is required"
  else
    let words := wordCount text in
    if (words <? minWords)%Z then
      Some ("Article text must be at least " +++ ofZ minWords
            +++ " words (currently " +++ ofZ words +++ " words)")
    else if (maxWords <? words)%Z then
      Some ("Article text must not exceed " +++ ofZ maxWords
            +++ " words (currently " +++ ofZ words +++ " words)")
    else None.

Definition validateDesignBrief (brief : string) : option string :=
  if String.eqb (trim brief) "" then Some "Design brief is required"
  else if String.length (trim brief) <? 10 then
    Some "Design brief must be at least 10 characters"
  else None.

Record ValidationErrors : Type := mkErrors {
  articleTextError : option string;
  designBriefError : option string
}.

(** [if (error) errors.field = error]: the field is set to a truthy error. *)
Definition recorded (error : option string) : option string :=
  match error with
  | Some m => if String.eqb m "" then None else Some m
  | None => None
  end.

(** [Object.keys(errors).length > 0] *)
Definition hasErrors (errors : ValidationErrors) : bool :=
  match articleTextError errors, designBriefError errors with
  | None, None => false
  | _, _ => true
  end.

(** [handleSubmit]: the errors given to [setValidationErrors], and the
    arguments of the call of [onSubmit] when it is made. *)
Definition handleSubmit (articleText designBrief : string)
  : ValidationErrors * option (string * string) :=
  let textError := validateArticleText articleText in
  let briefError := validateDesignBrief designBrief in
  let errors := mkErrors (recorded textError) (recorded briefError) in
  if hasErrors errors then (errors, None)
  else (errors, Some (articleText, designBrief)).

End InputForm.

(** ** main.ts: the origins allowed by CORS *)

Module Main.

(** [s.split(sep)] for a one-character separator: the pieces between the
    separators, of which there is always at least one (the last branch of
    the inner [match] is never taken). *)
Fixpoint splitL (sep : ascii) (l : list ascii) : list (list ascii) :=
  match l with
  | [] => [[]]
  | c :: l' =>
      if Ascii.eqb c sep then [] :: splitL sep l'
      else
        match splitL sep l' with
        | piece :: pieces => (c :: piece) :: pieces
        | [] => [[c]]
        end
  end.

Definition split (sep : ascii) (s : string) : list string :=
  map str (splitL sep (chars s)).

(** [process.env.FRONTEND_URL ? process.env.FRONTEND_URL.split(',').map(url
    => url.trim()) : ['http://localhost:3000']]; an unset variable is [None]. *)
Definition frontendUrls (FRONTEND_URL : option string) : list string :=
  match FRONTEND_URL with
  | Some urls =>
      if String.eqb urls "" then [ "http://localhost:3000" ]
      else map trim (split ","%char urls)
  | None => [ "http://localhost:3000" ]
  end.

End Main.

Import PersonaPipelineService.

(** ** Reading the result of a run *)

Definition outcome {W Doc E A} (r : Outcome E A * W * list (Event Doc)) : Outcome E A :=
  fst (fst r).
Definition world {W Doc E A} (r : Outcome E A * W * list (Event Doc)) : W :=
  snd (fst r).
Definition trace {W Doc E A} (r : Outcome E A * W * list (Event Doc)) : list (Event Doc) :=
  snd r.

(** ** Texts that do not begin with white space *)

Definition startsWithText (l : list ascii) : Prop :=
  match l with
  | [] => True
  | c :: _ => isWhitespace c = false
  end.

(** ** Documents that differ in one nested member *)

(** The document [JObj ms] once the member [inner] of its object [outer]
    has become [v]. *)
Definition withNested (ms : list (string * JSON)) (outer : string)
           (members : list (string * JSON)) (inner : string) (v : JSON) : JSON :=
  JObj (setMember outer (JObj (setMember inner v members)) ms).

(** ** Permanent causes of a synthesis failure *)

Inductive PermanentCause : Type := QuotaOrRateLimit | Authentication | EmptyScript.

(** The cause of the error caught by [synthesizeSpeech], as its [catch]
    tells the causes apart. *)
Definition hasCause (cause : PermanentCause) (script : string) (error : CaughtError)
  : Prop :=
  match cause with
  | QuotaOrRateLimit =>
      messageIncludes error "quota" || messageIncludes error "rate limit" = true
  | Authentication =>
      messageIncludes error "quota" || messageIncludes error "rate limit" = false
      /\ messageIncludes error "authentication" || messageIncludes error "API key" = true
  | EmptyScript =>
      String.eqb script "" || (String.length (trim script) =? 0) = true
  end.

Definition permanentMessage (cause : PermanentCause) : string :=
  match cause with
  | QuotaOrRateLimit => "ElevenLabs rate limit exceeded. Please try again later."
  | Authentication =>
      "ElevenLabs authentication failed. Please check API key configuration."
  | EmptyScript => "Script cannot be empty"
  end.

(** ** The specification's wording, for comparison *)

(** The markers of section 4.1 of the specification, read as the substrings
    they spell. *)
Definition specTransientMarkers : list string :=
  [ "timeout"; "network"; "connection"; "connection-refused"; "host-not-found";
    "time-out"; "socket hang up"; "temporarily unavailable" ].

Definition specNonRetryableMarkers : list string :=
  [ "rate limit"; "quota"; "authentication"; "api key"; "invalid";
    "not found"; "private"; "inaccessible"; "validation" ].

Definition specRetryWorthy (error : Error) : bool :=
  let message := toLowerCase (message error) in
  existsb (includes message) specTransientMarkers
  && negb (existsb (includes message) specNonRetryableMarkers).

(** ** Texts in normal form *)

(** The last character, if there is one, is not white space. *)
Fixpoint endsWithText (l : list ascii) : Prop :=
  match l with
  | [] => True
  | c :: l' =>
      match l' with
      | [] => isWhitespace c = false
      | _ :: _ => endsWithText l'
      end
  end.

(** Every white-space character is a space, and no two are adjacent. *)
Fixpoint singleSpaced (l : list ascii) : Prop :=
  match l with
  | [] => True
  | c :: l' =>
      (isWhitespace c = true -> c = " "%char /\ startsWithText l')
      /\ singleSpaced l'
  end.

(** ** The end of a retried run *)

(** What follows the last invocation in the trace of the retry executor:
    nothing after a value, the error line with the number of attempts after
    an error. *)
Definition closing {Doc T} (operationName : string) (attempts : nat)
           (r : Outcome Error T) : list (Event Doc) :=
  match r with
  | Returned _ => []
  | Thrown e =>
      [ Logged ERROR (operationName +++ " failed after " +++ ofNat attempts
                      +++ " attempt(s): " +++ message e) ]
  end.

(** ** The methods of GeminiService and the failures of a request *)

Section Methods.

Variable W : Type.
Variable JSON_parse : string -> Res JSON.
Variable numberToString : float -> string.
Variable generateContent : Prompt JSON -> W -> GeminiService.Settled * W.

(** A method of the service, with the request it begins with. *)
Inductive GeminiMethod : forall A, Prompt JSON -> M W JSON Error A -> Prop :=
| method_analysis articleText :
    GeminiMethod JSON (ArticleAnalysisPrompt articleText)
      (GeminiService.analyzeArticleText W JSON_parse numberToString generateContent
         articleText)
| method_persona analysis designBrief :
    GeminiMethod JSON (PersonaGenerationPrompt analysis designBrief)
      (GeminiService.generatePersona W JSON_parse numberToString generateContent
         analysis designBrief)
| method_script persona :
    GeminiMethod string (GeminiService.buildAudioScriptPrompt persona None)
      (GeminiService.generateAudioScript W generateContent persona).

End Methods.

(** The rejections the [catch] of a method tells apart from the rest, once
    it has found that the message does not mention a timeout. *)
Inductive Refusal : Type := BadCredentials | OverQuota.

Definition refusedFor (refusal : Refusal) (error : CaughtError) : Prop :=
  messageIncludes error "timeout" = false
  /\ match refusal with
     | BadCredentials =>
         messageIncludes error "API key" || messageIncludes error "authentication" = true
     | OverQuota =>
         messageIncludes error "API key" || messageIncludes error "authentication" = false
         /\ messageIncludes error "quota" || messageIncludes error "rate limit" = true
     end.

Definition refusalMessage (refusal : Refusal) : string :=
  match refusal with
  | BadCredentials => "Invalid Gemini API credentials. Please check your configuration."
  | OverQuota => "Gemini API rate limit exceeded. Please try again later."
  end.

(** ** Reading a member along a path *)

(** [v.k1.k2...], or [undefined] where the reading would throw. *)
Fixpoint getPath (v : Value) (path : list string) : Value :=
  match path with
  | [] => v
  | k :: rest =>
      match getProp v k with
      | inr member => getPath member rest
      | inl _ => None
      end
  end.

(** The members [parsePersonaResult] requires to be truthy, and those it
    requires to be arrays. *)
Definition truthyPaths : list (list string) :=
  [ ["personaName"]; ["summary"]; ["professionalContext"]; ["communicationStyle"];
    ["designBiases"]; ["contentBiases"]; ["briefConflicts"]; ["designGuidance"];
    ["professionalContext"; "role"]; ["professionalContext"; "industry"];
    ["professionalContext"; "seniority"];
    ["communicationStyle"; "tone"]; ["communicationStyle"; "verbosity"];
    ["designBiases"; "visualStyle"]; ["designBiases"; "uxPriority"];
    ["designGuidance"; "do"]; ["designGuidance"; "avoid"] ].

Definition arrayPaths : list (list string) :=
  [ ["contentBiases"; "respondsTo"]; ["contentBiases"; "avoids"];
    ["briefConflicts"]; ["designGuidance"; "do"]; ["designGuidance"; "avoid"] ].

(** The members [parseProfileAnalysis] requires to be truthy. *)
Definition analysisPaths : list (list string) :=
  [ ["professionalContext"]; ["communicationStyle"];
    ["inferredDesignPreferences"]; ["inferredContentPreferences"] ].

(** The messages with which [parsePersonaResult] refuses a parsed document,
    before the [catch] prefixes them. *)
Definition personaRefusals : list string :=
  map (fun field => "Missing required field: " +++ field) GeminiService.requiredFields
  ++ [ "Cannot read properties of null (reading 'personaName')";
       "Invalid professionalContext structure";
       "Invalid communicationStyle structure";
       "Invalid designBiases structure";
       "Invalid contentBiases structure";
       "briefConflicts must be an array";
       "Invalid designGuidance structure";
       "designGuidance.do and designGuidance.avoid must be arrays";
       "designGuidance.do must contain at least one item";
       "designGuidance.avoid must contain at least one item" ].

(** What holds of a document [parsePersonaResult] returns. *)
Definition accepted (r : JSON) : Prop :=
  Forall (fun path => truthy (getPath (Some r) path) = true) truthyPaths
  /\ Forall (fun path => isArray (getPath (Some r) path) = true) arrayPaths
  /\ isEmptyArray (getPath (Some r) ["designGuidance"; "do"]) = false
  /\ isEmptyArray (getPath (Some r) ["designGuidance"; "avoid"]) = false
  /\ GeminiService.isValidVerbosity
       (getPath (Some r) ["communicationStyle"; "verbosity"]) = true.

(** ** Scenarios: small concrete worlds on which the services are run *)

Module Scenario.

(** A world that counts the calls received by the remote services and
    keeps the clock, in milliseconds. *)
Record World : Type := mkWorld { calls : nat; clock : Z }.

Definition start : World := mkWorld 0 0.

Definition now (w : World) : Z := clock w.

Definition sleepWorld (ms : Z) (w : World) : World :=
  mkWorld (calls w) (clock w + ms).

(** One remote call: it is counted and takes [latency] milliseconds. *)
Definition served (latency : Z) (w : World) : World :=
  mkWorld (S (calls w)) (clock w + latency).

(** An operation that throws [error] on its first [failures] calls and
    returns [value] from then on. *)
Definition flaky {Doc T} (failures : nat) (error : string) (value : T)
  : M World Doc Error T :=
  fun w =>
    if calls w <? failures
    then (Thrown (mkError error), served 5 w, [])
    else (Returned value, served 5 w, []).

(** A speech service that rejects every request with [error]. *)
Definition refusing (error : string) (voiceId text : string) (w : World)
  : (CaughtError + ElevenLabsService.AudioStream) * World :=
  (inl (caught error), served 5 w).

(** A speech service that answers every request with [audio] in one chunk. *)
Definition speaking (audio : list Byte.byte) (voiceId text : string) (w : World)
  : (CaughtError + ElevenLabsService.AudioStream) * World :=
  (inr (ElevenLabsService.mkAudioStream [audio] None), served 5 w).

Definition voice : string := "EXAVITQu4vr4xnSDxMaL".

(** Whole seconds at 150 words a minute, rounded up. *)
Definition seconds (wordCount : nat) : Z :=
  ((Z.of_nat wordCount * 60 + 149) / 150)%Z.

(** Documents the model is made to answer with. *)
Definition professionalContext : JSON :=
  JObj [ ("role", JStr "Product designer"); ("industry", JStr "Technology");
         ("seniority", JStr "Senior") ].

Definition communicationStyle (verbosity : list (string * JSON)) : JSON :=
  JObj (("tone", JStr "Direct") :: verbosity).

Definition preferences : JSON :=
  JObj [ ("visualStyle", JStr "Clean and minimal"); ("uxPriority", JStr "Clarity") ].

Definition topics : JSON :=
  JObj [ ("respondsTo", JArr [JStr "Data"]); ("avoids", JArr [JStr "Jargon"]) ].

Definition analysisDoc (verbosity : list (string * JSON)) : JSON :=
  JObj [ ("professionalContext", professionalContext);
         ("communicationStyle", communicationStyle verbosity);
         ("inferredDesignPreferences", preferences);
         ("inferredContentPreferences", topics) ].

Definition personaDoc (verbosity guidance : list (string * JSON)) : JSON :=
  JObj [ ("personaName", JStr "The Pragmatic Lead");
         ("summary", JStr "A senior designer who wants evidence first.");
         ("professionalContext", professionalContext);
         ("communicationStyle", communicationStyle verbosity);
         ("designBiases", preferences);
         ("contentBiases", topics);
         ("briefConflicts", JArr []);
         ("designGuidance", JObj guidance) ].

Definition guidance : list (string * JSON) :=
  [ ("do", JArr [JStr "Lead with data"]); ("avoid", JArr [JStr "Decoration"]) ].

(** A stand-in for [JSON.parse] that knows the texts of the scenarios. *)
Definition parse (text : string) : Res JSON :=
  if String.eqb text "analysis, verbosity extreme" then
    inr (analysisDoc [("verbosity", JStr "extreme")])
  else if String.eqb text "analysis, no verbosity" then
    inr (analysisDoc [])
  else if String.eqb text "persona, verbosity extreme" then
    inr (personaDoc [("verbosity", JStr "extreme")] guidance)
  else if String.eqb text "persona, verbosity empty" then
    inr (personaDoc [("verbosity", JStr "")] guidance)
  else if String.eqb text "persona, avoid missing" then
    inr (personaDoc [("verbosity", JStr "high")] [("do", JArr [JStr "Lead with data"])])
  else if String.eqb text "persona, do empty" then
    inr (personaDoc [("verbosity", JStr "high")]
           [("do", JArr []); ("avoid", JArr [JStr "Decoration"])])
  else inl "Unexpected token".

Definition showNumber (x : float) : string := "0".

(** A stand-in for the base64 encoder. *)
Definition base64 (audio : list Byte.byte) : string := "SUQz".

(** A model that answers the analysis and persona prompts with fixed texts
    and the n-th request overall, when it asks for a script, with the n-th
    of [drafts]. *)
Definition model (drafts : list string) (prompt : Prompt JSON) (w : World)
  : GeminiService.Settled * World :=
  (match prompt with
   | ArticleAnalysisPrompt _ => GeminiService.Fulfilled "analysis, verbosity extreme"
   | PersonaGenerationPrompt _ _ => GeminiService.Fulfilled "persona, verbosity extreme"
   | AudioScriptPrompt _ _ => GeminiService.Fulfilled (nth (calls w) drafts "")
   end, served 5 w).

(** A model whose credentials are refused. *)
Definition unauthorized (prompt : Prompt JSON) (w : World)
  : GeminiService.Settled * World :=
  (GeminiService.Rejected (caught "API key not valid"), served 5 w).

Definition briefing : string := "Meet your persona. Lead with data.".

Fixpoint repeated (n : nat) (c : ascii) : string :=
  match n with
  | 0 => ""
  | S n' => String c (repeated n' c)
  end.

(** A draft of 900 characters without a period whose 800th character is a
    space. *)
Definition unbroken : string :=
  repeated 799 "a" +++ " " +++ repeated 100 "b".

(** A draft of 900 characters whose only period is at offset 650. *)
Definition broken : string :=
  repeated 650 "a" +++ "." +++ repeated 249 "b".

Definition persona : JSON := personaDoc [("verbosity", JStr "medium")] guidance.

(** A draft of [n] words. *)
Fixpoint words (n : nat) : string :=
  match n with
  | 0 => ""
  | S n' => "data " +++ words n'
  end.

(** No period at the offsets [from], ..., [from + count - 1] of [s]. *)
Definition periodFree (s : string) (from count : nat) : bool :=
  forallb
    (fun j => match String.get j s with
              | Some c => negb (Ascii.eqb c ".")
              | None => true
              end)
    (seq from count).

(** The application over a model and a speech service. *)
Definition app (generateContent : Prompt JSON -> World -> GeminiService.Settled * World)
           (convert : string -> string -> World
                      -> (CaughtError + ElevenLabsService.AudioStream) * World)
  : M World JSON Error (PersonaPipelineService.PersonaGenerationResult JSON) :=
  App.generatePersona World parse showNumber generateContent voice convert seconds
    now sleepWorld base64 "An article of a few hundred words." "A dashboard for analysts.".

End Scenario.

(** ** More scenarios *)

Module Cases.

(** An operation that fails with [error] at every call. *)
Definition failing {Doc T} (error : string) : M Scenario.World Doc Error T :=
  fun w => (Thrown (mkError error), Scenario.served 5 w, []).

(** A model that never answers within the 30 seconds. *)
Definition stalled (prompt : Prompt JSON) (w : Scenario.World)
  : GeminiService.Settled * Scenario.World :=
  (GeminiService.TimedOut, Scenario.served 30000 w).

(** A model that answers every request with [text]. *)
Definition answering (text : string) (prompt : Prompt JSON) (w : Scenario.World)
  : GeminiService.Settled * Scenario.World :=
  (GeminiService.Fulfilled text, Scenario.served 5 w).

(** A short audio buffer. *)
Definition audio : list Byte.byte := [Byte.x49; Byte.x44; Byte.x33].

End Cases.

(** * Properties *)

(** ** Strings *)

Lemma startsWith_spec (s p : string) :
  startsWith s p = true <-> exists b, s = p +++ b.
Proof.
  unfold startsWith. revert s.
  induction p as [|c p IH]; intros s; simpl.
  - split; [intros _; now exists s | now destruct s].
  - destruct s as [|d s].
    + split; [discriminate | intros [b Hb]; discriminate].
    + simpl. destruct (ascii_dec c d) as [->|Hcd].
      * rewrite IH. split; intros [b Hb]; exists b; [now rewrite Hb | now injection Hb].
      * split; [discriminate | intros [b Hb]; injection Hb; intros; congruence].
Qed.

Lemma includes_spec (s p : string) :
  includes s p = true <-> exists a b, s = a +++ p +++ b.
Proof.
  induction s as [|c s IH]; cbn [includes].
  - rewrite orb_false_r, startsWith_spec. split.
    + intros [b Hb]. now exists "", b.
    + intros [a [b Hab]]. destruct a; simpl in Hab; [now exists b | discriminate].
  - rewrite orb_true_iff, startsWith_spec, IH. split.
    + intros [[b Hb] | [a [b Hab]]].
      * now exists "", b.
      * exists (String c a), b. simpl. now rewrite Hab.
    + intros [a [b Hab]]. destruct a as [|c' a]; simpl in Hab.
      * left. now exists b.
      * right. exists a, b. now injection Hab.
Qed.

Lemma includes_app_r (a b p : string) :
  includes b p = true -> includes (a +++ b) p = true.
Proof.
  intros H. induction a as [|c a IH]; [exact H|].
  cbn [String.append includes]. rewrite IH. apply orb_true_r.
Qed.

Lemma toLowerCase_app (a b : string) :
  toLowerCase (a +++ b) = toLowerCase a +++ toLowerCase b.
Proof. induction a as [|c a IH]; cbn; [reflexivity | now rewrite IH]. Qed.

Lemma existsb_false_iff {A} (f : A -> bool) (l : list A) :
  existsb f l = false <-> forall x, In x l -> f x = false.
Proof.
  induction l as [|a l IH]; simpl.
  - split; [intros _ x [] | reflexivity].
  - rewrite orb_false_iff, IH. split.
    + intros [Ha Hl] x [<-|Hx]; auto.
    + intros H. split; [apply H; now left | intros x Hx; apply H; now right].
Qed.

Ltac split_all := repeat match goal with |- _ /\ _ => split end.

(** ** The classifier *)

(** A non-retryable marker decides, whatever else the message contains. *)
Lemma nonRetryable_marker_decides (error : Error) (p : string) :
  In p nonRetryablePatterns ->
  includes (toLowerCase (message error)) p = true ->
  isTransientError error = false.
Proof.
  intros Hin Hp. unfold isTransientError.
  apply andb_false_iff. right. apply negb_false_iff.
  apply existsb_exists. now exists p.
Qed.

(** C5, amended.  The classifier answers retry-worthy exactly when the
    lower-cased message contains one of the transient markers of the code
    (timeout, network, connection, econnrefused, enotfound, etimedout,
    socket hang up, temporarily unavailable) and none of the non-retryable
    markers; a message with markers of both sets is not retry-worthy. *)
Theorem isTransientError_markers (error : Error) :
  (isTransientError error = true <->
   (exists p,
       In p [ "timeout"; "network"; "connection"; "econnrefused"; "enotfound";
              "etimedout"; "socket hang up"; "temporarily unavailable" ]
       /\ includes (toLowerCase (message error)) p = true)
   /\
   (forall p,
       In p [ "rate limit"; "quota"; "authentication"; "api key"; "invalid";
              "not found"; "private"; "inaccessible"; "validation" ]
       -> includes (toLowerCase (message error)) p = false))
  /\
  ((exists p, In p nonRetryablePatterns
              /\ includes (toLowerCase (message error)) p = true)
   -> isTransientError error = false).
Proof.
  unfold isTransientError. split.
  - rewrite andb_true_iff, negb_true_iff, existsb_exists, existsb_false_iff.
    reflexivity.
  - intros [p [Hin Hp]]. exact (nonRetryable_marker_decides error p Hin Hp).
Qed.

(** C5 as stated fails: a refused connection reported by its errno name is
    retried by the code, although its message contains none of the markers
    as the specification spells them. *)
Lemma errno_marker_not_in_spec :
  isTransientError (mkError "connect ECONNREFUSED 127.0.0.1:443") = true
  /\ specRetryWorthy (mkError "connect ECONNREFUSED 127.0.0.1:443") = false.
Proof. split; reflexivity. Qed.

(** ** The retry executor *)

Section RetryFacts.

Context {W Doc T : Type}.
Variable sleepWorld : Z -> W -> W.
Variable fn : M W Doc Error T.
Variable operationName : string.

Lemma invocations_app (tr1 tr2 : list (Event Doc)) :
  invocations (tr1 ++ tr2) = invocations tr1 + invocations tr2.
Proof. unfold invocations. now rewrite filter_app, length_app. Qed.

(** Each value of [attempt] costs at most one invocation. *)
Lemma retryLoop_invocations (maxRetries : Z) (attempts : list Z) :
  forall lastError w,
    invocations
      (trace (retryLoop W Doc sleepWorld fn operationName maxRetries
                attempts lastError w))
    <= List.length attempts.
Proof.
  induction attempts as [|attempt rest IH]; intros lastError w.
  - destruct lastError; cbn; lia.
  - cbn [retryLoop]. unfold tryCatch, invoke.
    destruct (fn w) as [[[v|e] w1] tr1]; [cbn; lia|].
    destruct ((attempt =? maxRetries)%Z || negb (isTransientError e)).
    + cbn. lia.
    + unfold bind at 1. unfold logger, emit.
      unfold bind at 1. unfold sleep at 1.
      specialize (IH (Some e) (sleepWorld (2 ^ attempt * 1000) w1)).
      destruct (retryLoop W Doc sleepWorld fn operationName maxRetries rest
                  (Some e) (sleepWorld (2 ^ attempt * 1000) w1))
        as [[r w2] tr2].
      cbn in *. lia.
Qed.

Lemma delays_app (tr1 tr2 : list (Event Doc)) :
  delays (tr1 ++ tr2) = delays tr1 ++ delays tr2.
Proof. unfold delays. apply flat_map_app. Qed.

(** The delays taken are those of the first attempts, in order: each is
    2^attempt * 1000 ms. *)
Lemma retryLoop_delays (maxRetries : Z) (attempts : list Z) :
  forall lastError w,
  exists k,
    delays
      (trace (retryLoop W Doc sleepWorld fn operationName maxRetries
                attempts lastError w))
    = map (fun attempt => (2 ^ attempt * 1000)%Z) (firstn k attempts).
Proof.
  induction attempts as [|attempt rest IH]; intros lastError w.
  - exists 0. destruct lastError; reflexivity.
  - cbn [retryLoop]. unfold tryCatch, invoke.
    destruct (fn w) as [[[v|e] w1] tr1]; [now exists 0|].
    destruct ((attempt =? maxRetries)%Z || negb (isTransientError e)).
    + now exists 0.
    + unfold bind at 1. unfold logger, emit.
      unfold bind at 1. unfold sleep at 1.
      destruct (IH (Some e) (sleepWorld (2 ^ attempt * 1000) w1)) as [k Hk].
      exists (S k).
      destruct (retryLoop W Doc sleepWorld fn operationName maxRetries rest
                  (Some e) (sleepWorld (2 ^ attempt * 1000) w1))
        as [[r w2] tr2].
      cbn in *. now rewrite Hk.
Qed.

Lemma attemptRange_length (maxRetries : Z) :
  Z.of_nat (List.length (attemptRange maxRetries)) = Z.max 0 (maxRetries + 1).
Proof. unfold attemptRange. rewrite length_map, length_seq. lia. Qed.

Lemma attemptRange_cons (maxRetries : Z) :
  (0 <= maxRetries)%Z ->
  attemptRange maxRetries
  = 0%Z :: map Z.of_nat (seq 1 (Z.to_nat maxRetries)).
Proof.
  intros H. unfold attemptRange.
  replace (Z.to_nat (maxRetries + 1)) with (S (Z.to_nat maxRetries)) by lia.
  reflexivity.
Qed.

(** An attempt that fails with an error the classifier does not mark
    retry-worthy ends the loop, whatever attempts remain. *)
Lemma retryLoop_fatal (maxRetries attempt : Z) (rest : list Z)
      (lastError : option Error) (w w1 : W) (e : Error) (tr1 : list (Event Doc)) :
  fn w = (Thrown e, w1, tr1) ->
  isTransientError e = false ->
  retryLoop W Doc sleepWorld fn operationName maxRetries (attempt :: rest) lastError w
  = (Thrown e, w1,
     [ Invoked operationName tr1;
       Logged ERROR (operationName +++ " failed after " +++ ofZ (attempt + 1)
                     +++ " attempt(s): " +++ message e) ]).
Proof.
  intros Hfn Hcls. cbn [retryLoop].
  unfold tryCatch, invoke. rewrite Hfn, Hcls.
  rewrite orb_true_r. reflexivity.
Qed.

(** A first attempt that fails with an error the classifier does not mark
    retry-worthy ends the executor at once. *)
Lemma retryWithBackoff_fatal_first (maxRetries : Z) (w w1 : W) (e : Error)
      (tr1 : list (Event Doc)) :
  (0 <= maxRetries)%Z ->
  fn w = (Thrown e, w1, tr1) ->
  isTransientError e = false ->
  retryWithBackoff W Doc sleepWorld fn operationName maxRetries w
  = (Thrown e, w1,
     [ Invoked operationName tr1;
       Logged ERROR (operationName +++ " failed after 1 attempt(s): " +++ message e) ]).
Proof.
  intros Hm Hfn Hcls. unfold retryWithBackoff.
  rewrite (attemptRange_cons _ Hm).
  now rewrite (retryLoop_fatal maxRetries 0 _ None w w1 e tr1 Hfn Hcls).
Qed.

(** Two retry-worthy failures, then a value: the whole run for maxRetries = 2. *)
Lemma retryWithBackoff_third_try (w w1 w2 w3 : W) (e1 e2 : Error) (v : T)
      (tr1 tr2 tr3 : list (Event Doc)) :
  fn w = (Thrown e1, w1, tr1) ->
  isTransientError e1 = true ->
  fn (sleepWorld 1000%Z w1) = (Thrown e2, w2, tr2) ->
  isTransientError e2 = true ->
  fn (sleepWorld 2000%Z w2) = (Returned v, w3, tr3) ->
  retryWithBackoff W Doc sleepWorld fn operationName 2 w
  = (Returned v, w3,
     [ Invoked operationName tr1;
       Logged WARN (operationName +++ " failed (attempt 1/3): " +++ message e1
                    +++ ". Retrying in 1000ms...");
       Slept 1000%Z;
       Invoked operationName tr2;
       Logged WARN (operationName +++ " failed (attempt 2/3): " +++ message e2
                    +++ ". Retrying in 2000ms...");
       Slept 2000%Z;
       Invoked operationName tr3 ]).
Proof.
  intros H1 C1 H2 C2 H3. unfold retryWithBackoff.
  change (attemptRange 2) with [0; 1; 2]%Z.
  cbn [retryLoop]. unfold tryCatch, invoke.
  rewrite H1, C1. cbn [Z.eqb negb orb].
  unfold bind at 1. unfold logger at 1, emit at 1.
  unfold bind at 1. unfold sleep at 1.
  change (2 ^ 0 * 1000)%Z with 1000%Z. rewrite H2, C2.
  cbn [Z.eqb Pos.eqb negb orb].
  unfold bind at 1. unfold logger at 1, emit at 1.
  unfold bind at 1. unfold sleep at 1.
  change (2 ^ 1 * 1000)%Z with 2000%Z. rewrite H3.
  reflexivity.
Qed.

End RetryFacts.

(** C3.  The executor invokes the wrapped operation at most maxRetries + 1
    times, and the delays it takes are 2^attempt * 1000 ms for the first
    attempts, in order.  With maxRetries = 2 and an operation that fails with retry-worthy
    errors twice and then succeeds, it is invoked exactly three times, the
    executor sleeps 1000 ms and then 2000 ms before the retries, and the
    value of the third call is returned. *)
Theorem retryWithBackoff_bounded_backoff
        (W Doc T : Type) (sleepWorld : Z -> W -> W)
        (fn : M W Doc Error T) (operationName : string) :
  (forall maxRetries w,
      let run := retryWithBackoff W Doc sleepWorld fn operationName maxRetries w in
      (Z.of_nat (invocations (trace run)) <= Z.max 0 (maxRetries + 1))%Z
      /\ exists k,
          delays (trace run)
          = map (fun attempt => (2 ^ attempt * 1000)%Z)
                (firstn k (attemptRange maxRetries)))
  /\
  (forall w e1 w1 tr1 e2 w2 tr2 v w3 tr3,
      fn w = (Thrown e1, w1, tr1) ->
      isTransientError e1 = true ->
      fn (sleepWorld 1000%Z w1) = (Thrown e2, w2, tr2) ->
      isTransientError e2 = true ->
      fn (sleepWorld 2000%Z w2) = (Returned v, w3, tr3) ->
      let run := retryWithBackoff W Doc sleepWorld fn operationName 2 w in
      outcome run = Returned v
      /\ world run = w3
      /\ invocations (trace run) = 3
      /\ delays (trace run) = [1000; 2000]%Z
      /\ trace run =
         [ Invoked operationName tr1;
           Logged WARN (operationName +++ " failed (attempt 1/3): " +++ message e1
                        +++ ". Retrying in 1000ms...");
           Slept (2 ^ 0 * 1000)%Z;
           Invoked operationName tr2;
           Logged WARN (operationName +++ " failed (attempt 2/3): " +++ message e2
                        +++ ". Retrying in 2000ms...");
           Slept (2 ^ 1 * 1000)%Z;
           Invoked operationName tr3 ]).
Proof.
  split.
  - intros maxRetries w run. split.
    + rewrite <- attemptRange_length.
      apply inj_le. apply retryLoop_invocations.
    + apply retryLoop_delays.
  - intros w e1 w1 tr1 e2 w2 tr2 v w3 tr3 H1 C1 H2 C2 H3.
    rewrite (retryWithBackoff_third_try sleepWorld fn operationName
               w w1 w2 w3 e1 e2 v tr1 tr2 tr3 H1 C1 H2 C2 H3).
    repeat split; reflexivity.
Qed.

(** The scenario of C3: two time-outs, then a value. *)
Lemma retryWithBackoff_bounded_backoff_witness :
  let run :=
    retryWithBackoff Scenario.World unit Scenario.sleepWorld
      (Scenario.flaky 2 "network timeout" "done") "Audio synthesis" 2
      Scenario.start in
  outcome run = Returned "done"
  /\ world run = Scenario.mkWorld 3 3015%Z
  /\ invocations (trace run) = 3
  /\ delays (trace run) = [1000; 2000]%Z
  /\ trace run =
     [ Invoked "Audio synthesis" [];
       Logged WARN
         "Audio synthesis failed (attempt 1/3): network timeout. Retrying in 1000ms...";
       Slept 1000%Z;
       Invoked "Audio synthesis" [];
       Logged WARN
         "Audio synthesis failed (attempt 2/3): network timeout. Retrying in 2000ms...";
       Slept 2000%Z;
       Invoked "Audio synthesis" [] ].
Proof.
  apply (proj2 (retryWithBackoff_bounded_backoff Scenario.World unit string
                  Scenario.sleepWorld (Scenario.flaky 2 "network timeout" "done")
                  "Audio synthesis")
           Scenario.start
           (mkError "network timeout") (Scenario.mkWorld 1 5%Z) []
           (mkError "network timeout") (Scenario.mkWorld 2 1010%Z) []);
    reflexivity.
Defined.

(** C4, amended.  When the first attempt fails with an error the classifier
    does not mark retry-worthy, the operation is invoked exactly once, no
    delay is taken, and the error is re-thrown at once as it was caught: the
    attempt count is written to the error log, not to the error. *)
Theorem retryWithBackoff_fatal_once
        (W Doc T : Type) (sleepWorld : Z -> W -> W)
        (fn : M W Doc Error T) (operationName : string) (maxRetries : Z)
        (w w1 : W) (e : Error) (tr1 : list (Event Doc)) :
  (0 <= maxRetries)%Z ->
  fn w = (Thrown e, w1, tr1) ->
  isTransientError e = false ->
  let run := retryWithBackoff W Doc sleepWorld fn operationName maxRetries w in
  outcome run = Thrown e
  /\ world run = w1
  /\ invocations (trace run) = 1
  /\ delays (trace run) = []
  /\ trace run =
     [ Invoked operationName tr1;
       Logged ERROR (operationName +++ " failed after " +++ ofZ 1
                     +++ " attempt(s): " +++ message e) ].
Proof.
  intros Hm Hfn Hcls.
  rewrite (retryWithBackoff_fatal_first sleepWorld fn operationName
             maxRetries w w1 e tr1 Hm Hfn Hcls).
  repeat split; reflexivity.
Qed.

Lemma retryWithBackoff_fatal_once_witness :
  let run :=
    retryWithBackoff Scenario.World unit Scenario.sleepWorld
      (Scenario.flaky 1 "Invalid Gemini API credentials" tt)
      "Persona generation" 2 Scenario.start in
  outcome run = Thrown (mkError "Invalid Gemini API credentials")
  /\ world run = Scenario.mkWorld 1 5%Z
  /\ invocations (trace run) = 1
  /\ delays (trace run) = []
  /\ trace run =
     [ Invoked "Persona generation" [];
       Logged ERROR
         "Persona generation failed after 1 attempt(s): Invalid Gemini API credentials" ].
Proof.
  apply (retryWithBackoff_fatal_once Scenario.World unit unit Scenario.sleepWorld
           (Scenario.flaky 1 "Invalid Gemini API credentials" tt)
           "Persona generation" 2%Z Scenario.start (Scenario.mkWorld 1 5%Z)
           (mkError "Invalid Gemini API credentials") []);
    [lia | reflexivity | reflexivity].
Defined.

(** C4 as stated fails: the error that leaves the executor is the one the
    operation threw, and nothing in it tells the attempt count. *)
Lemma propagated_error_has_no_attempt_count :
  exists e w tr,
    retryWithBackoff Scenario.World unit Scenario.sleepWorld
      (Scenario.flaky 1 "Invalid Gemini API credentials" tt)
      "Persona generation" 2 Scenario.start
    = (Thrown e, w, tr)
    /\ message e = "Invalid Gemini API credentials"
    /\ includes (message e) (ofZ 1) = false.
Proof. do 3 eexists. repeat split; reflexivity. Qed.

(** ** Speech synthesis *)

Section SynthesisFacts.

Context {W Doc : Type}.
Variable voiceId : string.
Variable convert : string -> string -> W -> (CaughtError + ElevenLabsService.AudioStream) * W.
Variable estimatedDuration : nat -> Z.

Local Abbreviation synthesizeBody :=
  (ElevenLabsService.synthesizeBody W Doc voiceId convert estimatedDuration).
Local Abbreviation synthesizeSpeech :=
  (ElevenLabsService.synthesizeSpeech W Doc voiceId convert estimatedDuration).

(** What [synthesizeSpeech] throws for each permanent cause. *)
Lemma synthesizeSpeech_permanent (script : string) (w w1 : W) (err : CaughtError)
      (tr0 : list (Event Doc)) (cause : PermanentCause) :
  synthesizeBody script w = (Thrown err, w1, tr0) ->
  hasCause cause script err ->
  synthesizeSpeech script w = (Thrown (mkError (permanentMessage cause)), w1, tr0).
Proof.
  intros Hbody Hcause.
  unfold ElevenLabsService.synthesizeSpeech, tryCatch. rewrite Hbody.
  destruct cause; cbn [hasCause permanentMessage] in *.
  - rewrite Hcause. cbn. now rewrite app_nil_r.
  - destruct Hcause as [Hq Ha]. rewrite Hq, Ha. cbn. now rewrite app_nil_r.
  - unfold ElevenLabsService.synthesizeBody in Hbody. rewrite Hcause in Hbody.
    injection Hbody as <- <- <-. reflexivity.
Qed.

Lemma permanentMessage_not_transient (cause : PermanentCause) :
  isTransientError (mkError (permanentMessage cause)) = false.
Proof. destruct cause; reflexivity. Qed.

(** In whatever letter case the caught message carries a non-retryable
    marker, the error that leaves [synthesizeSpeech] is not retry-worthy. *)
Lemma synthesizeSpeech_marked_not_transient
      (script : string) (w w1 : W) (err : CaughtError) (tr0 : list (Event Doc))
      (p : string) :
  synthesizeBody script w = (Thrown err, w1, tr0) ->
  In p nonRetryablePatterns ->
  includes (toLowerCase (messageText err)) p = true ->
  exists e,
    synthesizeSpeech script w = (Thrown e, w1, tr0) /\ isTransientError e = false.
Proof.
  intros Hbody Hin Hp.
  unfold ElevenLabsService.synthesizeSpeech, tryCatch. rewrite Hbody.
  destruct (messageIncludes err "quota" || messageIncludes err "rate limit").
  { eexists. cbn. rewrite app_nil_r. split; reflexivity. }
  destruct (messageIncludes err "authentication" || messageIncludes err "API key").
  { eexists. cbn. rewrite app_nil_r. split; reflexivity. }
  destruct (messageIncludes err "Script cannot be empty").
  { eexists. cbn. rewrite app_nil_r. split; [reflexivity|].
    exact (nonRetryable_marker_decides (mkError (messageText err)) p Hin Hp). }
  exists (mkError ("Audio synthesis failed: "
                   +++ match caughtMessage err with
                       | Some m => if String.eqb m "" then "Unknown error" else m
                       | None => "Unknown error"
                       end)).
  split; [cbn; now rewrite app_nil_r|].
  apply (nonRetryable_marker_decides _ p Hin). cbn [message].
  rewrite toLowerCase_app. apply includes_app_r.
  unfold messageText in Hp. destruct (caughtMessage err) as [m|].
  - destruct (String.eqb_spec m "") as [->|_]; [|exact Hp].
    exfalso. cbn in Hin.
    repeat (destruct Hin as [<-|Hin]; [discriminate Hp|]). exact Hin.
  - exfalso. cbn in Hin.
    repeat (destruct Hin as [<-|Hin]; [discriminate Hp|]). exact Hin.
Qed.

End SynthesisFacts.

(** C10.  A synthesis failure caused by quota or rate limit, by
    authentication, or by an empty script leaves [synthesizeSpeech] as an
    error with the message of that cause; the classifier does not mark it
    retry-worthy, so the executor invokes the synthesis once and takes no
    delay.  The same holds at any later attempt: such a failure ends the
    loop without a further invocation or delay. *)
Theorem permanent_synthesis_failure_not_retried
        (W Doc : Type) (voiceId : string)
        (convert : string -> string -> W
                   -> (CaughtError + ElevenLabsService.AudioStream) * W)
        (estimatedDuration : nat -> Z) (sleepWorld : Z -> W -> W)
        (script operationName : string) (maxRetries : Z)
        (w w1 : W) (err : CaughtError) (tr0 : list (Event Doc))
        (cause : PermanentCause) :
  (0 <= maxRetries)%Z ->
  ElevenLabsService.synthesizeBody W Doc voiceId convert estimatedDuration script w
  = (Thrown err, w1, tr0) ->
  hasCause cause script err ->
  let e := mkError (permanentMessage cause) in
  let synthesize :=
    ElevenLabsService.synthesizeSpeech W Doc voiceId convert estimatedDuration script in
  let run := retryWithBackoff W Doc sleepWorld synthesize operationName maxRetries w in
  synthesize w = (Thrown e, w1, tr0)
  /\ isTransientError e = false
  /\ outcome run = Thrown e
  /\ world run = w1
  /\ invocations (trace run) = 1
  /\ delays (trace run) = []
  /\ (forall attempt rest lastError,
        let later :=
          retryLoop W Doc sleepWorld synthesize operationName maxRetries
            (attempt :: rest) lastError w in
        outcome later = Thrown e
        /\ invocations (trace later) = 1
        /\ delays (trace later) = []).
Proof.
  intros Hm Hbody Hcause e synthesize run.
  pose proof (synthesizeSpeech_permanent voiceId convert estimatedDuration
                script w w1 err tr0 cause Hbody Hcause) as Hsyn.
  pose proof (permanentMessage_not_transient cause) as Hcls.
  split; [exact Hsyn|]. split; [exact Hcls|].
  subst run.
  rewrite (retryWithBackoff_fatal_first sleepWorld synthesize operationName
             maxRetries w w1 e tr0 Hm Hsyn Hcls).
  do 4 (split; [reflexivity|]).
  intros attempt rest lastError later. subst later.
  rewrite (retryLoop_fatal sleepWorld synthesize operationName maxRetries
             attempt rest lastError w w1 e tr0 Hsyn Hcls).
  split; [reflexivity|]. split; reflexivity.
Qed.

Lemma permanent_synthesis_failure_not_retried_witness :
  let e := mkError "ElevenLabs rate limit exceeded. Please try again later." in
  let synthesize :=
    ElevenLabsService.synthesizeSpeech Scenario.World unit Scenario.voice
      (Scenario.refusing "quota_exceeded") Scenario.seconds "Meet your persona." in
  let run :=
    retryWithBackoff Scenario.World unit Scenario.sleepWorld synthesize
      "Audio synthesis" 2 Scenario.start in
  synthesize Scenario.start
  = (Thrown e, Scenario.mkWorld 1 5%Z,
     [Converted Scenario.voice "Meet your persona."])
  /\ isTransientError e = false
  /\ outcome run = Thrown e
  /\ world run = Scenario.mkWorld 1 5%Z
  /\ invocations (trace run) = 1
  /\ delays (trace run) = [].
Proof.
  pose proof (permanent_synthesis_failure_not_retried Scenario.World unit
                Scenario.voice (Scenario.refusing "quota_exceeded") Scenario.seconds
                Scenario.sleepWorld "Meet your persona." "Audio synthesis" 2%Z
                Scenario.start (Scenario.mkWorld 1 5%Z) (caught "quota_exceeded")
                [Converted Scenario.voice "Meet your persona."] QuotaOrRateLimit
                ltac:(lia) eq_refl eq_refl)
    as [H1 [H2 [H3 [H4 [H5 [H6 _]]]]]].
  cbv zeta. split_all; assumption.
Defined.

(** ** The pipeline *)

Section PipelineFacts.

Context {W Doc ProfileAnalysis PersonaResult : Type}.
Variable personaName : PersonaResult -> string.
Variable now : W -> Z.
Variable sleepWorld : Z -> W -> W.
Variable toBase64 : list Byte.byte -> string.
Variable geminiService : GeminiServiceOps W Doc ProfileAnalysis PersonaResult.
Variable elevenLabsService : ElevenLabsServiceOps W Doc.

Local Abbreviation stage1 := (stage1 W Doc ProfileAnalysis PersonaResult sleepWorld geminiService).
Local Abbreviation stage2 := (stage2 W Doc ProfileAnalysis PersonaResult sleepWorld geminiService).
Local Abbreviation stage3 := (stage3 W Doc ProfileAnalysis PersonaResult sleepWorld geminiService).
Local Abbreviation stage4 := (stage4 W Doc sleepWorld elevenLabsService).
Local Abbreviation generatePersona :=
  (generatePersona W Doc ProfileAnalysis PersonaResult personaName now sleepWorld
     toBase64 geminiService elevenLabsService).

Ltac find_event :=
  match goal with
  | |- _ \/ _ => (left; find_event) || (right; find_event)
  | |- _ = _ => reflexivity
  end.

Ltac in_trace := repeat (cbn [In app]; rewrite in_app_iff); cbn [In app]; find_event.

Ltac run_pipeline :=
  unfold PersonaPipelineService.generatePersona, synthesizeOrDegrade,
    bind, tryCatch, logger, emit, dateNow, ret, throw;
  cbv beta iota zeta.

(** Step 4 never throws: a failed synthesis gives the empty URL. *)
Lemma generatePersona_degraded
      (articleText designBrief : string) (w0 w1 w2 w3 w4 : W)
      (analysis : ProfileAnalysis) (persona : PersonaResult) (audioScript : string)
      (audioError : Error) (tr1 tr2 tr3 tr4 : list (Event Doc)) :
  stage1 articleText w0 = (Returned analysis, w1, tr1) ->
  stage2 analysis designBrief w1 = (Returned persona, w2, tr2) ->
  stage3 persona w2 = (Returned audioScript, w3, tr3) ->
  stage4 audioScript w3 = (Thrown audioError, w4, tr4) ->
  exists tr,
    generatePersona articleText designBrief w0
    = (Returned (mkResult persona "" audioScript (now w4 - now w0)), w4, tr)
    /\ In (Logged ERROR ("Audio synthesis failed: " +++ message audioError)) tr
    /\ In (Logged WARN "Continuing without audio - text script will be provided") tr.
Proof.
  intros H1 H2 H3 H4. eexists.
  run_pipeline. rewrite H1. cbv beta iota zeta.
  rewrite H2. cbv beta iota zeta. rewrite H3. cbv beta iota zeta.
  rewrite H4. cbv beta iota zeta.
  split; [reflexivity|].
  split; in_trace.
Qed.

(** A failure of one of the first three stages leaves the pipeline as an
    error that wraps the message of the stage; the elapsed time goes to the
    error log. *)
Lemma generatePersona_fatal
      (articleText designBrief : string) (w0 wf : W) (e : Error) :
  FatalStage W Doc ProfileAnalysis PersonaResult sleepWorld geminiService
    articleText designBrief w0 e wf ->
  exists tr,
    generatePersona articleText designBrief w0
    = (Thrown (mkError ("Persona generation failed: " +++ message e)), wf, tr)
    /\ In (Logged ERROR ("Pipeline failed after " +++ ofZ (now wf - now w0)
                         +++ "ms: " +++ message e)) tr.
Proof.
  intros [e' w1 tr1 H1
         | analysis w1 tr1 e' w2 tr2 H1 H2
         | analysis w1 tr1 persona w2 tr2 e' w3 tr3 H1 H2 H3];
    eexists; run_pipeline.
  - rewrite H1. cbv beta iota zeta.
    split; [reflexivity|]. in_trace.
  - rewrite H1. cbv beta iota zeta. rewrite H2. cbv beta iota zeta.
    split; [reflexivity|]. in_trace.
  - rewrite H1. cbv beta iota zeta. rewrite H2. cbv beta iota zeta.
    rewrite H3. cbv beta iota zeta.
    split; [reflexivity|]. in_trace.
Qed.

End PipelineFacts.

(** C1.  When analysis, persona generation and script generation succeed and
    the synthesis fails after the retry handling, [generatePersona] does not
    throw: it returns the persona and the script that were produced, with
    the empty string as [audioUrl]. *)
Theorem generatePersona_audio_failure_degrades
        (W Doc ProfileAnalysis PersonaResult : Type)
        (personaName : PersonaResult -> string) (now : W -> Z)
        (sleepWorld : Z -> W -> W) (toBase64 : list Byte.byte -> string)
        (geminiService : GeminiServiceOps W Doc ProfileAnalysis PersonaResult)
        (elevenLabsService : ElevenLabsServiceOps W Doc)
        (articleText designBrief : string) (w0 w1 w2 w3 w4 : W)
        (analysis : ProfileAnalysis) (persona : PersonaResult) (audioScript : string)
        (audioError : Error) (tr1 tr2 tr3 tr4 : list (Event Doc)) :
  stage1 W Doc ProfileAnalysis PersonaResult sleepWorld geminiService articleText w0
  = (Returned analysis, w1, tr1) ->
  stage2 W Doc ProfileAnalysis PersonaResult sleepWorld geminiService analysis
    designBrief w1
  = (Returned persona, w2, tr2) ->
  stage3 W Doc ProfileAnalysis PersonaResult sleepWorld geminiService persona w2
  = (Returned audioScript, w3, tr3) ->
  stage4 W Doc sleepWorld elevenLabsService audioScript w3
  = (Thrown audioError, w4, tr4) ->
  let run :=
    generatePersona W Doc ProfileAnalysis PersonaResult personaName now sleepWorld
      toBase64 geminiService elevenLabsService articleText designBrief w0 in
  outcome run = Returned (mkResult persona "" audioScript (now w4 - now w0))
  /\ world run = w4
  /\ In (Logged WARN "Continuing without audio - text script will be provided")
        (trace run).
Proof.
  intros H1 H2 H3 H4.
  destruct (generatePersona_degraded personaName now sleepWorld toBase64
              geminiService elevenLabsService articleText designBrief
              w0 w1 w2 w3 w4 analysis persona audioScript audioError
              tr1 tr2 tr3 tr4 H1 H2 H3 H4) as [tr [Hrun [_ Hwarn]]].
  cbv zeta. rewrite Hrun. repeat split. exact Hwarn.
Qed.

(** The whole application with a speech service that is unreachable: three
    attempts, then the result without audio. *)
Lemma generatePersona_audio_failure_degrades_witness :
  let run :=
    Scenario.app
      (Scenario.model ["";  ""; Scenario.briefing; Scenario.briefing])
      (Scenario.refusing "network error") Scenario.start in
  outcome run
  = Returned
      (mkResult
         (Scenario.personaDoc [("verbosity", JStr "medium")] Scenario.guidance)
         "" Scenario.briefing (3035 - 0))
  /\ world run = Scenario.mkWorld 7 3035
  /\ In (Logged WARN "Continuing without audio - text script will be provided")
        (trace run).
Proof.
  unfold Scenario.app, App.generatePersona.
  eapply (generatePersona_audio_failure_degrades
            Scenario.World JSON JSON JSON
            (App.personaName Scenario.showNumber) Scenario.now Scenario.sleepWorld
            Scenario.base64 _ _ _ _ Scenario.start
            (Scenario.mkWorld 1 5) (Scenario.mkWorld 2 10) (Scenario.mkWorld 4 20)
            (Scenario.mkWorld 7 3035));
    reflexivity.
Defined.

(** C2, amended.  When one of the first three stages fails after the retry
    handling, [generatePersona] returns nothing and throws an error whose
    message is "Persona generation failed: " followed by the message of the
    stage; the elapsed time is written to the error log only. *)
Theorem generatePersona_fatal_stage
        (W Doc ProfileAnalysis PersonaResult : Type)
        (personaName : PersonaResult -> string) (now : W -> Z)
        (sleepWorld : Z -> W -> W) (toBase64 : list Byte.byte -> string)
        (geminiService : GeminiServiceOps W Doc ProfileAnalysis PersonaResult)
        (elevenLabsService : ElevenLabsServiceOps W Doc)
        (articleText designBrief : string) (w0 wf : W) (e : Error) :
  FatalStage W Doc ProfileAnalysis PersonaResult sleepWorld geminiService
    articleText designBrief w0 e wf ->
  let run :=
    generatePersona W Doc ProfileAnalysis PersonaResult personaName now sleepWorld
      toBase64 geminiService elevenLabsService articleText designBrief w0 in
  outcome run = Thrown (mkError ("Persona generation failed: " +++ message e))
  /\ world run = wf
  /\ In (Logged ERROR ("Pipeline failed after " +++ ofZ (now wf - now w0)
                       +++ "ms: " +++ message e))
        (trace run).
Proof.
  intros Hfatal.
  destruct (generatePersona_fatal personaName now sleepWorld toBase64
              geminiService elevenLabsService articleText designBrief
              w0 wf e Hfatal) as [tr [Hrun Hlog]].
  cbv zeta. rewrite Hrun. repeat split. exact Hlog.
Qed.

Lemma generatePersona_fatal_stage_witness :
  let run :=
    Scenario.app Scenario.unauthorized (Scenario.refusing "network error")
      Scenario.start in
  outcome run
  = Thrown (mkError ("Persona generation failed: "
                     +++ "Invalid Gemini API credentials. Please check your configuration."))
  /\ world run = Scenario.mkWorld 1 5
  /\ In (Logged ERROR
           ("Pipeline failed after " +++ ofZ (5 - 0) +++ "ms: "
            +++ "Invalid Gemini API credentials. Please check your configuration."))
        (trace run).
Proof.
  unfold Scenario.app, App.generatePersona.
  eapply (generatePersona_fatal_stage
            Scenario.World JSON JSON JSON
            (App.personaName Scenario.showNumber) Scenario.now Scenario.sleepWorld
            Scenario.base64 _ _ _ _ Scenario.start (Scenario.mkWorld 1 5)
            (mkError "Invalid Gemini API credentials. Please check your configuration.")).
  eapply fatal_analysis. reflexivity.
Defined.

(** C2 as stated fails: after 5 ms the analysis is refused, and the message
    of the error that leaves the pipeline does not tell the elapsed time. *)
Lemma pipeline_error_has_no_elapsed_time :
  exists e tr,
    Scenario.app Scenario.unauthorized (Scenario.refusing "network error")
      Scenario.start
    = (Thrown e, Scenario.mkWorld 1 5, tr)
    /\ (Scenario.now (Scenario.mkWorld 1 5) - Scenario.now Scenario.start = 5)%Z
    /\ message e
       = "Persona generation failed: Invalid Gemini API credentials. Please check your configuration."
    /\ includes (message e) (ofZ 5) = false.
Proof. do 2 eexists. repeat split; reflexivity. Qed.

(** ** The parsers *)

Lemma lookupMember_setMember_same (k : string) (v : JSON) (ms : list (string * JSON)) :
  lookupMember k (setMember k v ms) = Some v.
Proof.
  induction ms as [|[k' v'] ms IH]; cbn.
  - now rewrite String.eqb_refl.
  - destruct (String.eqb k' k) eqn:E; cbn.
    + now rewrite String.eqb_refl.
    + now rewrite E.
Qed.

Lemma lookupMember_setMember_other (k k2 : string) (v : JSON) (ms : list (string * JSON)) :
  String.eqb k2 k = false ->
  lookupMember k (setMember k2 v ms) = lookupMember k ms.
Proof.
  intros Hne. induction ms as [|[k' v'] ms IH]; cbn.
  - now rewrite Hne.
  - destruct (String.eqb k' k2) eqn:E; cbn.
    + apply String.eqb_eq in E. subst k'. now rewrite Hne.
    + now rewrite IH.
Qed.

Section ParserFacts.

Variable JSON_parse : string -> Res JSON.
Variable numberToString : float -> string.

Local Abbreviation validateAnalysis := (GeminiService.validateAnalysis numberToString).
Local Abbreviation validatePersona := (GeminiService.validatePersona numberToString).
Local Abbreviation parseProfileAnalysis :=
  (GeminiService.parseProfileAnalysis JSON_parse numberToString).
Local Abbreviation parsePersonaResult :=
  (GeminiService.parsePersonaResult JSON_parse numberToString).

Ltac expand_checks :=
  cbn [GeminiService.checkRequired GeminiService.anyFalsy GeminiService.requiredFields
       getProp].

Ltac expand_checks_in H :=
  cbn [GeminiService.checkRequired GeminiService.anyFalsy GeminiService.requiredFields
       getProp] in H.

Ltac same_lookups_in H :=
  repeat first
    [ rewrite lookupMember_setMember_same in H
    | rewrite lookupMember_setMember_other in H by reflexivity ].

(** Decide the next test of a validation that is known to succeed. *)
Ltac step_accepted H :=
  match type of H with
  | match (if ?b then _ else _) with _ => _ end = inr _ =>
      destruct b eqn:?; [|discriminate H]
  | (if ?b then _ else _) = inr _ =>
      destruct b eqn:?; try discriminate H
  | match ?x with _ => _ end = inr _ =>
      destruct x eqn:?; try discriminate H
  end.

Lemma repairVerbosity_repairs (ms cs : list (string * JSON)) :
  lookupMember "communicationStyle" ms = Some (JObj cs) ->
  GeminiService.isValidVerbosity (lookupMember "verbosity" cs) = false ->
  GeminiService.repairVerbosity numberToString (JObj ms)
  = inr (withNested ms "communicationStyle" cs "verbosity" (JStr "medium")).
Proof.
  intros Hcs Hv. unfold GeminiService.repairVerbosity. cbn [getProp].
  rewrite Hcs. cbn [getProp]. rewrite Hv. reflexivity.
Qed.

(** An analysis that would be accepted with verbosity "medium" is accepted
    with any other verbosity that is not one of the three, and repaired. *)
Lemma validateAnalysis_repairs (ms cs : list (string * JSON)) :
  lookupMember "communicationStyle" ms = Some (JObj cs) ->
  GeminiService.isValidVerbosity (lookupMember "verbosity" cs) = false ->
  let repaired := withNested ms "communicationStyle" cs "verbosity" (JStr "medium") in
  validateAnalysis repaired = inr repaired ->
  validateAnalysis (JObj ms) = inr repaired.
Proof.
  intros Hcs Hv repaired Hok. subst repaired.
  unfold GeminiService.validateAnalysis, withNested in *.
  expand_checks. expand_checks_in Hok. same_lookups_in Hok.
  rewrite Hcs. cbn [truthy] in *.
  repeat step_accepted Hok.
  now apply repairVerbosity_repairs.
Qed.

Ltac decide_checks H :=
  repeat (step_accepted H;
          cbn [truthy isArray isEmptyArray negb getProp] in *).

(** A persona that would be accepted with verbosity "medium" is accepted
    with any truthy verbosity that is not one of the three, and repaired. *)
Lemma validatePersona_repairs (ms cs : list (string * JSON)) :
  lookupMember "communicationStyle" ms = Some (JObj cs) ->
  GeminiService.isValidVerbosity (lookupMember "verbosity" cs) = false ->
  truthy (lookupMember "verbosity" cs) = true ->
  let repaired := withNested ms "communicationStyle" cs "verbosity" (JStr "medium") in
  validatePersona repaired = inr repaired ->
  validatePersona (JObj ms) = inr repaired.
Proof.
  intros Hcs Hv Ht repaired Hok. subst repaired.
  unfold GeminiService.validatePersona, withNested in *.
  expand_checks. expand_checks_in Hok. same_lookups_in Hok.
  rewrite Hcs. cbn [truthy getProp] in *. same_lookups_in Hok.
  rewrite Ht. cbn [truthy] in Hok.
  decide_checks Hok.
  now apply repairVerbosity_repairs.
Qed.

(** The same persona is refused when its verbosity is missing or falsy. *)
Lemma validatePersona_refuses_falsy_verbosity (ms cs : list (string * JSON)) :
  lookupMember "communicationStyle" ms = Some (JObj cs) ->
  truthy (lookupMember "verbosity" cs) = false ->
  let repaired := withNested ms "communicationStyle" cs "verbosity" (JStr "medium") in
  validatePersona repaired = inr repaired ->
  validatePersona (JObj ms) = inl "Invalid communicationStyle structure".
Proof.
  intros Hcs Ht repaired Hok. subst repaired.
  unfold GeminiService.validatePersona, withNested in *.
  expand_checks. expand_checks_in Hok. same_lookups_in Hok.
  rewrite Hcs. cbn [truthy getProp] in *. same_lookups_in Hok.
  rewrite Ht. cbn [truthy] in Hok.
  decide_checks Hok; reflexivity.
Qed.

(** Decide the next test of a validation that is to be shown failing. *)
Ltac step_rejected :=
  cbn [GeminiService.anyFalsy truthy isArray isEmptyArray negb];
  try (eexists; reflexivity);
  match goal with
  | |- exists m, match ?x with _ => _ end = inl m => destruct x eqn:?
  | |- exists m, (if ?b then _ else _) = inl m => destruct b eqn:?
  end.

(** Without [designGuidance.avoid] no document is accepted. *)
Lemma validatePersona_missing_avoid (parsed : JSON) (designGuidance : Value) :
  getProp (Some parsed) "designGuidance" = inr designGuidance ->
  getProp designGuidance "avoid" = inr None ->
  exists m, validatePersona parsed = inl m.
Proof.
  intros Hdg Havoid. unfold GeminiService.validatePersona. rewrite Hdg.
  repeat (try rewrite Havoid; step_rejected).
Qed.

(** With an empty [designGuidance.do] no document is accepted. *)
Lemma validatePersona_empty_do (parsed : JSON) (designGuidance : Value) :
  getProp (Some parsed) "designGuidance" = inr designGuidance ->
  getProp designGuidance "do" = inr (Some (JArr [])) ->
  exists m, validatePersona parsed = inl m.
Proof.
  intros Hdg Hdo. unfold GeminiService.validatePersona. rewrite Hdg.
  repeat (try rewrite Hdo; step_rejected).
Qed.

(** A persona that would be accepted with some list as
    [designGuidance.avoid] is refused without that member, and the error
    names the object the member is missing from. *)
Lemma validatePersona_missing_avoid_message
      (ms members : list (string * JSON)) (items : list JSON) (r : JSON) :
  lookupMember "designGuidance" ms = Some (JObj members) ->
  lookupMember "avoid" members = None ->
  validatePersona (withNested ms "designGuidance" members "avoid" (JArr items)) = inr r ->
  validatePersona (JObj ms) = inl "Invalid designGuidance structure".
Proof.
  intros Hdg Havoid Hok.
  unfold GeminiService.validatePersona, withNested in *.
  expand_checks. expand_checks_in Hok. same_lookups_in Hok.
  rewrite Hdg. cbn [truthy getProp] in *. same_lookups_in Hok.
  rewrite Havoid. cbn [truthy] in *.
  decide_checks Hok; reflexivity.
Qed.

(** Whatever a validation accepts is the document it was given, up to the
    repair of the verbosity. *)
Lemma validatePersona_returns_repair (parsed r : JSON) :
  validatePersona parsed = inr r ->
  GeminiService.repairVerbosity numberToString parsed = inr r.
Proof.
  unfold GeminiService.validatePersona. intros H.
  repeat step_accepted H. exact H.
Qed.

Lemma validateAnalysis_returns_repair (parsed r : JSON) :
  validateAnalysis parsed = inr r ->
  GeminiService.repairVerbosity numberToString parsed = inr r.
Proof.
  unfold GeminiService.validateAnalysis. intros H.
  repeat step_accepted H. exact H.
Qed.

End ParserFacts.

(** C8, amended.  A persona document without [designGuidance.avoid] is
    refused by [parsePersonaResult]; when the rest of the document is valid
    the error is "Invalid designGuidance structure", which names the
    enclosing object and not the missing member.  A persona document whose
    [designGuidance.do] is an empty list is refused. *)
Theorem parsePersonaResult_guidance_lists
        (JSON_parse : string -> Res JSON) (numberToString : float -> string)
        (text : string) (parsed : JSON) (designGuidance : Value) :
  JSON_parse (GeminiService.stripJsonFences text) = inr parsed ->
  getProp (Some parsed) "designGuidance" = inr designGuidance ->
  (getProp designGuidance "avoid" = inr None ->
   (exists e, GeminiService.parsePersonaResult JSON_parse numberToString text = inl e)
   /\
   (forall ms members items r,
       parsed = JObj ms ->
       designGuidance = Some (JObj members) ->
       GeminiService.validatePersona numberToString
         (withNested ms "designGuidance" members "avoid" (JArr items)) = inr r ->
       GeminiService.parsePersonaResult JSON_parse numberToString text
       = inl (mkError "Failed to parse Gemini response: Invalid designGuidance structure")))
  /\
  (getProp designGuidance "do" = inr (Some (JArr [])) ->
   exists e, GeminiService.parsePersonaResult JSON_parse numberToString text = inl e).
Proof.
  intros Hparse Hdg. unfold GeminiService.parsePersonaResult.
  cbv zeta. rewrite Hparse. split.
  - intros Havoid. split.
    + destruct (validatePersona_missing_avoid numberToString parsed designGuidance
                  Hdg Havoid) as [m Hm].
      rewrite Hm. eexists. reflexivity.
    + intros ms members items r -> -> Hok.
      cbn [getProp] in Hdg, Havoid.
      injection Hdg as Hdg. injection Havoid as Havoid.
      now rewrite (validatePersona_missing_avoid_message numberToString
                     ms members items r Hdg Havoid Hok).
  - intros Hdo.
    destruct (validatePersona_empty_do numberToString parsed designGuidance
                Hdg Hdo) as [m Hm].
    rewrite Hm. eexists. reflexivity.
Qed.

Lemma parsePersonaResult_guidance_lists_witness :
  GeminiService.parsePersonaResult Scenario.parse Scenario.showNumber
    "persona, avoid missing"
  = inl (mkError "Failed to parse Gemini response: Invalid designGuidance structure").
Proof.
  apply (proj2
           (proj1
              (parsePersonaResult_guidance_lists Scenario.parse Scenario.showNumber
                 "persona, avoid missing"
                 (Scenario.personaDoc [("verbosity", JStr "high")]
                    [("do", JArr [JStr "Lead with data"])])
                 (Some (JObj [("do", JArr [JStr "Lead with data"])]))
                 eq_refl eq_refl)
              eq_refl)
           _ _ [JStr "Decoration"] _ eq_refl eq_refl eq_refl).
Defined.

(** C8 as stated fails: the error for a missing [designGuidance.avoid] does
    not name that field. *)
Lemma missing_avoid_error_names_no_avoid :
  exists e,
    GeminiService.parsePersonaResult Scenario.parse Scenario.showNumber
      "persona, avoid missing" = inl e
    /\ message e = "Failed to parse Gemini response: Invalid designGuidance structure"
    /\ includes (message e) "avoid" = false.
Proof. eexists. repeat split; reflexivity. Qed.

(** C9, amended.  A document whose [communicationStyle.verbosity] is not one
    of "low", "medium" and "high" and that is valid apart from that is
    accepted with the verbosity replaced by "medium": by
    [parseProfileAnalysis] always, by [parsePersonaResult] when the
    verbosity is truthy.  A persona whose verbosity is missing, empty or
    otherwise falsy is refused.  An accepted document differs from the
    parsed one in nothing else. *)
Theorem verbosity_out_of_range_repaired
        (JSON_parse : string -> Res JSON) (numberToString : float -> string)
        (text : string) (ms cs : list (string * JSON)) :
  JSON_parse (GeminiService.stripJsonFences text) = inr (JObj ms) ->
  lookupMember "communicationStyle" ms = Some (JObj cs) ->
  GeminiService.isValidVerbosity (lookupMember "verbosity" cs) = false ->
  let repaired := withNested ms "communicationStyle" cs "verbosity" (JStr "medium") in
  (GeminiService.validateAnalysis numberToString repaired = inr repaired ->
   GeminiService.parseProfileAnalysis JSON_parse numberToString text = inr repaired)
  /\
  (GeminiService.validatePersona numberToString repaired = inr repaired ->
   if truthy (lookupMember "verbosity" cs)
   then GeminiService.parsePersonaResult JSON_parse numberToString text = inr repaired
   else GeminiService.parsePersonaResult JSON_parse numberToString text
        = inl (mkError
                 "Failed to parse Gemini response: Invalid communicationStyle structure"))
  /\
  (forall r,
      GeminiService.parseProfileAnalysis JSON_parse numberToString text = inr r
      \/ GeminiService.parsePersonaResult JSON_parse numberToString text = inr r ->
      r = repaired).
Proof.
  intros Hparse Hcs Hv repaired.
  unfold GeminiService.parseProfileAnalysis, GeminiService.parsePersonaResult.
  cbv zeta. rewrite Hparse. repeat split.
  - intros Hok.
    now rewrite (validateAnalysis_repairs numberToString ms cs Hcs Hv Hok).
  - intros Hok. destruct (truthy (lookupMember "verbosity" cs)) eqn:Ht.
    + now rewrite (validatePersona_repairs numberToString ms cs Hcs Hv Ht Hok).
    + now rewrite (validatePersona_refuses_falsy_verbosity numberToString
                     ms cs Hcs Ht Hok).
  - intros r [H | H].
    + destruct (GeminiService.validateAnalysis numberToString (JObj ms)) as [m|r'] eqn:E;
        [discriminate H|].
      injection H as <-.
      apply validateAnalysis_returns_repair in E.
      rewrite (repairVerbosity_repairs numberToString ms cs Hcs Hv) in E.
      now injection E.
    + destruct (GeminiService.validatePersona numberToString (JObj ms)) as [m|r'] eqn:E;
        [discriminate H|].
      injection H as <-.
      apply validatePersona_returns_repair in E.
      rewrite (repairVerbosity_repairs numberToString ms cs Hcs Hv) in E.
      now injection E.
Qed.

Lemma verbosity_out_of_range_repaired_witness :
  GeminiService.parseProfileAnalysis Scenario.parse Scenario.showNumber
    "analysis, verbosity extreme"
  = inr (Scenario.analysisDoc [("verbosity", JStr "medium")])
  /\ GeminiService.parsePersonaResult Scenario.parse Scenario.showNumber
       "persona, verbosity extreme"
     = inr (Scenario.personaDoc [("verbosity", JStr "medium")] Scenario.guidance).
Proof.
  split.
  - apply (proj1
             (verbosity_out_of_range_repaired Scenario.parse Scenario.showNumber
                "analysis, verbosity extreme" _ _ eq_refl eq_refl eq_refl)
             eq_refl).
  - apply (proj1
             (proj2
                (verbosity_out_of_range_repaired Scenario.parse Scenario.showNumber
                   "persona, verbosity extreme" _ _ eq_refl eq_refl eq_refl))
             eq_refl).
Defined.

(** C9 as stated fails: a persona that is valid but for an empty verbosity
    is refused, not repaired, while the analysis parser accepts a document
    without any verbosity. *)
Lemma empty_verbosity_refused_in_persona :
  GeminiService.isValidVerbosity (Some (JStr "")) = false
  /\ GeminiService.validatePersona Scenario.showNumber
       (Scenario.personaDoc [("verbosity", JStr "medium")] Scenario.guidance)
     = inr (Scenario.personaDoc [("verbosity", JStr "medium")] Scenario.guidance)
  /\ GeminiService.parsePersonaResult Scenario.parse Scenario.showNumber
       "persona, verbosity empty"
     = inl (mkError
              "Failed to parse Gemini response: Invalid communicationStyle structure")
  /\ GeminiService.parseProfileAnalysis Scenario.parse Scenario.showNumber
       "analysis, no verbosity"
     = inr (Scenario.analysisDoc [("verbosity", JStr "medium")]).
Proof. repeat split; reflexivity. Qed.

(** ** Strings as lists of characters *)

Lemma chars_str (l : list ascii) : chars (str l) = l.
Proof. apply list_ascii_of_string_of_list_ascii. Qed.

Lemma str_chars (s : string) : str (chars s) = s.
Proof. apply string_of_list_ascii_of_string. Qed.

Lemma length_chars (s : string) : List.length (chars s) = String.length s.
Proof. induction s as [|c s IH]; cbn; [reflexivity | now rewrite <- IH]. Qed.

Lemma get_chars (s : string) (i : nat) : String.get i s = nth_error (chars s) i.
Proof.
  revert i. induction s as [|c s IH]; intros [|i]; cbn; try reflexivity.
  apply IH.
Qed.

Lemma dropWhile_split {A} (p : A -> bool) (l : list A) :
  exists pre, l = pre ++ dropWhile p l /\ Forall (fun x => p x = true) pre.
Proof.
  induction l as [|x l [pre [Hl Hpre]]]; cbn.
  - exists []. split; [reflexivity | constructor].
  - destruct (p x) eqn:E.
    + exists (x :: pre). split; [cbn; now rewrite <- Hl | now constructor].
    + exists []. split; [reflexivity | constructor].
Qed.

Lemma dropWhile_head {A} (p : A -> bool) (l : list A) :
  match dropWhile p l with
  | [] => True
  | x :: _ => p x = false
  end.
Proof.
  induction l as [|x l IH]; cbn; [exact I|].
  destruct (p x) eqn:E; [exact IH | exact E].
Qed.

Lemma dropWhile_id {A} (p : A -> bool) (l : list A) :
  match l with [] => True | x :: _ => p x = false end ->
  dropWhile p l = l.
Proof. destruct l as [|x l]; cbn; [reflexivity | now intros ->]. Qed.

(** [trimEnd] removes a suffix of white space. *)
Lemma trimEndL_split (l : list ascii) :
  exists ws, l = trimEndL l ++ ws /\ Forall (fun c => isWhitespace c = true) ws.
Proof.
  unfold trimEndL.
  destruct (dropWhile_split isWhitespace (rev l)) as [pre [Hl Hpre]].
  exists (rev pre). split.
  - rewrite <- rev_app_distr, <- Hl. now rewrite rev_involutive.
  - now apply Forall_rev.
Qed.

Lemma trimEndL_id (l : list ascii) (c : ascii) :
  isWhitespace c = false -> trimEndL (l ++ [c]) = l ++ [c].
Proof.
  intros Hc. unfold trimEndL. rewrite rev_app_distr. cbn.
  rewrite Hc. cbn. now rewrite rev_involutive.
Qed.

Lemma lastIndexOfL_Some (c : ascii) (l : list ascii) (i : nat) :
  lastIndexOfL c l = Some i ->
  nth_error l i = Some c /\ forall j, i < j -> nth_error l j <> Some c.
Proof.
  revert i. induction l as [|x l IH]; cbn; intros i H; [discriminate|].
  destruct (lastIndexOfL c l) as [k|] eqn:E.
  - injection H as <-. destruct (IH k eq_refl) as [Hk Hlater]. split; [exact Hk|].
    intros [|j] Hj; [lia|]. cbn. apply Hlater. lia.
  - destruct (Ascii.eqb x c) eqn:Ex; [|discriminate].
    injection H as <-. apply Ascii.eqb_eq in Ex. subst x. split; [reflexivity|].
    intros [|j] Hj; [lia|]. cbn. clear IH Hj. revert j.
    induction l as [|y l IHl]; intros j.
    + destruct j; discriminate.
    + cbn in E. destruct (lastIndexOfL c l); [discriminate|].
      destruct (Ascii.eqb y c) eqn:Ey; [discriminate|].
      destruct j as [|j]; cbn.
      * intros H. injection H as ->. now rewrite Ascii.eqb_refl in Ey.
      * now apply IHl.
Qed.

Lemma lastIndexOfL_None (c : ascii) (l : list ascii) :
  lastIndexOfL c l = None -> forall j, nth_error l j <> Some c.
Proof.
  induction l as [|y l IHl]; intros E j.
  - destruct j; discriminate.
  - cbn in E. destruct (lastIndexOfL c l); [discriminate|].
    destruct (Ascii.eqb y c) eqn:Ey; [discriminate|].
    destruct j as [|j]; cbn.
    + intros H. injection H as ->. now rewrite Ascii.eqb_refl in Ey.
    + now apply IHl.
Qed.

(** The last occurrence is found where it is. *)
Lemma lastIndexOfL_found (c : ascii) (l : list ascii) (i : nat) :
  nth_error l i = Some c ->
  (forall j, i < j -> nth_error l j <> Some c) ->
  lastIndexOfL c l = Some i.
Proof.
  intros Hi Hlater. destruct (lastIndexOfL c l) as [k|] eqn:E.
  - destruct (lastIndexOfL_Some c l k E) as [Hk Hk'].
    destruct (Nat.lt_trichotomy i k) as [Hlt | [-> | Hgt]].
    + now destruct (Hlater k Hlt).
    + reflexivity.
    + now destruct (Hk' i Hgt).
  - now destruct (lastIndexOfL_None c l E i).
Qed.

Lemma lastIndexOfL_app_whitespace (c : ascii) (l ws : list ascii) :
  isWhitespace c = false ->
  Forall (fun x => isWhitespace x = true) ws ->
  lastIndexOfL c (l ++ ws) = lastIndexOfL c l.
Proof.
  intros Hc Hws.
  assert (Hnone : lastIndexOfL c ws = None).
  { induction Hws as [|x ws Hx _ IH]; cbn; [reflexivity|].
    rewrite IH. destruct (Ascii.eqb x c) eqn:E; [|reflexivity].
    apply Ascii.eqb_eq in E. congruence. }
  induction l as [|x l IH]; cbn; [exact Hnone | now rewrite IH].
Qed.

(** ** The script generator *)

Lemma length_str (l : list ascii) : String.length (str l) = List.length l.
Proof. now rewrite <- length_chars, chars_str. Qed.

Lemma trimEndL_startsWithText (l : list ascii) :
  startsWithText l -> startsWithText (trimEndL l).
Proof.
  intros Hl. destruct (trimEndL_split l) as [ws [Heq _]].
  destruct (trimEndL l) as [|c t]; [exact I|].
  rewrite Heq in Hl. exact Hl.
Qed.

Lemma trim_startsWithText (s : string) : startsWithText (chars (trim s)).
Proof.
  unfold trim. rewrite chars_str. apply trimEndL_startsWithText.
  unfold trimStartL. apply (dropWhile_head isWhitespace).
Qed.

(** A cleaned script does not begin with white space. *)
Lemma cleanAudioScript_startsWithText (text : string) :
  startsWithText (chars (GeminiService.cleanAudioScript text)).
Proof. unfold GeminiService.cleanAudioScript. apply trim_startsWithText. Qed.

Section Truncation.

Variable script : string.
Hypothesis Htext : startsWithText (chars script).
Hypothesis Hlong : 800 < String.length script.

Let kept : list ascii := trimEndL (firstn 800 (chars script)).

Lemma truncated_is_kept : trim (substring0 800 script) = str kept.
Proof.
  unfold trim, substring0, kept. rewrite chars_str. f_equal. f_equal.
  unfold trimStartL. apply dropWhile_id.
  rewrite <- length_chars in Hlong. unfold startsWithText in Htext.
  destruct (chars script) as [|c l]; [exact I | exact Htext].
Qed.

Lemma kept_split :
  exists ws, firstn 800 (chars script) = kept ++ ws
             /\ Forall (fun c => isWhitespace c = true) ws.
Proof. apply trimEndL_split. Qed.

Lemma kept_length : List.length kept <= 800.
Proof.
  destruct kept_split as [ws [Heq _]].
  pose proof (firstn_le_length 800 (chars script)) as Hle.
  rewrite Heq, length_app in Hle. lia.
Qed.

Lemma kept_lastIndexOf :
  lastIndexOfL "."%char kept = lastIndexOfL "."%char (firstn 800 (chars script)).
Proof.
  destruct kept_split as [ws [Heq Hws]]. rewrite Heq.
  symmetry. now apply lastIndexOfL_app_whitespace.
Qed.

Lemma truncateScript_kept :
  GeminiService.truncateScript script
  = match lastIndexOfL "."%char kept with
    | Some i => if 600 <? i then str (firstn (i + 1) kept) else str kept
    | None => str kept
    end.
Proof.
  unfold GeminiService.truncateScript. rewrite truncated_is_kept.
  unfold lastIndexOf, substring0. now rewrite chars_str.
Qed.

Lemma truncateScript_length :
  String.length (GeminiService.truncateScript script) <= 800.
Proof.
  rewrite truncateScript_kept. pose proof kept_length as Hk.
  destruct (lastIndexOfL "."%char kept) as [i|]; [destruct (600 <? i)|];
    rewrite length_str; try exact Hk.
  pose proof (firstn_le_length (i + 1) kept) as H1.
  rewrite length_firstn. lia.
Qed.

(** The cut at the last period above offset 600. *)
Lemma truncateScript_at_period (i : nat) :
  600 < i < 800 ->
  String.get i script = Some "."%char ->
  (forall j, i < j < 800 -> String.get j script <> Some "."%char) ->
  GeminiService.truncateScript script = substring0 (i + 1) script.
Proof.
  intros Hi Hdot Hlater. rewrite get_chars in Hdot.
  assert (Hlast : lastIndexOfL "."%char (firstn 800 (chars script)) = Some i).
  { apply lastIndexOfL_found.
    - rewrite nth_error_firstn. destruct (Nat.ltb_spec i 800); [exact Hdot | lia].
    - intros j Hj. rewrite nth_error_firstn.
      destruct (Nat.ltb_spec j 800); [|discriminate].
      rewrite <- get_chars. apply Hlater. lia. }
  rewrite truncateScript_kept, kept_lastIndexOf, Hlast.
  destruct (Nat.ltb_spec 600 i); [|lia].
  unfold substring0. f_equal.
  rewrite <- kept_lastIndexOf in Hlast.
  destruct (lastIndexOfL_Some _ _ _ Hlast) as [Hin _].
  assert (Hlt : i < List.length kept).
  { apply nth_error_Some. congruence. }
  destruct kept_split as [ws [Heq _]].
  transitivity (firstn (i + 1) (firstn 800 (chars script))).
  - rewrite Heq, firstn_app.
    replace (i + 1 - List.length kept) with 0 by lia.
    cbn. now rewrite app_nil_r.
  - rewrite firstn_firstn. f_equal. lia.
Qed.

(** Without a period above offset 600, the first 800 characters, trimmed. *)
Lemma truncateScript_no_period :
  (forall j, 600 < j < 800 -> String.get j script <> Some "."%char) ->
  GeminiService.truncateScript script = trim (substring0 800 script).
Proof.
  intros Hnone. rewrite truncateScript_kept, truncated_is_kept.
  destruct (lastIndexOfL "."%char kept) as [i|] eqn:E; [|reflexivity].
  destruct (Nat.ltb_spec 600 i) as [Hi|]; [|reflexivity].
  exfalso. rewrite kept_lastIndexOf in E.
  destruct (lastIndexOfL_Some _ _ _ E) as [Hin _].
  rewrite nth_error_firstn in Hin.
  destruct (Nat.ltb_spec i 800) as [Hi'|]; [|discriminate].
  apply (Hnone i); [lia|]. now rewrite get_chars.
Qed.

(** The trimming removes nothing when the 800th character is not white space. *)
Lemma truncated_untrimmed (c : ascii) :
  String.get 799 script = Some c ->
  isWhitespace c = false ->
  trim (substring0 800 script) = substring0 800 script.
Proof.
  intros Hc Hws. rewrite truncated_is_kept. unfold substring0, kept. f_equal.
  rewrite get_chars in Hc.
  assert (Hsplit : firstn 800 (chars script) = firstn 799 (chars script) ++ [c]).
  { rewrite <- length_chars in Hlong.
    rewrite <- (firstn_skipn 799 (chars script)) at 1.
    rewrite firstn_app, firstn_firstn.
    replace (Nat.min 800 799) with 799 by lia.
    rewrite length_firstn.
    replace (800 - Nat.min 799 (List.length (chars script))) with 1 by lia.
    f_equal.
    rewrite <- (firstn_skipn 799 (chars script)) in Hc.
    rewrite nth_error_app2 in Hc by (rewrite length_firstn; lia).
    rewrite length_firstn in Hc.
    replace (799 - Nat.min 799 (List.length (chars script))) with 0 in Hc by lia.
    destruct (skipn 799 (chars script)) as [|x rest]; [discriminate|].
    cbn in Hc. injection Hc as ->. reflexivity. }
  rewrite Hsplit. now apply trimEndL_id.
Qed.

End Truncation.

Section ScriptFacts.

Variable W : Type.
Variable generateContent : Prompt JSON -> W -> GeminiService.Settled * W.

Local Abbreviation generateAudioScript :=
  (GeminiService.generateAudioScript W generateContent).

(** A draft of more than 800 characters is truncated and returned at once. *)
Lemma generateAudioScript_long (persona : JSON) (w w1 : W) (text : string) :
  generateContent (GeminiService.buildAudioScriptPrompt persona None) w
  = (GeminiService.Fulfilled text, w1) ->
  800 < String.length (GeminiService.cleanAudioScript text) ->
  generateAudioScript persona w
  = (Returned (GeminiService.truncateScript (GeminiService.cleanAudioScript text)),
     w1, [Requested (GeminiService.buildAudioScriptPrompt persona None)]).
Proof.
  intros Hdraft Hlong.
  unfold GeminiService.generateAudioScript, tryCatch, bind, GeminiService.request.
  cbv zeta. rewrite Hdraft.
  apply Nat.ltb_lt in Hlong. rewrite Hlong. reflexivity.
Qed.

(** A draft within 800 characters whose word count is out of range is
    regenerated once; the second draft, when within 800 characters, is
    returned if its word count is in range, and the first draft otherwise. *)
Lemma generateAudioScript_regenerated
      (persona : JSON) (w w1 w2 : W) (text retryText : string) :
  let script := GeminiService.cleanAudioScript text in
  let wordCount := GeminiService.countWords script in
  let retryScript := GeminiService.cleanAudioScript retryText in
  let retryWordCount := GeminiService.countWords retryScript in
  generateContent (GeminiService.buildAudioScriptPrompt persona None) w
  = (GeminiService.Fulfilled text, w1) ->
  String.length script <= 800 ->
  wordCount < 110 \/ 150 < wordCount ->
  generateContent (GeminiService.buildAudioScriptPrompt persona (Some wordCount)) w1
  = (GeminiService.Fulfilled retryText, w2) ->
  String.length retryScript <= 800 ->
  generateAudioScript persona w
  = (Returned (if (110 <=? retryWordCount) && (retryWordCount <=? 150)
               then retryScript else script),
     w2,
     [ Requested (GeminiService.buildAudioScriptPrompt persona None);
       Requested (GeminiService.buildAudioScriptPrompt persona (Some wordCount)) ]).
Proof.
  intros script wordCount retryScript retryWordCount Hdraft Hshort Hout Hretry Hshort'.
  unfold GeminiService.generateAudioScript, tryCatch, bind, GeminiService.request.
  cbv zeta. rewrite Hdraft.
  fold script. fold wordCount.
  replace (800 <? String.length script) with false
    by (symmetry; apply Nat.ltb_ge; exact Hshort).
  replace ((wordCount <? 110) || (150 <? wordCount)) with true
    by (symmetry; apply orb_true_iff; destruct Hout as [H|H];
        [left | right]; apply Nat.ltb_lt; exact H).
  rewrite Hretry. fold retryScript. fold retryWordCount.
  replace (800 <? String.length retryScript) with false
    by (symmetry; apply Nat.ltb_ge; exact Hshort').
  reflexivity.
Qed.

End ScriptFacts.

Lemma periodFree_spec (s : string) (from count j : nat) :
  Scenario.periodFree s from count = true ->
  from <= j < from + count ->
  String.get j s <> Some "."%char.
Proof.
  unfold Scenario.periodFree. rewrite forallb_forall. intros Hall Hj.
  specialize (Hall j). rewrite in_seq in Hall. specialize (Hall Hj).
  destruct (String.get j s) as [c|]; [|discriminate].
  intros H. injection H as ->. discriminate Hall.
Qed.

(** C6, amended.  A cleaned draft of more than 800 characters is answered
    at once, without a second request, by at most 800 characters: the text
    up to and including the last period found at an offset above 600 among
    the first 800 characters, and otherwise the first 800 characters with
    trailing white space trimmed (all 800 of them when the 800th is not
    white space). *)
Theorem generateAudioScript_character_ceiling
        (W : Type) (generateContent : Prompt JSON -> W -> GeminiService.Settled * W)
        (persona : JSON) (w w1 : W) (text : string) :
  generateContent (GeminiService.buildAudioScriptPrompt persona None) w
  = (GeminiService.Fulfilled text, w1) ->
  800 < String.length (GeminiService.cleanAudioScript text) ->
  let script := GeminiService.cleanAudioScript text in
  let run := GeminiService.generateAudioScript W generateContent persona w in
  exists final,
    outcome run = Returned final
    /\ world run = w1
    /\ requests (trace run) = [GeminiService.buildAudioScriptPrompt persona None]
    /\ String.length final <= 800
    /\ (forall i,
          600 < i < 800 ->
          String.get i script = Some "."%char ->
          (forall j, i < j < 800 -> String.get j script <> Some "."%char) ->
          final = substring0 (i + 1) script)
    /\ ((forall j, 600 < j < 800 -> String.get j script <> Some "."%char) ->
        final = trim (substring0 800 script)
        /\ (forall c, String.get 799 script = Some c -> isWhitespace c = false ->
                      final = substring0 800 script)).
Proof.
  intros Hdraft Hlong script run. subst run.
  rewrite (generateAudioScript_long W generateContent persona w w1 text Hdraft Hlong).
  fold script.
  pose proof (cleanAudioScript_startsWithText text) as Htext. fold script in Htext.
  exists (GeminiService.truncateScript script).
  split; [reflexivity|]. split; [reflexivity|]. split; [reflexivity|].
  split; [exact (truncateScript_length script Htext Hlong)|].
  split.
  - intros i Hi Hdot Hlater.
    exact (truncateScript_at_period script Htext Hlong i Hi Hdot Hlater).
  - intros Hnone. split.
    + exact (truncateScript_no_period script Htext Hlong Hnone).
    + intros c Hc Hws.
      rewrite (truncateScript_no_period script Htext Hlong Hnone).
      exact (truncated_untrimmed script Htext Hlong c Hc Hws).
Qed.

(** A draft of 900 characters with one period, at offset 650. *)
Lemma generateAudioScript_character_ceiling_witness :
  let run :=
    GeminiService.generateAudioScript Scenario.World
      (Scenario.model [Scenario.broken]) Scenario.persona Scenario.start in
  outcome run = Returned (substring0 651 Scenario.broken).
Proof.
  assert (Hlong : 800 < String.length (GeminiService.cleanAudioScript Scenario.broken))
    by (apply Nat.ltb_lt; vm_compute; reflexivity).
  destruct (generateAudioScript_character_ceiling Scenario.World
              (Scenario.model [Scenario.broken]) Scenario.persona Scenario.start
              (Scenario.mkWorld 1 5) Scenario.broken eq_refl Hlong)
    as [final [Hout [_ [_ [_ [Hcut _]]]]]].
  cbv zeta. rewrite Hout. f_equal.
  assert (Hclean : GeminiService.cleanAudioScript Scenario.broken = Scenario.broken)
    by (vm_compute; reflexivity).
  rewrite Hclean in Hcut.
  apply (Hcut 650); [lia | vm_compute; reflexivity |].
  intros j Hj. apply (periodFree_spec Scenario.broken 651 149);
    [vm_compute; reflexivity | lia].
Defined.

(** C6 as stated fails: a cleaned draft of 900 characters without a period
    whose 800th character is a space is cut to 799 characters, not 800. *)
Lemma hard_truncation_trims_the_space :
  let run :=
    GeminiService.generateAudioScript Scenario.World
      (Scenario.model [Scenario.unbroken]) Scenario.persona Scenario.start in
  GeminiService.cleanAudioScript Scenario.unbroken = Scenario.unbroken
  /\ String.length Scenario.unbroken = 900
  /\ lastIndexOf "."%char Scenario.unbroken = None
  /\ outcome run = Returned (Scenario.repeated 799 "a")
  /\ String.length (substring0 800 Scenario.unbroken) = 800
  /\ String.eqb (Scenario.repeated 799 "a") (substring0 800 Scenario.unbroken) = false.
Proof. cbv zeta. split_all; vm_compute; reflexivity. Qed.

(** C7 at its failing input.  The first draft is empty, so its word count
    is 0, which is out of range; the request that regenerates it is the
    first request again, without the line that tells the previous count. *)
Theorem regeneration_after_empty_draft_has_no_feedback :
  let run :=
    GeminiService.generateAudioScript Scenario.World
      (Scenario.model [""; Scenario.briefing]) Scenario.persona Scenario.start in
  GeminiService.countWords (GeminiService.cleanAudioScript "") = 0
  /\ requests (trace run)
     = [ AudioScriptPrompt Scenario.persona ""; AudioScriptPrompt Scenario.persona "" ]
  /\ GeminiService.buildAudioScriptPrompt Scenario.persona (Some 90)
     = AudioScriptPrompt Scenario.persona
         (nl +++ "IMPORTANT: Your previous attempt had 90 words. "
             +++ "Please adjust to be between 110-130 words exactly.").
Proof. cbv zeta. split_all; vm_compute; reflexivity. Qed.

(** The regeneration policy.  A cleaned draft of at most 800 characters
    whose word count is out of [110,150] is regenerated by exactly one
    request, built from that word count; the regenerated draft, when at
    most 800 characters after cleaning, is returned exactly when its word
    count is in [110,150], and the first draft is returned otherwise.  The
    request tells the previous word count unless that count is 0. *)
Theorem generateAudioScript_regeneration_policy
        (W : Type) (generateContent : Prompt JSON -> W -> GeminiService.Settled * W)
        (persona : JSON) (w w1 w2 : W) (text retryText : string) :
  let script := GeminiService.cleanAudioScript text in
  let wordCount := GeminiService.countWords script in
  let retryScript := GeminiService.cleanAudioScript retryText in
  let retryWordCount := GeminiService.countWords retryScript in
  generateContent (GeminiService.buildAudioScriptPrompt persona None) w
  = (GeminiService.Fulfilled text, w1) ->
  String.length script <= 800 ->
  wordCount < 110 \/ 150 < wordCount ->
  generateContent (GeminiService.buildAudioScriptPrompt persona (Some wordCount)) w1
  = (GeminiService.Fulfilled retryText, w2) ->
  String.length retryScript <= 800 ->
  let run := GeminiService.generateAudioScript W generateContent persona w in
  requests (trace run)
  = [ GeminiService.buildAudioScriptPrompt persona None;
      GeminiService.buildAudioScriptPrompt persona (Some wordCount) ]
  /\ (110 <= retryWordCount <= 150 -> outcome run = Returned retryScript)
  /\ (retryWordCount < 110 \/ 150 < retryWordCount -> outcome run = Returned script)
  /\ (wordCount <> 0 ->
      GeminiService.buildAudioScriptPrompt persona (Some wordCount)
      = AudioScriptPrompt persona
          (nl +++ "IMPORTANT: Your previous attempt had " +++ ofNat wordCount
              +++ " words. Please adjust to be between 110-130 words exactly.")).
Proof.
  intros script wordCount retryScript retryWordCount Hdraft Hshort Hout Hretry Hshort' run.
  subst run.
  rewrite (generateAudioScript_regenerated W generateContent persona w w1 w2
             text retryText Hdraft Hshort Hout Hretry Hshort').
  fold script. fold retryScript. fold retryWordCount.
  split; [reflexivity|]. split; [|split].
  - intros [Hlo Hhi]. cbn [outcome fst].
    apply Nat.leb_le in Hlo. apply Nat.leb_le in Hhi. now rewrite Hlo, Hhi.
  - intros Hout'. cbn [outcome fst].
    replace ((110 <=? retryWordCount) && (retryWordCount <=? 150)) with false;
      [reflexivity|].
    symmetry. apply andb_false_iff.
    destruct Hout' as [H|H]; [left | right]; apply Nat.leb_gt; exact H.
  - intros Hnz. unfold GeminiService.buildAudioScriptPrompt.
    destruct (Nat.eqb_spec wordCount 0); [contradiction | reflexivity].
Qed.

(** A draft of 6 words regenerated as one of 120 words. *)
Lemma generateAudioScript_regeneration_policy_witness :
  let run :=
    GeminiService.generateAudioScript Scenario.World
      (Scenario.model [Scenario.briefing; Scenario.words 120]) Scenario.persona
      Scenario.start in
  requests (trace run)
  = [ GeminiService.buildAudioScriptPrompt Scenario.persona None;
      GeminiService.buildAudioScriptPrompt Scenario.persona (Some 6) ]
  /\ outcome run = Returned (GeminiService.cleanAudioScript (Scenario.words 120)).
Proof.
  assert (H1 : String.length (GeminiService.cleanAudioScript Scenario.briefing) <= 800)
    by (apply Nat.leb_le; vm_compute; reflexivity).
  assert (H2 : String.length (GeminiService.cleanAudioScript (Scenario.words 120)) <= 800)
    by (apply Nat.leb_le; vm_compute; reflexivity).
  assert (H3 : GeminiService.countWords (GeminiService.cleanAudioScript Scenario.briefing)
               < 110) by (apply Nat.ltb_lt; vm_compute; reflexivity).
  destruct (generateAudioScript_regeneration_policy Scenario.World
              (Scenario.model [Scenario.briefing; Scenario.words 120])
              Scenario.persona Scenario.start (Scenario.mkWorld 1 5)
              (Scenario.mkWorld 2 10) Scenario.briefing (Scenario.words 120)
              eq_refl H1 (or_introl H3) eq_refl H2)
    as [Hreq [Hin _]].
  cbv zeta. split; [exact Hreq|].
  apply Hin. split; apply Nat.leb_le; vm_compute; reflexivity.
Defined.

(** ** Normal form of a cleaned text *)

Lemma chars_app (a b : string) : chars (a +++ b) = chars a ++ chars b.
Proof.
  unfold chars. induction a as [|c a IH]; cbn; [reflexivity | now rewrite IH].
Qed.

Lemma str_app (a b : list ascii) : str (a ++ b) = str a +++ str b.
Proof.
  unfold str. induction a as [|c a IH]; cbn; [reflexivity | now rewrite IH].
Qed.

Lemma endsWithText_snoc (l : list ascii) (c : ascii) :
  isWhitespace c = false -> endsWithText (l ++ [c]).
Proof.
  intros Hc. induction l as [|x l IH]; cbn; [exact Hc|].
  destruct (l ++ [c]) eqn:E; [now destruct l | exact IH].
Qed.

Lemma trimEndL_endsWithText (l : list ascii) : endsWithText (trimEndL l).
Proof.
  unfold trimEndL. pose proof (dropWhile_head isWhitespace (rev l)) as H.
  destruct (dropWhile isWhitespace (rev l)) as [|x t]; [exact I|].
  cbn [rev]. now apply endsWithText_snoc.
Qed.

Lemma trim_endsWithText (s : string) : endsWithText (chars (trim s)).
Proof. unfold trim. rewrite chars_str. apply trimEndL_endsWithText. Qed.

Lemma firstn_endsWithText (l : list ascii) (i : nat) (c : ascii) :
  nth_error l i = Some c -> isWhitespace c = false ->
  endsWithText (firstn (i + 1) l).
Proof.
  intros Hi Hc. destruct (nth_error_split l i Hi) as [l1 [l2 [-> Hlen]]].
  rewrite firstn_app. replace (i + 1 - List.length l1) with 1 by lia.
  rewrite firstn_all2 by lia. cbn. now apply endsWithText_snoc.
Qed.

Lemma firstn_startsWithText (l : list ascii) (n : nat) :
  startsWithText l -> startsWithText (firstn n l).
Proof. destruct l, n; cbn; auto. Qed.

Lemma singleSpaced_app_r (a b : list ascii) :
  singleSpaced (a ++ b) -> singleSpaced b.
Proof. induction a as [|x a IH]; cbn [app singleSpaced]; [auto | intros [_ H]; auto]. Qed.

Lemma singleSpaced_collapse (l : list ascii) :
  forall inRun,
    singleSpaced (collapseWhitespaceL inRun l)
    /\ (inRun = true -> startsWithText (collapseWhitespaceL inRun l)).
Proof.
  induction l as [|c l IH]; intros inRun; cbn [collapseWhitespaceL].
  - split; [exact I | intros _; exact I].
  - destruct (isWhitespace c) eqn:Ec.
    + destruct inRun; cbn [app].
      * apply IH.
      * split; [|discriminate]. cbn [singleSpaced].
        destruct (IH true) as [Hs Ht]. split; [|exact Hs].
        intros _. split; [reflexivity | now apply Ht].
    + split; [|intros _; exact Ec]. cbn [singleSpaced].
      split; [congruence | apply IH].
Qed.

Lemma singleSpaced_app_l (a b : list ascii) :
  singleSpaced (a ++ b) -> singleSpaced a.
Proof.
  induction a as [|x a IH]; cbn [app singleSpaced]; [auto|].
  intros [Hx H]. split; [|auto].
  intros Hws. destruct (Hx Hws) as [-> Hnext]. split; [reflexivity|].
  destruct a; [exact I | exact Hnext].
Qed.

Lemma singleSpaced_trim (l : list ascii) :
  singleSpaced l -> singleSpaced (trimEndL (trimStartL l)).
Proof.
  intros H. unfold trimStartL.
  destruct (dropWhile_split isWhitespace l) as [pre [Hl _]].
  rewrite Hl in H. apply singleSpaced_app_r in H.
  destruct (trimEndL_split (dropWhile isWhitespace l)) as [ws [Heq _]].
  rewrite Heq in H. now apply singleSpaced_app_l in H.
Qed.

(** A cleaned script neither begins nor ends with white space, and its
    words are separated by single spaces. *)
Lemma cleanAudioScript_normal_form (text : string) :
  let l := chars (GeminiService.cleanAudioScript text) in
  startsWithText l /\ endsWithText l /\ singleSpaced l.
Proof.
  cbv zeta. split; [apply cleanAudioScript_startsWithText|].
  unfold GeminiService.cleanAudioScript.
  split; [apply trim_endsWithText|].
  unfold trim, collapseWhitespace. rewrite !chars_str.
  apply singleSpaced_trim. apply singleSpaced_collapse.
Qed.

Lemma exists_last_or_nil {A} (l : list A) :
  l = [] \/ exists l' x, l = l' ++ [x].
Proof.
  destruct l as [|a l]; [now left | right].
  destruct (exists_last (l := a :: l)) as [l' [x H]]; [discriminate|]. now exists l', x.
Qed.

Lemma collapse_singleSpaced (l : list ascii) :
  singleSpaced l ->
  collapseWhitespaceL false l = l
  /\ (startsWithText l -> collapseWhitespaceL true l = l).
Proof.
  induction l as [|c l IH]; [now split|].
  cbn [singleSpaced collapseWhitespaceL startsWithText]. intros [Hc Hl].
  destruct (IH Hl) as [IH1 IH2].
  destruct (isWhitespace c) eqn:Ec.
  - destruct (Hc eq_refl) as [-> Hnext]. split; [|discriminate].
    cbn [app]. f_equal. now apply IH2.
  - split; [|intros _]; now rewrite IH1.
Qed.

Lemma trimEndL_fixed (l : list ascii) : endsWithText l -> trimEndL l = l.
Proof.
  intros Hend. destruct (exists_last_or_nil l) as [->|[l' [c ->]]]; [reflexivity|].
  apply trimEndL_id.
  clear -Hend. induction l' as [|x l' IH]; cbn in Hend; [exact Hend|].
  destruct (l' ++ [c]) eqn:E; [now destruct l' | now apply IH].
Qed.

(** A cleaned script is in normal form.  It neither begins nor ends with
    white space, its only white-space characters are single spaces between
    words, and so trimming it or collapsing its white space again changes
    nothing. *)
Theorem cleanAudioScript_is_normalised (text : string) :
  let script := GeminiService.cleanAudioScript text in
  startsWithText (chars script)
  /\ endsWithText (chars script)
  /\ singleSpaced (chars script)
  /\ trim script = script
  /\ collapseWhitespace script = script.
Proof.
  cbv zeta. destruct (cleanAudioScript_normal_form text) as [Hstart [Hend Hsingle]].
  split; [exact Hstart|]. split; [exact Hend|]. split; [exact Hsingle|]. split.
  - unfold trim, trimStartL.
    rewrite (dropWhile_id isWhitespace _ Hstart), (trimEndL_fixed _ Hend).
    apply str_chars.
  - unfold collapseWhitespace.
    rewrite (proj1 (collapse_singleSpaced _ Hsingle)). apply str_chars.
Qed.

(** ** Counting words *)

Lemma countRuns_whitespace_only (p : ascii -> bool) (ws : list ascii) :
  Forall (fun c => p c = false) ws -> forall inRun, countRuns p inRun ws = 0.
Proof.
  induction 1 as [|c ws Hc _ IH]; intros inRun; cbn; [reflexivity|].
  rewrite Hc. apply IH.
Qed.

Lemma countRuns_app_gap (p : ascii -> bool) (l ws : list ascii) :
  Forall (fun c => p c = false) ws ->
  forall inRun, countRuns p inRun (l ++ ws) = countRuns p inRun l.
Proof.
  intros Hws. induction l as [|c l IH]; intros inRun; cbn.
  - now apply countRuns_whitespace_only.
  - destruct (p c); now rewrite IH.
Qed.

Lemma countRuns_gap_app (p : ascii -> bool) (ws l : list ascii) :
  Forall (fun c => p c = false) ws ->
  countRuns p false (ws ++ l) = countRuns p false l.
Proof.
  intros Hws. induction Hws as [|c ws Hc _ IH]; cbn; [reflexivity|].
  now rewrite Hc.
Qed.

Lemma whitespace_is_gap (ws : list ascii) :
  Forall (fun c => isWhitespace c = true) ws ->
  Forall (fun c => negb (isWhitespace c) = false) ws.
Proof. apply Forall_impl. intros c ->. reflexivity. Qed.

Lemma countWords_trim (s : string) :
  GeminiService.countWords (trim s) = GeminiService.countWords s.
Proof.
  unfold GeminiService.countWords, trim. rewrite chars_str. unfold trimStartL.
  destruct (dropWhile_split isWhitespace (chars s)) as [pre [Hl Hpre]].
  destruct (trimEndL_split (dropWhile isWhitespace (chars s))) as [ws [Heq Hws]].
  rewrite Hl at 2. rewrite countRuns_gap_app by (auto using whitespace_is_gap).
  rewrite Heq at 2. now rewrite countRuns_app_gap by (auto using whitespace_is_gap).
Qed.

Lemma countRuns_collapse (l : list ascii) :
  forall inRun counting,
    (inRun = true -> counting = false) ->
    countRuns (fun c => negb (isWhitespace c)) counting (collapseWhitespaceL inRun l)
    = countRuns (fun c => negb (isWhitespace c)) counting l.
Proof.
  induction l as [|c l IH]; intros inRun counting Hinv; [reflexivity|].
  cbn [collapseWhitespaceL countRuns].
  destruct (isWhitespace c) eqn:Ec; cbn [negb].
  - destruct inRun; cbn [app countRuns].
    + rewrite (Hinv eq_refl). now apply IH.
    + change (isWhitespace " "%char) with true. cbn [negb]. now apply IH.
  - cbn [countRuns]. rewrite Ec. cbn [negb]. f_equal. apply IH. discriminate.
Qed.

Lemma countWords_collapseWhitespace (s : string) :
  GeminiService.countWords (collapseWhitespace s) = GeminiService.countWords s.
Proof.
  unfold GeminiService.countWords, collapseWhitespace. rewrite chars_str.
  apply countRuns_collapse. discriminate.
Qed.

(** In a text that ends with a word, the words after the first are as many
    as the runs of white space. *)
Lemma countRuns_alternate (l : list ascii) :
  l <> [] -> endsWithText l ->
  countRuns (fun c => negb (isWhitespace c)) true l = countRuns isWhitespace false l
  /\ countRuns (fun c => negb (isWhitespace c)) false l
     = S (countRuns isWhitespace true l).
Proof.
  induction l as [|c l IH]; intros Hne Hend; [congruence|].
  destruct l as [|d l].
  - cbn in *. rewrite Hend. cbn. split; reflexivity.
  - destruct IH as [IH1 IH2]; [discriminate | exact Hend |].
    cbn [countRuns] in *. destruct (isWhitespace c); cbn [negb]; split; lia.
Qed.

Lemma splitWhitespaceLength_countWords (s : string) :
  s <> "" -> startsWithText (chars s) -> endsWithText (chars s) ->
  splitWhitespaceLength s = GeminiService.countWords s.
Proof.
  unfold splitWhitespaceLength, GeminiService.countWords.
  intros Hne Hstart Hend.
  destruct s as [|c s]; [congruence|]. cbn [chars list_ascii_of_string] in *.
  fold (chars s) in *. cbn [countRuns]. cbn in Hstart. rewrite Hstart. cbn [negb].
  destruct (chars s) as [|d l] eqn:E; [reflexivity|].
  destruct (countRuns_alternate (d :: l)) as [H1 _]; [discriminate | exact Hend |].
  rewrite H1. reflexivity.
Qed.

(** The word count does not depend on the layout.  White space around a
    text and the length of the white space between its words do not change
    what [countWords] returns, and the count the form shows for a text is
    the count the backend computes for it. *)
Theorem countWords_ignores_layout (text : string) :
  GeminiService.countWords (trim text) = GeminiService.countWords text
  /\ GeminiService.countWords (collapseWhitespace text) = GeminiService.countWords text
  /\ GeminiService.countWords (trim (collapseWhitespace text))
     = GeminiService.countWords text
  /\ InputForm.wordCount text = Z.of_nat (GeminiService.countWords text).
Proof.
  split; [apply countWords_trim|]. split; [apply countWords_collapseWhitespace|].
  split.
  - now rewrite countWords_trim, countWords_collapseWhitespace.
  - unfold InputForm.wordCount. f_equal. apply countWords_trim.
Qed.

(** ** Code fences around a JSON response *)

Lemma includes_char (d c : ascii) (s : string) :
  includes (String c s) (String d "") = false ->
  c <> d /\ includes s (String d "") = false.
Proof.
  cbn [includes]. unfold startsWith. cbn [String.prefix].
  destruct (ascii_dec d c) as [<-|Hc].
  - now destruct s.
  - rewrite orb_false_l. intros H. split; [congruence | exact H].
Qed.

(** Text without a backtick is copied by the removal of a fence. *)
Lemma removeFenceL_copies (fence : string) (letters : bool) (body : string)
      (rest : list ascii) :
  includes body "`" = false ->
  removeFenceL (String "`" fence) letters Scan (chars body ++ rest)
  = chars body ++ removeFenceL (String "`" fence) letters Scan rest.
Proof.
  induction body as [|c body IH]; intros Hbody; [reflexivity|].
  destruct (includes_char "`" c body Hbody) as [Hc Hrest].
  cbn [chars list_ascii_of_string app]. fold (chars body).
  cbn [removeFenceL]. unfold startsWith at 1.
  cbn [str string_of_list_ascii String.prefix].
  destruct (ascii_dec "`" c) as [E|_]; [congruence|].
  cbn [andb]. f_equal. now apply IH.
Qed.

Lemma trim_fenced (l : list ascii) :
  trimEndL (trimStartL ("`"%char :: l ++ ["`"%char])) = "`"%char :: l ++ ["`"%char].
Proof.
  unfold trimStartL. cbn [dropWhile].
  change (isWhitespace "`") with false. cbv iota.
  exact (trimEndL_id ("`"%char :: l) "`"%char eq_refl).
Qed.

Lemma stripJsonFences_json_fence (body : string) :
  includes body "`" = false ->
  GeminiService.stripJsonFences ("```json" +++ nl +++ body +++ nl +++ "```")
  = body +++ nl.
Proof.
  intros Hbody. unfold GeminiService.stripJsonFences.
  assert (Htrim : trim ("```json" +++ nl +++ body +++ nl +++ "```")
                  = "```json" +++ nl +++ body +++ nl +++ "```").
  { unfold trim. rewrite !chars_app.
    change (chars "```json" ++ chars nl ++ chars body ++ chars nl ++ chars "```")
      with ("`"%char :: (chars "``json" ++ chars nl ++ chars body ++ chars nl ++ chars "```")).
    replace (chars "``json" ++ chars nl ++ chars body ++ chars nl ++ chars "```")
      with ((chars "``json" ++ chars nl ++ chars body ++ chars nl ++ chars "``") ++ ["`"%char])
      by (rewrite <- !app_assoc; reflexivity).
    rewrite trim_fenced. rewrite <- !app_assoc.
    change (str (chars "```json" ++ chars nl ++ chars body ++ chars nl ++ chars "```")
            = "```json" +++ nl +++ body +++ nl +++ "```").
    now rewrite !str_app, !str_chars. }
  rewrite Htrim. change (startsWith ("```json" +++ nl +++ body +++ nl +++ "```") "```")
    with true. cbv iota.
  unfold removeFence. rewrite chars_str.
  change (chars ("```json" +++ nl +++ body +++ nl +++ "```"))
    with (chars "```json" ++ chars nl ++ chars (body +++ nl +++ "```")).
  rewrite chars_app.
  change (removeFenceL "```json" false Scan
            (chars "```json" ++ chars nl ++ chars body ++ chars (nl +++ "```")))
    with (removeFenceL "```json" false Scan (chars body ++ chars (nl +++ "```"))).
  rewrite (removeFenceL_copies "``json" false body _ Hbody).
  change (removeFenceL "```json" false Scan (chars (nl +++ "```")))
    with (chars (nl +++ "```")).
  rewrite (removeFenceL_copies "``" false body _ Hbody).
  change (removeFenceL "```" false Scan (chars (nl +++ "```"))) with (chars nl).
  now rewrite str_app, !str_chars.
Qed.

Lemma stripJsonFences_plain_fence (body : string) :
  includes body "`" = false ->
  GeminiService.stripJsonFences ("```" +++ nl +++ body +++ nl +++ "```")
  = body +++ nl.
Proof.
  intros Hbody. unfold GeminiService.stripJsonFences.
  assert (Htrim : trim ("```" +++ nl +++ body +++ nl +++ "```")
                  = "```" +++ nl +++ body +++ nl +++ "```").
  { unfold trim. rewrite !chars_app.
    change (chars "```" ++ chars nl ++ chars body ++ chars nl ++ chars "```")
      with ("`"%char :: (chars "``" ++ chars nl ++ chars body ++ chars nl ++ chars "```")).
    replace (chars "``" ++ chars nl ++ chars body ++ chars nl ++ chars "```")
      with ((chars "``" ++ chars nl ++ chars body ++ chars nl ++ chars "``") ++ ["`"%char])
      by (rewrite <- !app_assoc; reflexivity).
    rewrite trim_fenced. rewrite <- !app_assoc.
    change (str (chars "```" ++ chars nl ++ chars body ++ chars nl ++ chars "```")
            = "```" +++ nl +++ body +++ nl +++ "```").
    now rewrite !str_app, !str_chars. }
  rewrite Htrim. change (startsWith ("```" +++ nl +++ body +++ nl +++ "```") "```")
    with true. cbv iota.
  unfold removeFence. rewrite chars_str.
  change (chars ("```" +++ nl +++ body +++ nl +++ "```"))
    with (chars "```" ++ chars nl ++ chars (body +++ nl +++ "```")).
  rewrite chars_app.
  change (removeFenceL "```json" false Scan
            (chars "```" ++ chars nl ++ chars body ++ chars (nl +++ "```")))
    with (chars "```" ++ chars nl
          ++ removeFenceL "```json" false Scan (chars body ++ chars (nl +++ "```"))).
  rewrite (removeFenceL_copies "``json" false body _ Hbody).
  change (removeFenceL "```json" false Scan (chars (nl +++ "```")))
    with (chars (nl +++ "```")).
  change (removeFenceL "```" false Scan
            (chars "```" ++ chars nl ++ chars body ++ chars (nl +++ "```")))
    with (removeFenceL "```" false Scan (chars body ++ chars (nl +++ "```"))).
  rewrite (removeFenceL_copies "``" false body _ Hbody).
  change (removeFenceL "```" false Scan (chars (nl +++ "```"))) with (chars nl).
  now rewrite str_app, !str_chars.
Qed.

(** A fenced JSON response is unwrapped.  For a body without a backtick
    between an opening fence, with or without the word json, and a closing
    fence, each on a line of its own, [stripJsonFences] gives the body
    followed by its line feed: both fences and the line feed after the
    opening one are removed, and nothing of the body is. *)
Theorem stripJsonFences_unwraps (body : string) :
  includes body "`" = false ->
  GeminiService.stripJsonFences ("```json" +++ nl +++ body +++ nl +++ "```")
  = body +++ nl
  /\ GeminiService.stripJsonFences ("```" +++ nl +++ body +++ nl +++ "```")
     = body +++ nl.
Proof.
  intros Hbody. split.
  - now apply stripJsonFences_json_fence.
  - now apply stripJsonFences_plain_fence.
Qed.

(** A fenced array. *)
Lemma stripJsonFences_unwraps_witness :
  GeminiService.stripJsonFences
    ("```json" +++ nl +++ "[1, 2, 3]" +++ nl +++ "```")
  = "[1, 2, 3]" +++ nl.
Proof.
  exact (proj1 (stripJsonFences_unwraps "[1, 2, 3]" eq_refl)).
Defined.

(** ** What the script generator returns *)

Lemma truncateScript_normal_form (script : string) :
  startsWithText (chars script) ->
  800 < String.length script ->
  let l := chars (GeminiService.truncateScript script) in
  startsWithText l /\ endsWithText l /\ exists rest, chars script = l ++ rest.
Proof.
  intros Htext Hlong. cbv zeta.
  rewrite (truncateScript_kept script Htext Hlong).
  destruct (trimEndL_split (firstn 800 (chars script))) as [ws [Heq _]].
  pose proof (trimEndL_endsWithText (firstn 800 (chars script))) as Hend.
  pose proof (trimEndL_startsWithText _ (firstn_startsWithText _ 800 Htext)) as Hstart.
  assert (Hkept : exists rest,
             chars script = trimEndL (firstn 800 (chars script)) ++ rest).
  { exists (ws ++ skipn 800 (chars script)).
    rewrite app_assoc, <- Heq. symmetry. apply firstn_skipn. }
  destruct (lastIndexOfL "."%char (trimEndL (firstn 800 (chars script))))
    as [i|] eqn:E; [destruct (600 <? i)|]; rewrite chars_str;
    try (split; [exact Hstart | split; [exact Hend | exact Hkept]]).
  destruct (lastIndexOfL_Some _ _ _ E) as [Hi _].
  split; [now apply firstn_startsWithText|].
  split; [now apply (firstn_endsWithText _ i "."%char)|].
  destruct Hkept as [rest Hrest].
  exists (skipn (i + 1) (trimEndL (firstn 800 (chars script))) ++ rest).
  now rewrite app_assoc, firstn_skipn.
Qed.

Section ScriptResult.

Variable W : Type.
Variable generateContent : Prompt JSON -> W -> GeminiService.Settled * W.

Lemma rethrow_throws {A} (context : string) (error : CaughtError) (w : W) :
  exists e, GeminiService.rethrow W context error w = (@Thrown Error A e, w, []).
Proof.
  unfold GeminiService.rethrow.
  repeat match goal with
         | |- context [if ?b then _ else _] => destruct b
         end; eexists; reflexivity.
Qed.

(** Whatever [generateAudioScript] returns is the cleaned text of one of the
    responses it received, truncated when longer than 800 characters. *)
Lemma generateAudioScript_returned
      (persona : JSON) (w w' : W) (s : string) (tr : list (Event JSON)) :
  GeminiService.generateAudioScript W generateContent persona w = (Returned s, w', tr) ->
  (exists prompt w0 w1 text,
      In prompt (requests tr)
      /\ generateContent prompt w0 = (GeminiService.Fulfilled text, w1)
      /\ let script := GeminiService.cleanAudioScript text in
         if 800 <? String.length script
         then s = GeminiService.truncateScript script
         else s = script)
  /\ 1 <= List.length (requests tr) <= 2.
Proof.
  unfold GeminiService.generateAudioScript, tryCatch, bind, GeminiService.request.
  cbv zeta.
  destruct (generateContent (GeminiService.buildAudioScriptPrompt persona None) w)
    as [[text|e|] w1] eqn:H1.
  - destruct (800 <? String.length (GeminiService.cleanAudioScript text)) eqn:L1.
    + intros H. injection H as <- <- <-. split; [|cbn; lia].
      exists (GeminiService.buildAudioScriptPrompt persona None), w, w1, text.
      split; [now left|]. split; [exact H1|]. cbv zeta. now rewrite L1.
    + destruct ((GeminiService.countWords (GeminiService.cleanAudioScript text) <? 110)
                || (150 <? GeminiService.countWords (GeminiService.cleanAudioScript text))).
      * destruct (generateContent
                    (GeminiService.buildAudioScriptPrompt persona
                       (Some (GeminiService.countWords (GeminiService.cleanAudioScript text))))
                    w1) as [[retryText|e|] w2] eqn:H2.
        -- destruct (800 <? String.length (GeminiService.cleanAudioScript retryText)) eqn:L2.
           ++ intros H. injection H as <- <- <-. split; [|cbn; lia].
              eexists _, w1, w2, retryText.
              split; [right; now left|]. split; [exact H2|]. cbv zeta. now rewrite L2.
           ++ destruct ((110 <=? GeminiService.countWords (GeminiService.cleanAudioScript retryText))
                        && (GeminiService.countWords (GeminiService.cleanAudioScript retryText) <=? 150)).
              ** intros H. injection H as <- <- <-. split; [|cbn; lia].
                 eexists _, w1, w2, retryText.
                 split; [right; now left|]. split; [exact H2|]. cbv zeta. now rewrite L2.
              ** intros H. injection H as <- <- <-. split; [|cbn; lia].
                 eexists _, w, w1, text.
                 split; [now left|]. split; [exact H1|]. cbv zeta. now rewrite L1.
        -- destruct (@rethrow_throws string "Failed to generate audio script: " e w2)
             as [e' ->]. discriminate.
        -- destruct (@rethrow_throws string "Failed to generate audio script: "
                       (caught "Gemini API timeout") w2) as [e' ->]. discriminate.
      * intros H. injection H as <- <- <-. split; [|cbn; lia].
        eexists _, w, w1, text.
        split; [now left|]. split; [exact H1|]. cbv zeta. now rewrite L1.
  - destruct (@rethrow_throws string "Failed to generate audio script: " e w1)
      as [e' ->]. discriminate.
  - destruct (@rethrow_throws string "Failed to generate audio script: "
                (caught "Gemini API timeout") w1) as [e' ->]. discriminate.
Qed.

Lemma generateAudioScript_result_normal_form
      (persona : JSON) (w w' : W) (s : string) (tr : list (Event JSON)) :
  GeminiService.generateAudioScript W generateContent persona w = (Returned s, w', tr) ->
  String.length s <= 800 /\ startsWithText (chars s) /\ endsWithText (chars s).
Proof.
  intros H. destruct (generateAudioScript_returned persona w w' s tr H)
    as [[prompt [w0 [w1 [text [_ [_ Hs]]]]]] _].
  cbv zeta in Hs.
  destruct (cleanAudioScript_normal_form text) as [Hstart [Hend _]].
  destruct (Nat.ltb_spec 800 (String.length (GeminiService.cleanAudioScript text)))
    as [Hlong|Hshort]; subst s.
  - split; [exact (truncateScript_length _ Hstart Hlong)|].
    destruct (truncateScript_normal_form _ Hstart Hlong) as [H1 [H2 _]].
    split; assumption.
  - split; [exact Hshort|]. split; assumption.
Qed.

(** One request, or two when the first draft is regenerated. *)
Lemma generateAudioScript_requests (persona : JSON) (w : W) :
  1 <= List.length
         (requests (trace (GeminiService.generateAudioScript W generateContent persona w)))
    <= 2.
Proof.
  unfold GeminiService.generateAudioScript, tryCatch, bind, GeminiService.request.
  cbv zeta.
  destruct (generateContent (GeminiService.buildAudioScriptPrompt persona None) w)
    as [[text|e|] w1].
  - destruct (800 <? String.length (GeminiService.cleanAudioScript text));
      [cbn; lia|].
    destruct ((GeminiService.countWords (GeminiService.cleanAudioScript text) <? 110)
              || (150 <? GeminiService.countWords (GeminiService.cleanAudioScript text)));
      [|cbn; lia].
    destruct (generateContent
                (GeminiService.buildAudioScriptPrompt persona
                   (Some (GeminiService.countWords (GeminiService.cleanAudioScript text))))
                w1) as [[retryText|e|] w2].
    + destruct (800 <? String.length (GeminiService.cleanAudioScript retryText));
        cbn; lia.
    + destruct (@rethrow_throws string "Failed to generate audio script: " e w2)
        as [e' ->]. cbn. lia.
    + destruct (@rethrow_throws string "Failed to generate audio script: "
                  (caught "Gemini API timeout") w2) as [e' ->]. cbn. lia.
  - destruct (@rethrow_throws string "Failed to generate audio script: " e w1)
      as [e' ->]. cbn. lia.
  - destruct (@rethrow_throws string "Failed to generate audio script: "
                (caught "Gemini API timeout") w1) as [e' ->]. cbn. lia.
Qed.

End ScriptResult.

(** The script generator asks the model once or twice, and what it returns
    has at most 800 characters and is the beginning of the cleaned text of
    one of the responses it received. *)
Theorem generateAudioScript_returns_bounded_script
        (W : Type) (generateContent : Prompt JSON -> W -> GeminiService.Settled * W)
        (persona : JSON) (w : W) :
  let run := GeminiService.generateAudioScript W generateContent persona w in
  1 <= List.length (requests (trace run)) <= 2
  /\ forall script,
      outcome run = Returned script ->
      String.length script <= 800
      /\ exists prompt w0 w1 text rest,
          In prompt (requests (trace run))
          /\ generateContent prompt w0 = (GeminiService.Fulfilled text, w1)
          /\ GeminiService.cleanAudioScript text = script +++ rest.
Proof.
  cbv zeta. split; [apply generateAudioScript_requests|].
  intros script Hout.
  destruct (GeminiService.generateAudioScript W generateContent persona w)
    as [[r w'] tr] eqn:Hrun.
  cbn [outcome trace fst snd] in *. subst r.
  split; [exact (proj1 (generateAudioScript_result_normal_form W generateContent
                          persona w w' script tr Hrun))|].
  destruct (generateAudioScript_returned W generateContent persona w w' script tr Hrun)
    as [[prompt [w0 [w1 [text [Hin [Hreq Hscript]]]]]] _].
  exists prompt, w0, w1, text. cbv zeta in Hscript.
  destruct (Nat.ltb_spec 800 (String.length (GeminiService.cleanAudioScript text)))
    as [Hlong|_].
  - destruct (truncateScript_normal_form _ (cleanAudioScript_startsWithText text) Hlong)
      as [_ [_ [rest Hrest]]].
    exists (str rest). split; [exact Hin|]. split; [exact Hreq|].
    rewrite <- (str_chars (GeminiService.cleanAudioScript text)), Hrest.
    subst script. now rewrite str_app, str_chars.
  - exists "". split; [exact Hin|]. split; [exact Hreq|].
    subst script. clear. induction (GeminiService.cleanAudioScript text) as [|c s IH];
      cbn; [reflexivity | now rewrite <- IH].
Qed.

(** The word counts of a generated script agree.  For every non-empty
    script the generator returns, the number of pieces of
    [script.split(/\s+/)], which the pipeline logs and the speech service
    turns into a duration, is the number of words [countWords] finds; for
    the empty script the former is 1 and the latter 0. *)
Theorem generated_script_word_counts_agree
        (W : Type) (generateContent : Prompt JSON -> W -> GeminiService.Settled * W)
        (persona : JSON) (w : W) (script : string) :
  outcome (GeminiService.generateAudioScript W generateContent persona w)
  = Returned script ->
  (0 < String.length script ->
   splitWhitespaceLength script = GeminiService.countWords script)
  /\ (String.length script = 0 ->
      splitWhitespaceLength script = 1 /\ GeminiService.countWords script = 0).
Proof.
  intros Hout.
  destruct (GeminiService.generateAudioScript W generateContent persona w)
    as [[r w'] tr] eqn:Hrun.
  cbn [outcome fst] in Hout. subst r.
  destruct (generateAudioScript_result_normal_form W generateContent
              persona w w' script tr Hrun) as [_ [Hstart Hend]].
  split.
  - intros Hlen. apply splitWhitespaceLength_countWords; [|exact Hstart | exact Hend].
    intros ->. cbn in Hlen. lia.
  - intros Hlen. destruct script; [split; reflexivity | discriminate Hlen].
Qed.

(** A draft of 6 words regenerated as one of 120 words. *)
Lemma generated_script_word_counts_agree_witness :
  splitWhitespaceLength (GeminiService.cleanAudioScript (Scenario.words 120))
  = GeminiService.countWords (GeminiService.cleanAudioScript (Scenario.words 120)).
Proof.
  apply (proj1 (generated_script_word_counts_agree Scenario.World
                  (Scenario.model [Scenario.briefing; Scenario.words 120])
                  Scenario.persona Scenario.start
                  (GeminiService.cleanAudioScript (Scenario.words 120))
                  ltac:(vm_compute; reflexivity))).
  apply Nat.ltb_lt. vm_compute. reflexivity.
Defined.

(** ** The retry executor, for every retry budget *)

Section RetryInvariants.

Context {W Doc T : Type}.
Variable sleepWorld : Z -> W -> W.
Variable fn : M W Doc Error T.
Variable operationName : string.
Variable maxRetries : Z.

Local Abbreviation loop :=
  (retryLoop W Doc sleepWorld fn operationName maxRetries).

(** The three ways one turn of the loop can go. *)
Lemma retryLoop_value (attempt : Z) (rest : list Z) (lastError : option Error)
      (w w1 : W) (v : T) (tr1 : list (Event Doc)) :
  fn w = (Returned v, w1, tr1) ->
  loop (attempt :: rest) lastError w = (Returned v, w1, [Invoked operationName tr1]).
Proof. intros Hfn. cbn [retryLoop]. unfold tryCatch, invoke. now rewrite Hfn. Qed.

Lemma retryLoop_stop (attempt : Z) (rest : list Z) (lastError : option Error)
      (w w1 : W) (e : Error) (tr1 : list (Event Doc)) :
  fn w = (Thrown e, w1, tr1) ->
  (attempt =? maxRetries)%Z || negb (isTransientError e) = true ->
  loop (attempt :: rest) lastError w
  = (Thrown e, w1,
     [ Invoked operationName tr1;
       Logged ERROR (operationName +++ " failed after " +++ ofZ (attempt + 1)
                     +++ " attempt(s): " +++ message e) ]).
Proof.
  intros Hfn Hstop. cbn [retryLoop]. unfold tryCatch, invoke.
  rewrite Hfn, Hstop. reflexivity.
Qed.

Lemma retryLoop_retry (attempt : Z) (rest : list Z) (lastError : option Error)
      (w w1 : W) (e : Error) (tr1 : list (Event Doc)) :
  fn w = (Thrown e, w1, tr1) ->
  (attempt =? maxRetries)%Z || negb (isTransientError e) = false ->
  loop (attempt :: rest) lastError w
  = let later := loop rest (Some e) (sleepWorld (2 ^ attempt * 1000) w1) in
    (outcome later, world later,
     Invoked operationName tr1
     :: Logged WARN
          (operationName +++ " failed (attempt " +++ ofZ (attempt + 1)
           +++ "/" +++ ofZ (maxRetries + 1) +++ "): " +++ message e
           +++ ". Retrying in " +++ ofZ (2 ^ attempt * 1000) +++ "ms...")
     :: Slept (2 ^ attempt * 1000)
     :: trace later).
Proof.
  intros Hfn Hstop. cbn [retryLoop]. unfold tryCatch, invoke.
  rewrite Hfn, Hstop. unfold bind, logger, emit, sleep. cbv zeta.
  destruct (loop rest (Some e) (sleepWorld (2 ^ attempt * 1000) w1)) as [[r w2] tr2].
  reflexivity.
Qed.

(** The loop over the attempts a, ..., a + n - 1, the last of which is
    [maxRetries]: it ends with an invocation, whose outcome is the outcome
    of the loop, and every earlier invocation is followed by one delay. *)
Lemma retryLoop_ends_with_invocation (n : nat) :
  forall a lastError w,
    1 <= n ->
    Z.of_nat (a + n) = (maxRetries + 1)%Z ->
    exists r w' tr pre w0 inner,
      loop (map Z.of_nat (seq a n)) lastError w = (r, w', tr)
      /\ invocations tr = S (List.length (delays tr))
      /\ fn w0 = (r, w', inner)
      /\ tr = pre ++ Invoked operationName inner :: closing operationName (a + invocations tr) r.
Proof.
  induction n as [|n IH]; intros a lastError w Hn Ha; [lia|].
  cbn [seq map].
  destruct (fn w) as [[[v|e] w1] tr1] eqn:Hfn.
  - rewrite (retryLoop_value _ _ _ w w1 v tr1 Hfn).
    exists (Returned v), w1, [Invoked operationName tr1], [], w, tr1.
    split_all; try reflexivity. exact Hfn.
  - destruct ((Z.of_nat a =? maxRetries)%Z || negb (isTransientError e)) eqn:Hstop.
    + rewrite (retryLoop_stop _ _ _ w w1 e tr1 Hfn Hstop).
      do 3 eexists. exists [], w, tr1.
      split_all; try reflexivity; [exact Hfn|].
      cbn. unfold ofNat. now replace (Z.of_nat (a + 1)) with (Z.of_nat a + 1)%Z by lia.
    + rewrite (retryLoop_retry _ _ _ w w1 e tr1 Hfn Hstop).
      apply orb_false_iff in Hstop. destruct Hstop as [Hlast _].
      apply Z.eqb_neq in Hlast.
      destruct (IH (S a) (Some e) (sleepWorld (2 ^ Z.of_nat a * 1000) w1))
        as [r [w2 [tr2 [pre [w0 [inner [-> [Hcount [Hlast' Htrace]]]]]]]]]; [lia | lia |].
      cbv zeta. cbn [outcome world trace fst snd].
      do 3 eexists. eexists (_ :: _ :: _ :: pre), w0, inner.
      split; [reflexivity|].
      split; [unfold invocations, delays in *; cbn; lia|].
      split; [exact Hlast'|].
      cbn [app]. do 3 f_equal.
      replace (a + invocations (_ :: _ :: _ :: tr2)) with (S a + invocations tr2)
        by (unfold invocations; cbn; lia).
      exact Htrace.
Qed.

(** When every invocation fails with a retry-worthy error, every attempt is
    used and each but the last is followed by its delay. *)
Lemma retryLoop_exhausted (n : nat) :
  (forall w, exists e w1 tr1, fn w = (Thrown e, w1, tr1) /\ isTransientError e = true) ->
  forall a lastError w,
    Z.of_nat (a + n) = maxRetries ->
    exists e w' tr w0 inner,
      loop (map Z.of_nat (seq a (S n))) lastError w = (Thrown e, w', tr)
      /\ fn w0 = (Thrown e, w', inner)
      /\ invocations tr = S n
      /\ delays tr = map (fun attempt => (2 ^ attempt * 1000)%Z) (map Z.of_nat (seq a n)).
Proof.
  intros Hfail. induction n as [|n IH]; intros a lastError w Ha;
    destruct (Hfail w) as [e [w1 [tr1 [Hfn Hcls]]]]; cbn [seq map].
  - rewrite (retryLoop_stop _ _ _ w w1 e tr1 Hfn).
    + do 3 eexists. exists w, tr1. split_all; try reflexivity. exact Hfn.
    + apply orb_true_iff. left. apply Z.eqb_eq. lia.
  - rewrite (retryLoop_retry _ _ _ w w1 e tr1 Hfn).
    + destruct (IH (S a) (Some e) (sleepWorld (2 ^ Z.of_nat a * 1000) w1))
        as [e' [w2 [tr2 [w0 [inner [Hrun [Hlast [Hcount Hdelays]]]]]]]]; [lia|].
      cbn [seq map] in Hrun. rewrite Hrun.
      cbv zeta. cbn [outcome world trace fst snd].
      do 3 eexists. exists w0, inner. split; [reflexivity|]. split; [exact Hlast|].
      split; [unfold invocations in *; cbn; lia|].
      unfold delays in *. cbn. now rewrite Hdelays.
    + rewrite Hcls. cbn. rewrite orb_false_r. apply Z.eqb_neq. lia.
Qed.

End RetryInvariants.

(** The delays of an exhausted budget add up to (2^maxRetries - 1) seconds. *)
Lemma backoff_total (k : nat) :
  fold_right Z.add 0%Z
    (map (fun attempt => (2 ^ attempt * 1000)%Z) (map Z.of_nat (seq 0 k)))
  = ((2 ^ Z.of_nat k - 1) * 1000)%Z.
Proof.
  induction k as [|k IH]; [reflexivity|].
  rewrite seq_S, !map_app, fold_right_app. cbn [map fold_right Nat.add].
  replace (Z.of_nat (S k)) with (Z.succ (Z.of_nat k)) by lia.
  rewrite Z.pow_succ_r by lia.
  revert IH. generalize (2 ^ Z.of_nat k)%Z as p. intros p IH.
  assert (Hshift : forall l z,
             fold_right Z.add z l = (fold_right Z.add 0 l + z)%Z).
  { induction l as [|x l IHl]; intros z; cbn; [lia | rewrite IHl; lia]. }
  rewrite Hshift, IH. lia.
Qed.

(** The outcome of a retried operation is the outcome of its last
    invocation.  With a retry budget that is not negative the operation is
    invoked at least once, every invocation but the last is followed by
    exactly one delay, the executor returns the value or throws the error
    of the last invocation in the world that invocation left, and an error
    is followed in the log by the line that tells the number of invocations
    made. *)
Theorem retryWithBackoff_result_is_last_invocation
        (W Doc T : Type) (sleepWorld : Z -> W -> W)
        (fn : M W Doc Error T) (operationName : string) (maxRetries : Z) (w : W) :
  (0 <= maxRetries)%Z ->
  let run := retryWithBackoff W Doc sleepWorld fn operationName maxRetries w in
  invocations (trace run) = S (List.length (delays (trace run)))
  /\ exists pre w0 inner,
      fn w0 = (outcome run, world run, inner)
      /\ trace run
         = pre ++ Invoked operationName inner
               :: closing operationName (invocations (trace run)) (outcome run).
Proof.
  intros Hm. cbv zeta. unfold retryWithBackoff, attemptRange.
  destruct (retryLoop_ends_with_invocation sleepWorld fn operationName maxRetries
              (Z.to_nat (maxRetries + 1)) 0 None w)
    as [r [w' [tr [pre [w0 [inner [Hrun [Hcount [Hlast Htrace]]]]]]]]]; [lia | lia |].
  rewrite Hrun. cbn [outcome world trace fst snd].
  split; [exact Hcount|]. exists pre, w0, inner. split; [exact Hlast | exact Htrace].
Qed.

(** Two time-outs, then a value: three invocations and two delays. *)
Lemma retryWithBackoff_result_is_last_invocation_witness :
  let run :=
    retryWithBackoff Scenario.World unit Scenario.sleepWorld
      (Scenario.flaky 2 "network timeout" "done") "Audio synthesis" 2
      Scenario.start in
  invocations (trace run) = S (List.length (delays (trace run))).
Proof.
  exact (proj1 (retryWithBackoff_result_is_last_invocation Scenario.World unit string
                  Scenario.sleepWorld (Scenario.flaky 2 "network timeout" "done")
                  "Audio synthesis" 2%Z Scenario.start ltac:(lia))).
Defined.

(** A negative retry budget.  The loop has no attempt to make: the
    operation is never invoked, nothing is logged, and the executor throws
    the error that follows its loop. *)
Theorem retryWithBackoff_negative_budget
        (W Doc T : Type) (sleepWorld : Z -> W -> W)
        (fn : M W Doc Error T) (operationName : string) (maxRetries : Z) (w : W) :
  (maxRetries < 0)%Z ->
  retryWithBackoff W Doc sleepWorld fn operationName maxRetries w
  = (Thrown (mkError (operationName +++ " failed after all retries")), w, []).
Proof.
  intros Hm. unfold retryWithBackoff, attemptRange.
  replace (Z.to_nat (maxRetries + 1)) with 0 by lia. reflexivity.
Qed.

(** A budget of -1: no invocation at all. *)
Lemma retryWithBackoff_negative_budget_witness :
  retryWithBackoff Scenario.World unit Scenario.sleepWorld
    (Scenario.flaky 0 "network timeout" "done") "Audio synthesis" (-1) Scenario.start
  = (Thrown (mkError "Audio synthesis failed after all retries"), Scenario.start, []).
Proof.
  exact (retryWithBackoff_negative_budget Scenario.World unit string
           Scenario.sleepWorld (Scenario.flaky 0 "network timeout" "done")
           "Audio synthesis" (-1)%Z Scenario.start ltac:(lia)).
Defined.

(** An exhausted retry budget.  When every invocation fails with a
    retry-worthy error, the operation is invoked maxRetries + 1 times, the
    delays 1000, 2000, ..., 2^(maxRetries-1) * 1000 ms are taken between the
    invocations, which add up to (2^maxRetries - 1) * 1000 ms, and the error
    of the last invocation is thrown. *)
Theorem retryWithBackoff_exhausted
        (W Doc T : Type) (sleepWorld : Z -> W -> W)
        (fn : M W Doc Error T) (operationName : string) (maxRetries : Z) (w : W) :
  (0 <= maxRetries)%Z ->
  (forall w0, exists e w1 tr1,
        fn w0 = (Thrown e, w1, tr1) /\ isTransientError e = true) ->
  let run := retryWithBackoff W Doc sleepWorld fn operationName maxRetries w in
  (exists e w0 inner,
      outcome run = Thrown e /\ fn w0 = (Thrown e, world run, inner))
  /\ Z.of_nat (invocations (trace run)) = (maxRetries + 1)%Z
  /\ delays (trace run)
     = map (fun attempt => (2 ^ attempt * 1000)%Z)
           (map Z.of_nat (seq 0 (Z.to_nat maxRetries)))
  /\ fold_right Z.add 0%Z (delays (trace run)) = ((2 ^ maxRetries - 1) * 1000)%Z.
Proof.
  intros Hm Hfail. cbv zeta. unfold retryWithBackoff, attemptRange.
  replace (Z.to_nat (maxRetries + 1)) with (S (Z.to_nat maxRetries)) by lia.
  destruct (retryLoop_exhausted sleepWorld fn operationName maxRetries
              (Z.to_nat maxRetries) Hfail 0 None w)
    as [e [w' [tr [w0 [inner [Hrun [Hlast [Hcount Hdelays]]]]]]]]; [lia|].
  rewrite Hrun. cbn [outcome world trace fst snd].
  split; [now exists e, w0, inner|]. split; [lia|]. split; [exact Hdelays|].
  rewrite Hdelays, backoff_total. now rewrite Z2Nat.id.
Qed.

(** A service that is down: three invocations, 1000 ms and 2000 ms apart. *)
Lemma retryWithBackoff_exhausted_witness :
  let run :=
    retryWithBackoff Scenario.World unit Scenario.sleepWorld
      (@Cases.failing unit string "socket hang up") "Audio synthesis" 2
      Scenario.start in
  Z.of_nat (invocations (trace run)) = 3%Z
  /\ delays (trace run) = [1000; 2000]%Z
  /\ fold_right Z.add 0%Z (delays (trace run)) = 3000%Z.
Proof.
  destruct (retryWithBackoff_exhausted Scenario.World unit string
              Scenario.sleepWorld (Cases.failing "socket hang up")
              "Audio synthesis" 2%Z Scenario.start ltac:(lia))
    as [_ [Hcount [Hdelays Htotal]]].
  - intros w0. exists (mkError "socket hang up"), (Scenario.served 5 w0), [].
    split; reflexivity.
  - cbv zeta. split; [exact Hcount|]. split; [exact Hdelays | exact Htotal].
Defined.

(** ** Failed requests to the model *)

Section GeminiFailures.

Variable W : Type.
Variable JSON_parse : string -> Res JSON.
Variable numberToString : float -> string.
Variable generateContent : Prompt JSON -> W -> GeminiService.Settled * W.

Local Abbreviation GeminiMethod :=
  (GeminiMethod W JSON_parse numberToString generateContent).

(** A request that loses the race against the timer. *)
Lemma method_timeout {A} (prompt : Prompt JSON) (method : M W JSON Error A)
      (w w1 : W) :
  GeminiMethod A prompt method ->
  generateContent prompt w = (GeminiService.TimedOut, w1) ->
  method w = (Thrown (mkError "Gemini API timeout. Please try again."), w1,
              [Requested prompt]).
Proof.
  intros [articleText | analysis designBrief | persona] Hreq;
    unfold GeminiService.analyzeArticleText, GeminiService.generatePersona,
      GeminiService.generateAudioScript, tryCatch, bind, GeminiService.request;
    cbv zeta; rewrite Hreq; reflexivity.
Qed.

(** A request rejected for the credentials or the quota. *)
Lemma method_refused {A} (prompt : Prompt JSON) (method : M W JSON Error A)
      (w w1 : W) (error : CaughtError) (refusal : Refusal) :
  GeminiMethod A prompt method ->
  generateContent prompt w = (GeminiService.Rejected error, w1) ->
  refusedFor refusal error ->
  method w = (Thrown (mkError (refusalMessage refusal)), w1, [Requested prompt]).
Proof.
  intros Hmethod Hreq [Htimeout Hrefusal].
  assert (Hcatch : forall context,
             GeminiService.rethrow W context error w1
             = (@Thrown Error A (mkError (refusalMessage refusal)), w1, [])).
  { intros context. unfold GeminiService.rethrow. rewrite Htimeout.
    destruct refusal; cbn [refusalMessage].
    - now rewrite Hrefusal.
    - destruct Hrefusal as [-> ->]. reflexivity. }
  destruct Hmethod as [articleText | analysis designBrief | persona];
    unfold GeminiService.analyzeArticleText, GeminiService.generatePersona,
      GeminiService.generateAudioScript, tryCatch, bind, GeminiService.request;
    cbv zeta; rewrite Hreq; rewrite Hcatch; reflexivity.
Qed.

End GeminiFailures.

(** Timeouts of the model are retried until the budget is used up.  Each
    method of the Gemini service turns a request that loses the race against
    the 30 second timer into the error "Gemini API timeout. Please try
    again.", having sent that one request; the classifier marks the error
    retry-worthy, so that when every request times out the executor invokes
    the method maxRetries + 1 times, with the delays 1000, 2000, ... ms in
    between, and throws that error. *)
Theorem gemini_timeouts_exhaust_retries
        (W : Type) (JSON_parse : string -> Res JSON) (numberToString : float -> string)
        (generateContent : Prompt JSON -> W -> GeminiService.Settled * W)
        (sleepWorld : Z -> W -> W)
        (A : Type) (prompt : Prompt JSON) (method : M W JSON Error A)
        (operationName : string) (maxRetries : Z) (w : W) :
  GeminiMethod W JSON_parse numberToString generateContent A prompt method ->
  (0 <= maxRetries)%Z ->
  (forall w0, exists w1, generateContent prompt w0 = (GeminiService.TimedOut, w1)) ->
  let timeout := mkError "Gemini API timeout. Please try again." in
  let run := retryWithBackoff W JSON sleepWorld method operationName maxRetries w in
  (forall w0 w1,
      generateContent prompt w0 = (GeminiService.TimedOut, w1) ->
      method w0 = (Thrown timeout, w1, [Requested prompt]))
  /\ isTransientError timeout = true
  /\ outcome run = Thrown timeout
  /\ Z.of_nat (invocations (trace run)) = (maxRetries + 1)%Z
  /\ delays (trace run)
     = map (fun attempt => (2 ^ attempt * 1000)%Z)
           (map Z.of_nat (seq 0 (Z.to_nat maxRetries))).
Proof.
  intros Hmethod Hm Hstalled timeout run.
  assert (Hfail : forall w0, exists e w1 tr1,
               method w0 = (Thrown e, w1, tr1) /\ isTransientError e = true).
  { intros w0. destruct (Hstalled w0) as [w1 Hreq].
    exists timeout, w1, [Requested prompt]. split; [|reflexivity].
    exact (method_timeout W JSON_parse numberToString generateContent
             prompt method w0 w1 Hmethod Hreq). }
  split; [intros w0 w1 Hreq;
          exact (method_timeout W JSON_parse numberToString generateContent
                   prompt method w0 w1 Hmethod Hreq)|].
  split; [reflexivity|].
  subst run. unfold retryWithBackoff, attemptRange.
  replace (Z.to_nat (maxRetries + 1)) with (S (Z.to_nat maxRetries)) by lia.
  destruct (retryLoop_exhausted sleepWorld method operationName maxRetries
              (Z.to_nat maxRetries) Hfail 0 None w)
    as [e [w' [tr [w0 [inner [Hrun [Hlast [Hcount Hdelays]]]]]]]]; [lia|].
  rewrite Hrun. cbn [outcome world trace fst snd].
  split; [|split; [lia | exact Hdelays]].
  destruct (Hstalled w0) as [w1 Hreq].
  rewrite (method_timeout W JSON_parse numberToString generateContent
             prompt method w0 w1 Hmethod Hreq) in Hlast.
  now injection Hlast as <- _ _.
Qed.

(** The script generator against a model that never answers in time. *)
Lemma gemini_timeouts_exhaust_retries_witness :
  let run :=
    retryWithBackoff Scenario.World JSON Scenario.sleepWorld
      (GeminiService.generateAudioScript Scenario.World Cases.stalled Scenario.persona)
      "Audio script generation" 2 Scenario.start in
  outcome run = Thrown (mkError "Gemini API timeout. Please try again.")
  /\ Z.of_nat (invocations (trace run)) = 3%Z
  /\ delays (trace run) = [1000; 2000]%Z.
Proof.
  destruct (gemini_timeouts_exhaust_retries Scenario.World Scenario.parse
              Scenario.showNumber Cases.stalled Scenario.sleepWorld
              string (GeminiService.buildAudioScriptPrompt Scenario.persona None)
              (GeminiService.generateAudioScript Scenario.World Cases.stalled
                 Scenario.persona)
              "Audio script generation" 2%Z Scenario.start
              (method_script _ _ _ _ Scenario.persona) ltac:(lia))
    as [_ [_ [Hout [Hcount Hdelays]]]].
  - intros w0. exists (Scenario.served 30000 w0). reflexivity.
  - cbv zeta. split; [exact Hout|]. split; [exact Hcount | exact Hdelays].
Defined.

(** Refused credentials and an exceeded quota are not retried.  When a
    request is rejected with a message that mentions the API key or the
    authentication, or else the quota or the rate limit (and no timeout),
    each method of the Gemini service throws the message of that cause,
    having sent that one request; the classifier does not mark it
    retry-worthy, so the executor invokes the method once and takes no
    delay. *)
Theorem gemini_refusal_not_retried
        (W : Type) (JSON_parse : string -> Res JSON) (numberToString : float -> string)
        (generateContent : Prompt JSON -> W -> GeminiService.Settled * W)
        (sleepWorld : Z -> W -> W)
        (A : Type) (prompt : Prompt JSON) (method : M W JSON Error A)
        (operationName : string) (maxRetries : Z) (w w1 : W)
        (error : CaughtError) (refusal : Refusal) :
  GeminiMethod W JSON_parse numberToString generateContent A prompt method ->
  (0 <= maxRetries)%Z ->
  generateContent prompt w = (GeminiService.Rejected error, w1) ->
  refusedFor refusal error ->
  let e := mkError (refusalMessage refusal) in
  let run := retryWithBackoff W JSON sleepWorld method operationName maxRetries w in
  method w = (Thrown e, w1, [Requested prompt])
  /\ isTransientError e = false
  /\ outcome run = Thrown e
  /\ world run = w1
  /\ invocations (trace run) = 1
  /\ delays (trace run) = [].
Proof.
  intros Hmethod Hm Hreq Hrefusal e run.
  pose proof (method_refused W JSON_parse numberToString generateContent
                prompt method w w1 error refusal Hmethod Hreq Hrefusal) as Hthrown.
  assert (Hcls : isTransientError e = false) by (destruct refusal; reflexivity).
  split; [exact Hthrown|]. split; [exact Hcls|].
  subst run.
  rewrite (retryWithBackoff_fatal_first sleepWorld method operationName
             maxRetries w w1 e [Requested prompt] Hm Hthrown Hcls).
  split_all; reflexivity.
Qed.

(** The analysis against a model that refuses the API key. *)
Lemma gemini_refusal_not_retried_witness :
  let run :=
    retryWithBackoff Scenario.World JSON Scenario.sleepWorld
      (GeminiService.analyzeArticleText Scenario.World Scenario.parse
         Scenario.showNumber Scenario.unauthorized "An article.")
      "Article text analysis" 2 Scenario.start in
  outcome run
  = Thrown (mkError "Invalid Gemini API credentials. Please check your configuration.")
  /\ world run = Scenario.mkWorld 1 5
  /\ invocations (trace run) = 1
  /\ delays (trace run) = [].
Proof.
  destruct (gemini_refusal_not_retried Scenario.World Scenario.parse
              Scenario.showNumber Scenario.unauthorized Scenario.sleepWorld
              JSON (ArticleAnalysisPrompt "An article.")
              (GeminiService.analyzeArticleText Scenario.World Scenario.parse
                 Scenario.showNumber Scenario.unauthorized "An article.")
              "Article text analysis" 2%Z Scenario.start (Scenario.mkWorld 1 5)
              (caught "API key not valid") BadCredentials
              (method_analysis _ _ _ _ "An article.") ltac:(lia) eq_refl
              (conj eq_refl eq_refl))
    as [_ [_ [Hout [Hworld [Hcount Hdelays]]]]].
  cbv zeta. split_all; assumption.
Defined.

(** ** The pipeline when the first three stages succeed *)

Section PipelineResults.

Context {W Doc ProfileAnalysis PersonaResult : Type}.
Variable personaName : PersonaResult -> string.
Variable now : W -> Z.
Variable sleepWorld : Z -> W -> W.
Variable toBase64 : list Byte.byte -> string.
Variable geminiService : GeminiServiceOps W Doc ProfileAnalysis PersonaResult.
Variable elevenLabsService : ElevenLabsServiceOps W Doc.

Local Abbreviation stage1 := (stage1 W Doc ProfileAnalysis PersonaResult sleepWorld geminiService).
Local Abbreviation stage2 := (stage2 W Doc ProfileAnalysis PersonaResult sleepWorld geminiService).
Local Abbreviation stage3 := (stage3 W Doc ProfileAnalysis PersonaResult sleepWorld geminiService).
Local Abbreviation stage4 := (stage4 W Doc sleepWorld elevenLabsService).
Local Abbreviation generatePersona :=
  (generatePersona W Doc ProfileAnalysis PersonaResult personaName now sleepWorld
     toBase64 geminiService elevenLabsService).

(** With audio: the URL is the data URL of the buffer. *)
Lemma generatePersona_with_audio
      (articleText designBrief : string) (w0 w1 w2 w3 w4 : W)
      (analysis : ProfileAnalysis) (persona : PersonaResult) (audioScript : string)
      (audioResult : ElevenLabsService.AudioResult)
      (tr1 tr2 tr3 tr4 : list (Event Doc)) :
  stage1 articleText w0 = (Returned analysis, w1, tr1) ->
  stage2 analysis designBrief w1 = (Returned persona, w2, tr2) ->
  stage3 persona w2 = (Returned audioScript, w3, tr3) ->
  stage4 audioScript w3 = (Returned audioResult, w4, tr4) ->
  exists tr,
    generatePersona articleText designBrief w0
    = (Returned (mkResult persona
                   ("data:audio/mpeg;base64,"
                    +++ toBase64 (ElevenLabsService.audioBuffer audioResult))
                   audioScript (now w4 - now w0)), w4, tr).
Proof.
  intros H1 H2 H3 H4. eexists.
  unfold PersonaPipelineService.generatePersona, synthesizeOrDegrade,
    bind, tryCatch, logger, emit, dateNow, ret, throw.
  cbv beta iota zeta. rewrite H1. cbv beta iota zeta.
  rewrite H2. cbv beta iota zeta. rewrite H3. cbv beta iota zeta.
  rewrite H4. cbv beta iota zeta. reflexivity.
Qed.

End PipelineResults.

(** The URL of the result tells whether the briefing has audio.  When
    the first three stages succeed, [generatePersona] returns the persona and
    the script of those stages with the elapsed time, and its [audioUrl] is
    the base64 data URL of the synthesised buffer, or the empty string when
    the synthesis failed: the URL is empty exactly when step 4 threw. *)
Theorem generatePersona_audioUrl_tells_synthesis
        (W Doc ProfileAnalysis PersonaResult : Type)
        (personaName : PersonaResult -> string) (now : W -> Z)
        (sleepWorld : Z -> W -> W) (toBase64 : list Byte.byte -> string)
        (geminiService : GeminiServiceOps W Doc ProfileAnalysis PersonaResult)
        (elevenLabsService : ElevenLabsServiceOps W Doc)
        (articleText designBrief : string) (w0 w1 w2 w3 w4 : W)
        (analysis : ProfileAnalysis) (persona : PersonaResult) (audioScript : string)
        (synthesis : Outcome Error ElevenLabsService.AudioResult)
        (tr1 tr2 tr3 tr4 : list (Event Doc)) :
  stage1 W Doc ProfileAnalysis PersonaResult sleepWorld geminiService articleText w0
  = (Returned analysis, w1, tr1) ->
  stage2 W Doc ProfileAnalysis PersonaResult sleepWorld geminiService analysis
    designBrief w1
  = (Returned persona, w2, tr2) ->
  stage3 W Doc ProfileAnalysis PersonaResult sleepWorld geminiService persona w2
  = (Returned audioScript, w3, tr3) ->
  stage4 W Doc sleepWorld elevenLabsService audioScript w3 = (synthesis, w4, tr4) ->
  let run :=
    generatePersona W Doc ProfileAnalysis PersonaResult personaName now sleepWorld
      toBase64 geminiService elevenLabsService articleText designBrief w0 in
  let url :=
    match synthesis with
    | Returned audioResult =>
        "data:audio/mpeg;base64,"
        +++ toBase64 (ElevenLabsService.audioBuffer audioResult)
    | Thrown _ => ""
    end in
  outcome run = Returned (mkResult persona url audioScript (now w4 - now w0))
  /\ world run = w4
  /\ (url = "" <-> exists audioError, synthesis = Thrown audioError).
Proof.
  intros H1 H2 H3 H4 run url. subst run url.
  destruct synthesis as [audioResult | audioError].
  - destruct (generatePersona_with_audio personaName now sleepWorld toBase64
                geminiService elevenLabsService articleText designBrief
                w0 w1 w2 w3 w4 analysis persona audioScript audioResult
                tr1 tr2 tr3 tr4 H1 H2 H3 H4) as [tr ->].
    split; [reflexivity|]. split; [reflexivity|].
    split; [discriminate | intros [audioError H]; discriminate H].
  - destruct (generatePersona_degraded personaName now sleepWorld toBase64
                geminiService elevenLabsService articleText designBrief
                w0 w1 w2 w3 w4 analysis persona audioScript audioError
                tr1 tr2 tr3 tr4 H1 H2 H3 H4) as [tr [-> _]].
    split; [reflexivity|]. split; [reflexivity|].
    split; [intros _; now exists audioError | reflexivity].
Qed.

(** The whole application with a speech service that answers. *)
Lemma generatePersona_audioUrl_tells_synthesis_witness :
  let run :=
    Scenario.app
      (Scenario.model ["";  ""; Scenario.briefing; Scenario.briefing])
      (Scenario.speaking Cases.audio) Scenario.start in
  outcome run
  = Returned
      (mkResult
         (Scenario.personaDoc [("verbosity", JStr "medium")] Scenario.guidance)
         ("data:audio/mpeg;base64," +++ "SUQz") Scenario.briefing (25 - 0))
  /\ world run = Scenario.mkWorld 5 25.
Proof.
  unfold Scenario.app, App.generatePersona.
  edestruct (generatePersona_audioUrl_tells_synthesis
               Scenario.World JSON JSON JSON
               (App.personaName Scenario.showNumber) Scenario.now Scenario.sleepWorld
               Scenario.base64
               (App.geminiService Scenario.World Scenario.parse Scenario.showNumber
                  (Scenario.model ["";  ""; Scenario.briefing; Scenario.briefing]))
               (App.elevenLabsService Scenario.World Scenario.voice
                  (Scenario.speaking Cases.audio) Scenario.seconds)
               "An article of a few hundred words." "A dashboard for analysts."
               Scenario.start
               (Scenario.mkWorld 1 5) (Scenario.mkWorld 2 10) (Scenario.mkWorld 4 20)
               (Scenario.mkWorld 5 25))
    as [Hout [Hworld _]]; [reflexivity | reflexivity | reflexivity | reflexivity |].
  split; [exact Hout | exact Hworld].
Defined.

(** ** Blank scripts and the speech service *)

Lemma trim_blank (l : list ascii) :
  trimEndL (trimStartL l) = [] <-> Forall (fun c => isWhitespace c = true) l.
Proof.
  unfold trimStartL. split.
  - intros Hempty.
    destruct (dropWhile_split isWhitespace l) as [pre [Hl Hpre]].
    destruct (trimEndL_split (dropWhile isWhitespace l)) as [ws [Heq Hws]].
    rewrite Hempty in Heq. cbn in Heq. rewrite Hl, Heq.
    apply Forall_app. now split.
  - intros Hall. replace (dropWhile isWhitespace l) with (@nil ascii); [reflexivity|].
    induction Hall as [|c l Hc _ IH]; cbn; [reflexivity | now rewrite Hc].
Qed.

(** The test that opens [synthesizeSpeech] holds of the texts without a
    character that is not white space. *)
Lemma blank_script (script : string) :
  String.eqb script "" || (String.length (trim script) =? 0) = true
  <-> Forall (fun c => isWhitespace c = true) (chars script).
Proof.
  rewrite <- trim_blank. unfold trim. rewrite length_str.
  rewrite orb_true_iff, Nat.eqb_eq, length_zero_iff_nil. split.
  - intros [H|H]; [|exact H]. apply String.eqb_eq in H. now subst script.
  - now right.
Qed.

Section SpeechFacts.

Context {W Doc : Type}.
Variable voiceId : string.
Variable convert : string -> string -> W -> (CaughtError + ElevenLabsService.AudioStream) * W.
Variable estimatedDuration : nat -> Z.

Local Abbreviation synthesizeSpeech :=
  (ElevenLabsService.synthesizeSpeech W Doc voiceId convert estimatedDuration).

Lemma synthesizeSpeech_blank (script : string) (w : W) :
  Forall (fun c => isWhitespace c = true) (chars script) ->
  synthesizeSpeech script w = (Thrown (mkError "Script cannot be empty"), w, []).
Proof.
  intros Hblank. apply blank_script in Hblank.
  unfold ElevenLabsService.synthesizeSpeech, tryCatch, ElevenLabsService.synthesizeBody.
  rewrite Hblank. reflexivity.
Qed.

(** The [catch] of [synthesizeSpeech] turns an error into an error and
    does nothing else. *)
Lemma synthesizeSpeech_of_body (script : string) (w w1 : W)
      (r : Outcome CaughtError ElevenLabsService.AudioResult) (tr : list (Event Doc)) :
  ElevenLabsService.synthesizeBody W Doc voiceId convert estimatedDuration script w
  = (r, w1, tr) ->
  match r with
  | Returned audio => synthesizeSpeech script w = (Returned audio, w1, tr)
  | Thrown _ => exists e, synthesizeSpeech script w = (Thrown e, w1, tr)
  end.
Proof.
  intros Hbody. unfold ElevenLabsService.synthesizeSpeech, tryCatch. rewrite Hbody.
  destruct r as [audio|error]; [reflexivity|].
  repeat match goal with
         | |- context [if ?b then throw _ else _] => destruct b
         end; eexists; cbn; now rewrite app_nil_r.
Qed.

Lemma synthesizeSpeech_converts (script : string) (w : W) :
  String.eqb script "" || (String.length (trim script) =? 0) = false ->
  let run := synthesizeSpeech script w in
  trace run = [Converted voiceId script]
  /\ world run = snd (convert voiceId script w)
  /\ forall audio,
      outcome run = Returned audio
      <-> exists stream,
          fst (convert voiceId script w) = inr stream
          /\ ElevenLabsService.streamError stream = None
          /\ audio = ElevenLabsService.mkAudioResult
                       (concat (ElevenLabsService.chunks stream)) None
                       (estimatedDuration (splitWhitespaceLength script)).
Proof.
  intros Hscript. cbv zeta.
  destruct (ElevenLabsService.synthesizeBody W Doc voiceId convert estimatedDuration
              script w) as [[r w1] tr] eqn:Hbody.
  pose proof (synthesizeSpeech_of_body script w w1 r tr Hbody) as Hrun.
  unfold ElevenLabsService.synthesizeBody in Hbody. rewrite Hscript in Hbody.
  unfold bind, ElevenLabsService.textToSpeech in Hbody.
  destruct (convert voiceId script w) as [[error|stream] w2].
  - injection Hbody as <- <- <-. destruct Hrun as [e ->].
    split; [reflexivity|]. split; [reflexivity|].
    intros audio. split; [discriminate | intros [stream [H _]]; discriminate H].
  - destruct (ElevenLabsService.streamError stream) as [error|] eqn:Hstream.
    + injection Hbody as <- <- <-. destruct Hrun as [e ->].
      split; [reflexivity|]. split; [reflexivity|].
      intros audio. split; [discriminate|].
      intros [stream' [H [Hnone _]]]. cbn in H. injection H as <-. congruence.
    + injection Hbody as <- <- <-. rewrite Hrun.
      split; [reflexivity|]. split; [reflexivity|].
      intros audio. split.
      * intros H. injection H as <-. exists stream. now split_all.
      * intros [stream' [H [_ ->]]]. injection H as <-. reflexivity.
Qed.

End SpeechFacts.

(** The speech service is called exactly for the scripts that have text.  A
    script without a character that is not white space is refused with
    "Script cannot be empty" before anything is sent.  Any other script is
    sent to the speech service exactly once, with the configured voice; the
    call returns audio exactly when the service resolves with a stream that
    is read to its end, and the audio is then the concatenation of the
    chunks of the stream. *)
Theorem synthesizeSpeech_converts_text_once
        (W Doc : Type) (voiceId : string)
        (convert : string -> string -> W
                   -> (CaughtError + ElevenLabsService.AudioStream) * W)
        (estimatedDuration : nat -> Z) (script : string) (w : W) :
  let run :=
    ElevenLabsService.synthesizeSpeech W Doc voiceId convert estimatedDuration
      script w in
  (Forall (fun c => isWhitespace c = true) (chars script) ->
   run = (Thrown (mkError "Script cannot be empty"), w, []))
  /\ (Exists (fun c => isWhitespace c = false) (chars script) ->
      trace run = [Converted voiceId script]
      /\ world run = snd (convert voiceId script w)
      /\ forall audio,
          outcome run = Returned audio
          <-> exists stream,
              fst (convert voiceId script w) = inr stream
              /\ ElevenLabsService.streamError stream = None
              /\ audio = ElevenLabsService.mkAudioResult
                           (concat (ElevenLabsService.chunks stream)) None
                           (estimatedDuration (splitWhitespaceLength script))).
Proof.
  cbv zeta. split.
  - apply synthesizeSpeech_blank.
  - intros Htext.
    apply (synthesizeSpeech_converts voiceId convert estimatedDuration script w).
    destruct (String.eqb script "" || (String.length (trim script) =? 0)) eqn:Hblank;
      [|reflexivity].
    exfalso. apply blank_script in Hblank.
    apply Exists_exists in Htext. destruct Htext as [c [Hin Hc]].
    rewrite Forall_forall in Hblank. specialize (Hblank c Hin). congruence.
Qed.

(** A script with text, and a service that answers. *)
Lemma synthesizeSpeech_converts_text_once_witness :
  trace (ElevenLabsService.synthesizeSpeech Scenario.World unit Scenario.voice
           (Scenario.speaking Cases.audio) Scenario.seconds "Meet your persona."
           Scenario.start)
  = [Converted Scenario.voice "Meet your persona."].
Proof.
  apply (proj2 (synthesizeSpeech_converts_text_once Scenario.World unit Scenario.voice
                  (Scenario.speaking Cases.audio) Scenario.seconds
                  "Meet your persona." Scenario.start)).
  apply Exists_cons_hd. reflexivity.
Defined.

(** ** A blank script *)

(** A blank script never reaches the speech service.  When the first three
    stages of the application succeed with a script that has no character
    other than white space, step 4 fails at its first attempt with "Script
    cannot be empty", without a request to the speech service, a retry or a
    delay, and the application returns the persona and the script with the
    empty [audioUrl], in the world the script generation left. *)
Theorem blank_script_is_never_synthesised
        (W : Type) (JSON_parse : string -> Res JSON) (numberToString : float -> string)
        (generateContent : Prompt JSON -> W -> GeminiService.Settled * W)
        (voiceId : string)
        (convert : string -> string -> W
                   -> (CaughtError + ElevenLabsService.AudioStream) * W)
        (estimatedDuration : nat -> Z) (now : W -> Z) (sleepWorld : Z -> W -> W)
        (toBase64 : list Byte.byte -> string)
        (articleText designBrief : string) (w0 w1 w2 w3 : W)
        (analysis persona : JSON) (audioScript : string)
        (tr1 tr2 tr3 : list (Event JSON)) :
  stage1 W JSON JSON JSON sleepWorld
    (App.geminiService W JSON_parse numberToString generateContent) articleText w0
  = (Returned analysis, w1, tr1) ->
  stage2 W JSON JSON JSON sleepWorld
    (App.geminiService W JSON_parse numberToString generateContent) analysis
    designBrief w1
  = (Returned persona, w2, tr2) ->
  stage3 W JSON JSON JSON sleepWorld
    (App.geminiService W JSON_parse numberToString generateContent) persona w2
  = (Returned audioScript, w3, tr3) ->
  Forall (fun c => isWhitespace c = true) (chars audioScript) ->
  let synthesis :=
    stage4 W JSON sleepWorld
      (App.elevenLabsService W voiceId convert estimatedDuration) audioScript w3 in
  let run :=
    App.generatePersona W JSON_parse numberToString generateContent voiceId convert
      estimatedDuration now sleepWorld toBase64 articleText designBrief w0 in
  synthesis
  = (Thrown (mkError "Script cannot be empty"), w3,
     [ Invoked "Audio synthesis" [];
       Logged ERROR "Audio synthesis failed after 1 attempt(s): Script cannot be empty" ])
  /\ outcome run = Returned (mkResult persona "" audioScript (now w3 - now w0))
  /\ world run = w3.
Proof.
  intros H1 H2 H3 Hblank synthesis run.
  assert (H4 : synthesis
               = (Thrown (mkError "Script cannot be empty"), w3,
                  [ Invoked "Audio synthesis" [];
                    Logged ERROR
                      "Audio synthesis failed after 1 attempt(s): Script cannot be empty" ])).
  { subst synthesis. unfold stage4.
    apply (retryWithBackoff_fatal_first sleepWorld _ "Audio synthesis" 2%Z w3 w3
             (mkError "Script cannot be empty") []); [lia | | reflexivity].
    exact (synthesizeSpeech_blank voiceId convert estimatedDuration audioScript w3
             Hblank). }
  split; [exact H4|].
  destruct (generatePersona_degraded (App.personaName numberToString) now sleepWorld
              toBase64 (App.geminiService W JSON_parse numberToString generateContent)
              (App.elevenLabsService W voiceId convert estimatedDuration)
              articleText designBrief w0 w1 w2 w3 w3 analysis persona audioScript
              (mkError "Script cannot be empty") tr1 tr2 tr3 _ H1 H2 H3 H4)
    as [tr [Hrun _]].
  subst run. unfold App.generatePersona. rewrite Hrun. split; reflexivity.
Qed.

(** A model whose drafts are all empty: four requests, and no audio. *)
Lemma blank_script_is_never_synthesised_witness :
  let run :=
    Scenario.app (Scenario.model []) (Scenario.speaking Cases.audio) Scenario.start in
  outcome run
  = Returned
      (mkResult
         (Scenario.personaDoc [("verbosity", JStr "medium")] Scenario.guidance)
         "" "" (20 - 0))
  /\ world run = Scenario.mkWorld 4 20.
Proof.
  unfold Scenario.app.
  edestruct (blank_script_is_never_synthesised Scenario.World Scenario.parse
               Scenario.showNumber (Scenario.model []) Scenario.voice
               (Scenario.speaking Cases.audio) Scenario.seconds Scenario.now
               Scenario.sleepWorld Scenario.base64
               "An article of a few hundred words." "A dashboard for analysts."
               Scenario.start (Scenario.mkWorld 1 5) (Scenario.mkWorld 2 10)
               (Scenario.mkWorld 4 20))
    as [_ [Hout Hworld]];
    [reflexivity | reflexivity | reflexivity | constructor |].
  split; [exact Hout | exact Hworld].
Defined.

(** ** What the persona parser accepts and how it refuses *)

Section PersonaFacts.

Variable JSON_parse : string -> Res JSON.
Variable numberToString : float -> string.

Local Abbreviation validatePersona := (GeminiService.validatePersona numberToString).

Ltac next_check H :=
  match type of H with
  | match (if ?b then _ else _) with _ => _ end = _ =>
      destruct b eqn:?
  | (if ?b then _ else _) = _ =>
      destruct b eqn:?
  | match ?x with _ => _ end = _ =>
      destruct x eqn:?
  end;
  cbn [truthy isArray isEmptyArray negb getProp GeminiService.anyFalsy
       GeminiService.checkRequired] in H.

Ltac pick_refusal :=
  unfold personaRefusals; cbn [map app In GeminiService.requiredFields];
  solve [repeat (first [left; reflexivity | right])].

(** A test that fails ends the validation with one of the messages. *)
Ltac refused H :=
  match type of H with
  | inl _ = ?result => subst result; cbv beta iota; pick_refusal
  end.

Ltac decide_next H := next_check H; try refused H.

(** The member [k] of the document is read: a truthy member that is not an
    object fails the test that follows. *)
Ltac open_member H k ms members Hk :=
  destruct (lookupMember k ms) as [[| | | | |members]|] eqn:Hk;
  cbn [truthy isArray isEmptyArray negb getProp GeminiService.anyFalsy
       GeminiService.checkRequired] in *;
  try discriminate; try refused H.

Ltac read_members :=
  repeat first
    [ rewrite lookupMember_setMember_same
    | rewrite lookupMember_setMember_other by reflexivity ];
  repeat match goal with
         | H : lookupMember ?k ?ms = _ |- context [lookupMember ?k ?ms] => rewrite H
         end.

(** Every outcome of the validation: an accepted document has all the
    members the parser tests, and a refusal is one of its messages. *)
Lemma validatePersona_classified (parsed : JSON) (result : Res JSON) :
  validatePersona parsed = result ->
  match result with
  | inr r => accepted r
  | inl m => In m personaRefusals
  end.
Proof.
  intros H. unfold GeminiService.validatePersona in H.
  destruct parsed as [| | | | |ms];
    cbn [GeminiService.checkRequired GeminiService.requiredFields getProp truthy] in H;
    try refused H.
  do 8 decide_next H.
  open_member H "professionalContext" ms pc Hpc. do 3 decide_next H.
  open_member H "communicationStyle" ms cs Hcs. do 2 decide_next H.
  open_member H "designBiases" ms db Hdb. do 2 decide_next H.
  open_member H "contentBiases" ms cb Hcb. do 3 decide_next H.
  open_member H "designGuidance" ms dg Hdg. do 6 decide_next H.
  repeat match goal with
         | Hn : negb _ = false |- _ => apply negb_false_iff in Hn
         end.
  unfold GeminiService.repairVerbosity in H. cbn [getProp] in H.
  rewrite Hcs in H. cbn [getProp assignProp] in H.
  destruct (GeminiService.isValidVerbosity (lookupMember "verbosity" cs)) eqn:Hv;
    subst result; cbn [withMember];
    unfold accepted, truthyPaths, arrayPaths;
    split_all; repeat constructor;
    cbn [getPath getProp]; read_members; cbn [getPath getProp]; read_members;
    try assumption; reflexivity.
Qed.

(** An accepted analysis has its four sections, and a verbosity in range
    when its communication style is not an array. *)
Lemma validateAnalysis_accepted (parsed r : JSON) :
  GeminiService.validateAnalysis numberToString parsed = inr r ->
  Forall (fun path => truthy (getPath (Some r) path) = true) analysisPaths
  /\ (isArray (getPath (Some r) ["communicationStyle"]) = false ->
      GeminiService.isValidVerbosity
        (getPath (Some r) ["communicationStyle"; "verbosity"]) = true).
Proof.
  intros H. unfold GeminiService.validateAnalysis in H.
  destruct parsed as [| | | | |ms];
    cbn [GeminiService.anyFalsy getProp truthy] in H; try discriminate H.
  do 4 (next_check H; try discriminate H).
  cbn beta iota in H.
  unfold GeminiService.repairVerbosity in H. cbn [getProp] in H.
  destruct (lookupMember "communicationStyle" ms) as [[|b|x|s|items|cs]|] eqn:Hcs;
    cbn [getProp GeminiService.isValidVerbosity assignProp truthy] in *;
    try discriminate.
  - injection H as <-. cbn [withMember]. unfold analysisPaths.
    split; [|cbn [getPath getProp]; read_members; discriminate].
    repeat constructor; cbn [getPath getProp]; read_members; try assumption; reflexivity.
  - destruct (GeminiService.isValidVerbosity (lookupMember "verbosity" cs)) eqn:Hv;
      injection H as <-; cbn [withMember]; unfold analysisPaths;
      (split; [|intros _]); repeat constructor;
      cbn [getPath getProp]; read_members; cbn [getPath getProp]; read_members;
      try assumption; reflexivity.
Qed.

End PersonaFacts.

(** What [generatePersona] returns is a complete persona.  Every document
    the method returns has a truthy value for each required member and for
    the role, industry, seniority, tone, verbosity, visual style and UX
    priority; its respondsTo, avoids and briefConflicts are arrays, its
    do and avoid lists are arrays with at least one item, and its verbosity
    is one of low, medium and high. *)
Theorem generatePersona_returns_complete_persona
        (W : Type) (JSON_parse : string -> Res JSON) (numberToString : float -> string)
        (generateContent : Prompt JSON -> W -> GeminiService.Settled * W)
        (analysis : JSON) (designBrief : string) (w : W) (persona : JSON) :
  outcome (GeminiService.generatePersona W JSON_parse numberToString generateContent
             analysis designBrief w)
  = Returned persona ->
  Forall (fun path => truthy (getPath (Some persona) path) = true) truthyPaths
  /\ Forall (fun path => isArray (getPath (Some persona) path) = true) arrayPaths
  /\ isEmptyArray (getPath (Some persona) ["designGuidance"; "do"]) = false
  /\ isEmptyArray (getPath (Some persona) ["designGuidance"; "avoid"]) = false
  /\ GeminiService.isValidVerbosity
       (getPath (Some persona) ["communicationStyle"; "verbosity"]) = true.
Proof.
  unfold GeminiService.generatePersona, tryCatch, bind, GeminiService.request.
  destruct (generateContent (PersonaGenerationPrompt analysis designBrief) w)
    as [[text|e|] w1].
  - unfold GeminiService.parsePersonaResult. cbv zeta.
    destruct (JSON_parse (GeminiService.stripJsonFences text)) as [m|parsed].
    + cbn [GeminiService.parseFailure GeminiService.parsed throw].
      destruct (@rethrow_throws W JSON "Failed to generate persona: "
                  (caught (message (mkError ("Failed to parse Gemini response: " +++ m))))
                  w1) as [e' ->].
      discriminate.
    + pose proof (validatePersona_classified numberToString parsed _ eq_refl) as Hclass.
      destruct (GeminiService.validatePersona numberToString parsed) as [m|r].
      * cbn [GeminiService.parseFailure GeminiService.parsed throw].
        destruct (@rethrow_throws W JSON "Failed to generate persona: "
                    (caught (message (mkError ("Failed to parse Gemini response: " +++ m))))
                    w1) as [e' ->].
        discriminate.
      * cbn. intros H. injection H as <-. exact Hclass.
  - destruct (@rethrow_throws W JSON "Failed to generate persona: " e w1) as [e' ->].
    discriminate.
  - destruct (@rethrow_throws W JSON "Failed to generate persona: "
                (caught "Gemini API timeout") w1) as [e' ->].
    discriminate.
Qed.

(** A persona whose verbosity is "extreme" comes back with "medium". *)
Lemma generatePersona_returns_complete_persona_witness :
  GeminiService.isValidVerbosity
    (getPath
       (Some (Scenario.personaDoc [("verbosity", JStr "medium")] Scenario.guidance))
       ["communicationStyle"; "verbosity"]) = true.
Proof.
  exact (proj2 (proj2 (proj2 (proj2
           (generatePersona_returns_complete_persona Scenario.World Scenario.parse
              Scenario.showNumber (Scenario.model []) Scenario.persona
              "A dashboard for analysts." Scenario.start
              (Scenario.personaDoc [("verbosity", JStr "medium")] Scenario.guidance)
              eq_refl))))).
Defined.

(** What [analyzeArticleText] returns is a complete analysis.  Every
    document the method returns has a truthy professionalContext,
    communicationStyle, inferredDesignPreferences and
    inferredContentPreferences, and, unless its communicationStyle is an
    array, a verbosity that is one of low, medium and high. *)
Theorem analyzeArticleText_returns_complete_analysis
        (W : Type) (JSON_parse : string -> Res JSON) (numberToString : float -> string)
        (generateContent : Prompt JSON -> W -> GeminiService.Settled * W)
        (articleText : string) (w : W) (analysis : JSON) :
  outcome (GeminiService.analyzeArticleText W JSON_parse numberToString generateContent
             articleText w)
  = Returned analysis ->
  Forall (fun path => truthy (getPath (Some analysis) path) = true) analysisPaths
  /\ (isArray (getPath (Some analysis) ["communicationStyle"]) = false ->
      GeminiService.isValidVerbosity
        (getPath (Some analysis) ["communicationStyle"; "verbosity"]) = true).
Proof.
  unfold GeminiService.analyzeArticleText, tryCatch, bind, GeminiService.request.
  destruct (generateContent (ArticleAnalysisPrompt articleText) w)
    as [[text|e|] w1].
  - unfold GeminiService.parseProfileAnalysis. cbv zeta.
    destruct (JSON_parse (GeminiService.stripJsonFences text)) as [m|parsed].
    + cbn [GeminiService.parseFailure GeminiService.parsed throw].
      destruct (@rethrow_throws W JSON "Failed to analyze article text: "
                  (caught (message (mkError ("Failed to parse Gemini response: " +++ m))))
                  w1) as [e' ->].
      discriminate.
    + pose proof (validateAnalysis_accepted numberToString parsed) as Hok.
      destruct (GeminiService.validateAnalysis numberToString parsed) as [m|r].
      * cbn [GeminiService.parseFailure GeminiService.parsed throw].
        destruct (@rethrow_throws W JSON "Failed to analyze article text: "
                    (caught (message (mkError ("Failed to parse Gemini response: " +++ m))))
                    w1) as [e' ->].
        discriminate.
      * cbn. intros H. injection H as <-. exact (Hok r eq_refl).
  - destruct (@rethrow_throws W JSON "Failed to analyze article text: " e w1)
      as [e' ->].
    discriminate.
  - destruct (@rethrow_throws W JSON "Failed to analyze article text: "
                (caught "Gemini API timeout") w1) as [e' ->].
    discriminate.
Qed.

(** An analysis without a verbosity comes back with "medium". *)
Lemma analyzeArticleText_returns_complete_analysis_witness :
  GeminiService.isValidVerbosity
    (getPath (Some (Scenario.analysisDoc [("verbosity", JStr "medium")]))
       ["communicationStyle"; "verbosity"]) = true.
Proof.
  exact (proj2 (analyzeArticleText_returns_complete_analysis Scenario.World
                  Scenario.parse Scenario.showNumber
                  (Cases.answering "analysis, no verbosity") "An article."
                  Scenario.start (Scenario.analysisDoc [("verbosity", JStr "medium")])
                  eq_refl)
               eq_refl).
Defined.

(** ** A refused persona is not asked for again *)

(** None of the refusals reads as a timeout, a credential or a quota
    failure to the [catch] of the method, or as retry-worthy to the
    classifier. *)
Lemma personaRefusals_unmarked (m : string) :
  In m personaRefusals ->
  let failure := "Failed to parse Gemini response: " +++ m in
  includes failure "timeout" = false
  /\ includes failure "API key" = false
  /\ includes failure "authentication" = false
  /\ includes failure "quota" = false
  /\ includes failure "rate limit" = false
  /\ isTransientError (mkError ("Failed to generate persona: " +++ failure)) = false.
Proof.
  intros Hin.
  assert (Hall :
            forallb
              (fun m =>
                 let failure := "Failed to parse Gemini response: " +++ m in
                 negb (includes failure "timeout")
                 && negb (includes failure "API key")
                 && negb (includes failure "authentication")
                 && negb (includes failure "quota")
                 && negb (includes failure "rate limit")
                 && negb (isTransientError
                            (mkError ("Failed to generate persona: " +++ failure))))
              personaRefusals = true) by (vm_compute; reflexivity).
  rewrite forallb_forall in Hall. specialize (Hall m Hin). cbv zeta in Hall.
  rewrite !andb_true_iff, !negb_true_iff in Hall. cbv zeta. tauto.
Qed.

Section PersonaRefusal.

Variable W : Type.
Variable JSON_parse : string -> Res JSON.
Variable numberToString : float -> string.
Variable generateContent : Prompt JSON -> W -> GeminiService.Settled * W.

Lemma generatePersona_refused (analysis : JSON) (designBrief : string)
      (w w1 : W) (text : string) (parsed : JSON) (m : string) :
  generateContent (PersonaGenerationPrompt analysis designBrief) w
  = (GeminiService.Fulfilled text, w1) ->
  JSON_parse (GeminiService.stripJsonFences text) = inr parsed ->
  GeminiService.validatePersona numberToString parsed = inl m ->
  In m personaRefusals
  /\ GeminiService.generatePersona W JSON_parse numberToString generateContent
       analysis designBrief w
     = (Thrown (mkError ("Failed to generate persona: "
                         +++ "Failed to parse Gemini response: " +++ m)),
        w1, [Requested (PersonaGenerationPrompt analysis designBrief)]).
Proof.
  intros Hreq Hparse Hrefused.
  pose proof (validatePersona_classified numberToString parsed (inl m) Hrefused) as Hin.
  cbv beta iota in Hin. split; [exact Hin|].
  destruct (personaRefusals_unmarked m Hin) as [H1 [H2 [H3 [H4 [H5 _]]]]].
  unfold GeminiService.generatePersona, tryCatch, bind, GeminiService.request.
  rewrite Hreq. unfold GeminiService.parsePersonaResult. cbv zeta.
  rewrite Hparse, Hrefused.
  cbn [GeminiService.parseFailure GeminiService.parsed message throw].
  unfold GeminiService.rethrow, messageIncludes, messageText.
  cbn [caught caughtMessage]. rewrite H1, H2, H3, H4, H5.
  reflexivity.
Qed.

End PersonaRefusal.

(** A refused persona is not asked for again.  When the response to the
    persona request parses as JSON and the validation of [parsePersonaResult]
    refuses it, with one of the messages of the parser, [generatePersona]
    throws "Failed to generate persona: Failed to parse Gemini response: "
    followed by that message; the classifier does not mark this error
    retry-worthy, so the executor invokes the method once, takes no delay
    and throws the error. *)
Theorem persona_refusal_not_retried
        (W : Type) (JSON_parse : string -> Res JSON) (numberToString : float -> string)
        (generateContent : Prompt JSON -> W -> GeminiService.Settled * W)
        (sleepWorld : Z -> W -> W)
        (analysis : JSON) (designBrief operationName : string) (maxRetries : Z)
        (w w1 : W) (text : string) (parsed : JSON) (m : string) :
  (0 <= maxRetries)%Z ->
  generateContent (PersonaGenerationPrompt analysis designBrief) w
  = (GeminiService.Fulfilled text, w1) ->
  JSON_parse (GeminiService.stripJsonFences text) = inr parsed ->
  GeminiService.validatePersona numberToString parsed = inl m ->
  let e := mkError ("Failed to generate persona: "
                    +++ "Failed to parse Gemini response: " +++ m) in
  let method :=
    GeminiService.generatePersona W JSON_parse numberToString generateContent
      analysis designBrief in
  let run := retryWithBackoff W JSON sleepWorld method operationName maxRetries w in
  In m personaRefusals
  /\ method w = (Thrown e, w1, [Requested (PersonaGenerationPrompt analysis designBrief)])
  /\ isTransientError e = false
  /\ outcome run = Thrown e
  /\ world run = w1
  /\ invocations (trace run) = 1
  /\ delays (trace run) = [].
Proof.
  intros Hm Hreq Hparse Hrefused e method run.
  destruct (generatePersona_refused W JSON_parse numberToString generateContent
              analysis designBrief w w1 text parsed m Hreq Hparse Hrefused)
    as [Hin Hthrown].
  assert (Hcls : isTransientError e = false)
    by exact (proj2 (proj2 (proj2 (proj2 (proj2 (personaRefusals_unmarked m Hin)))))).
  split; [exact Hin|]. split; [exact Hthrown|]. split; [exact Hcls|].
  subst run.
  rewrite (retryWithBackoff_fatal_first sleepWorld method operationName
             maxRetries w w1 e _ Hm Hthrown Hcls).
  split_all; reflexivity.
Qed.

(** A persona without [designGuidance.avoid]. *)
Lemma persona_refusal_not_retried_witness :
  let run :=
    retryWithBackoff Scenario.World JSON Scenario.sleepWorld
      (GeminiService.generatePersona Scenario.World Scenario.parse Scenario.showNumber
         (Cases.answering "persona, avoid missing") Scenario.persona "A dashboard.")
      "Persona generation" 2 Scenario.start in
  outcome run
  = Thrown (mkError ("Failed to generate persona: "
                     +++ "Failed to parse Gemini response: "
                     +++ "Invalid designGuidance structure"))
  /\ invocations (trace run) = 1
  /\ delays (trace run) = [].
Proof.
  destruct (persona_refusal_not_retried Scenario.World Scenario.parse
              Scenario.showNumber (Cases.answering "persona, avoid missing")
              Scenario.sleepWorld Scenario.persona "A dashboard." "Persona generation"
              2%Z Scenario.start (Scenario.mkWorld 1 5) "persona, avoid missing"
              (Scenario.personaDoc [("verbosity", JStr "high")]
                 [("do", JArr [JStr "Lead with data"])])
              "Invalid designGuidance structure"
              ltac:(lia) eq_refl eq_refl eq_refl)
    as [_ [_ [_ [Hout [_ [Hcount Hdelays]]]]]].
  cbv zeta. split; [exact Hout|]. split; [exact Hcount | exact Hdelays].
Defined.

(** ** The form *)

Lemma trim_empty_countWords (text : string) :
  trim text = "" -> GeminiService.countWords text = 0.
Proof. intros H. now rewrite <- countWords_trim, H. Qed.

Lemma validateArticleText_passes (text : string) :
  InputForm.recorded (InputForm.validateArticleText text) = None
  <-> (100 <= Z.of_nat (GeminiService.countWords text) <= 10000)%Z.
Proof.
  unfold InputForm.validateArticleText.
  change (InputForm.wordCount text)
    with (Z.of_nat (GeminiService.countWords (trim text))).
  rewrite countWords_trim.
  destruct (String.eqb_spec (trim text) "") as [Hempty|_].
  - rewrite (trim_empty_countWords text Hempty). cbn. split; [discriminate | lia].
  - unfold InputForm.minWords, InputForm.maxWords.
    destruct (Z.ltb_spec (Z.of_nat (GeminiService.countWords text)) 100);
      [cbn; split; [discriminate | lia]|].
    destruct (Z.ltb_spec 10000 (Z.of_nat (GeminiService.countWords text)));
      [cbn; split; [discriminate | lia]|].
    cbn. split; [lia | reflexivity].
Qed.

Lemma validateDesignBrief_passes (brief : string) :
  InputForm.recorded (InputForm.validateDesignBrief brief) = None
  <-> 10 <= String.length (trim brief).
Proof.
  unfold InputForm.validateDesignBrief.
  destruct (String.eqb_spec (trim brief) "") as [->|_].
  - cbn. split; [discriminate | lia].
  - destruct (Nat.ltb_spec (String.length (trim brief)) 10); cbn.
    + split; [discriminate | lia].
    + split; [lia | reflexivity].
Qed.

(** The form submits exactly the texts that pass both validations.  With
    an article of 100 to 10000 words and a brief of at least 10 characters
    once trimmed, [handleSubmit] calls [onSubmit] with the two texts as they
    were typed and records no error; otherwise it does not call [onSubmit],
    and it records an error for the article exactly when the word count is
    out of range, and for the brief exactly when it is too short. *)
Theorem handleSubmit_gate (articleText designBrief : string) :
  let words := Z.of_nat (GeminiService.countWords articleText) in
  let briefLength := String.length (trim designBrief) in
  let errors := fst (InputForm.handleSubmit articleText designBrief) in
  let submitted := snd (InputForm.handleSubmit articleText designBrief) in
  ((100 <= words <= 10000)%Z /\ 10 <= briefLength
   -> submitted = Some (articleText, designBrief)
      /\ errors = InputForm.mkErrors None None)
  /\ (submitted = None \/ submitted = Some (articleText, designBrief))
  /\ (submitted = None
      <-> (words < 100)%Z \/ (10000 < words)%Z \/ briefLength < 10)
  /\ (InputForm.articleTextError errors = None <-> (100 <= words <= 10000)%Z)
  /\ (InputForm.designBriefError errors = None <-> 10 <= briefLength).
Proof.
  cbv zeta. unfold InputForm.handleSubmit, InputForm.hasErrors.
  cbn [InputForm.articleTextError InputForm.designBriefError].
  pose proof (validateArticleText_passes articleText) as Ht.
  pose proof (validateDesignBrief_passes designBrief) as Hb.
  assert (Hnone : forall m : string, Some m = None <-> False)
    by (intros m; split; [discriminate | tauto]).
  destruct (InputForm.recorded (InputForm.validateArticleText articleText)) as [m|];
    destruct (InputForm.recorded (InputForm.validateDesignBrief designBrief)) as [m'|];
    cbn [fst snd InputForm.articleTextError InputForm.designBriefError];
    try rewrite (Hnone m) in Ht; try rewrite (Hnone m') in Hb;
    (split; [|split; [|split; [|split]]]);
    try exact Ht; try exact Hb;
    try (left; reflexivity); try (right; reflexivity).
  all: try (intros [H1 H2]; exfalso; tauto).
  all: try (split; [intros _ | reflexivity]).
  all: try (split; [discriminate | intros H]).
  all: try (split; reflexivity).
  all: try (exfalso; tauto).
  all: try (destruct Ht as [_ Ht]; lia).
  all: try (destruct Hb as [_ Hb]; lia).
  exfalso. destruct Ht as [Ht _], Hb as [Hb _].
  specialize (Ht eq_refl). specialize (Hb eq_refl). lia.
Qed.

(** An article of 120 words and a brief of 25 characters. *)
Lemma handleSubmit_gate_witness :
  InputForm.handleSubmit (Scenario.words 120) "A dashboard for analysts."
  = (InputForm.mkErrors None None,
     Some (Scenario.words 120, "A dashboard for analysts.")).
Proof.
  destruct (handleSubmit_gate (Scenario.words 120) "A dashboard for analysts.")
    as [Hvalid _].
  cbv zeta in Hvalid.
  assert (Hwords : GeminiService.countWords (Scenario.words 120) = 120)
    by (vm_compute; reflexivity).
  assert (Hbrief : String.length (trim "A dashboard for analysts.") = 25)
    by (vm_compute; reflexivity).
  rewrite Hwords, Hbrief in Hvalid.
  destruct Hvalid as [Hsubmitted Herrors]; [lia|].
  rewrite (surjective_pairing (InputForm.handleSubmit _ _)).
  now rewrite Hsubmitted, Herrors.
Defined.

(** ** The origins allowed by CORS *)

Lemma includes_char_iff (d : ascii) (s : string) :
  includes s (String d "") = false <-> Forall (fun c => c <> d) (chars s).
Proof.
  induction s as [|c s IH].
  - split; [constructor | reflexivity].
  - split.
    + intros H. destruct (includes_char d c s H) as [Hc Hs].
      constructor; [exact Hc | now apply IH].
    + intros H. inversion H as [|c' l Hc Hs]; subst.
      cbn [includes]. unfold startsWith. cbn [String.prefix].
      destruct (ascii_dec d c) as [E|_]; [congruence|].
      rewrite orb_false_l. now apply IH.
Qed.

Lemma splitL_nonempty (sep : ascii) (l : list ascii) : Main.splitL sep l <> [].
Proof.
  destruct l as [|c l]; cbn; [discriminate|].
  destruct (Ascii.eqb c sep); [discriminate|].
  destruct (Main.splitL sep l); discriminate.
Qed.

(** No piece contains the separator. *)
Lemma splitL_pieces (sep : ascii) (l : list ascii) :
  Forall (Forall (fun c => c <> sep)) (Main.splitL sep l).
Proof.
  induction l as [|c l IH]; cbn.
  - repeat constructor.
  - destruct (Ascii.eqb_spec c sep) as [->|Hc].
    + constructor; [constructor | exact IH].
    + destruct (Main.splitL sep l) as [|piece pieces].
      * repeat constructor. exact Hc.
      * inversion IH; subst. constructor; [now constructor | assumption].
Qed.

Lemma splitL_piece (sep : ascii) (piece : list ascii) :
  Forall (fun c => c <> sep) piece -> Main.splitL sep piece = [piece].
Proof.
  induction 1 as [|c piece Hc _ IH]; cbn; [reflexivity|].
  destruct (Ascii.eqb_spec c sep); [contradiction|]. now rewrite IH.
Qed.

Lemma splitL_app (sep : ascii) (piece rest : list ascii) :
  Forall (fun c => c <> sep) piece ->
  Main.splitL sep (piece ++ sep :: rest) = piece :: Main.splitL sep rest.
Proof.
  induction 1 as [|c piece Hc _ IH]; cbn.
  - now rewrite Ascii.eqb_refl.
  - destruct (Ascii.eqb_spec c sep); [contradiction|]. now rewrite IH.
Qed.

(** Splitting what was joined gives the pieces back. *)
Lemma split_concat (sep : ascii) (items : list string) :
  items <> [] ->
  Forall (fun item => includes item (String sep "") = false) items ->
  Main.split sep (String.concat (String sep "") items) = items.
Proof.
  intros Hne Hall. unfold Main.split.
  induction Hall as [|item items Hitem Hitems IH]; [congruence|].
  apply includes_char_iff in Hitem.
  destruct items as [|next items].
  - cbn [String.concat]. rewrite (splitL_piece sep _ Hitem). cbn. now rewrite str_chars.
  - cbn [String.concat]. rewrite !chars_app. cbn [chars list_ascii_of_string app].
    fold (chars (String.concat (String sep "") (next :: items))).
    rewrite (splitL_app sep _ _ Hitem). cbn [map].
    rewrite str_chars. f_equal. apply IH. discriminate.
Qed.

Lemma trim_keeps (P : ascii -> Prop) (l : list ascii) :
  Forall P l -> Forall P (trimEndL (trimStartL l)).
Proof.
  intros H. unfold trimStartL.
  destruct (dropWhile_split isWhitespace l) as [pre [Hl _]].
  rewrite Hl in H. apply Forall_app in H. destruct H as [_ H].
  destruct (trimEndL_split (dropWhile isWhitespace l)) as [ws [Heq _]].
  rewrite Heq in H. apply Forall_app in H. tauto.
Qed.

Lemma trim_trim (s : string) : trim (trim s) = trim s.
Proof.
  unfold trim at 1. unfold trimStartL.
  rewrite (dropWhile_id isWhitespace _ (trim_startsWithText s)).
  rewrite (trimEndL_fixed _ (trim_endsWithText s)). apply str_chars.
Qed.

(** The origins allowed by CORS.  There is always at least one origin; no
    origin begins or ends with white space or contains a comma; without a
    FRONTEND_URL, or with an empty one, the only origin is
    http://localhost:3000; and a FRONTEND_URL written as items separated by
    commas is read back as those items, trimmed. *)
Theorem frontendUrls_reads_origins (FRONTEND_URL : option string) :
  Main.frontendUrls FRONTEND_URL <> []
  /\ (forall origin,
        In origin (Main.frontendUrls FRONTEND_URL) ->
        trim origin = origin /\ includes origin "," = false)
  /\ (FRONTEND_URL = None \/ FRONTEND_URL = Some "" ->
      Main.frontendUrls FRONTEND_URL = [ "http://localhost:3000" ])
  /\ (forall items,
        FRONTEND_URL = Some (String.concat "," items) ->
        items <> [] ->
        String.concat "," items <> "" ->
        Forall (fun item => includes item "," = false) items ->
        Main.frontendUrls FRONTEND_URL = map trim items).
Proof.
  split; [|split; [|split]].
  - destruct FRONTEND_URL as [urls|]; cbn; [|discriminate].
    destruct (String.eqb urls ""); [discriminate|].
    unfold Main.split. pose proof (splitL_nonempty "," (chars urls)) as H.
    destruct (Main.splitL "," (chars urls)); [congruence | discriminate].
  - intros origin Hin.
    assert (Hdefault : In origin [ "http://localhost:3000" ] ->
                       trim origin = origin /\ includes origin "," = false).
    { intros [<-|[]]. split; reflexivity. }
    destruct FRONTEND_URL as [urls|]; cbn in Hin; [|now apply Hdefault].
    destruct (String.eqb urls ""); [now apply Hdefault|].
    unfold Main.split in Hin. rewrite map_map in Hin.
    apply in_map_iff in Hin. destruct Hin as [piece [<- Hpiece]].
    split; [apply trim_trim|].
    apply includes_char_iff. unfold trim. rewrite !chars_str.
    apply trim_keeps.
    pose proof (splitL_pieces "," (chars urls)) as Hall.
    rewrite Forall_forall in Hall. now apply Hall.
  - intros [->| ->]; reflexivity.
  - intros items -> Hne Hfilled Hall. cbn.
    destruct (String.eqb_spec (String.concat "," items) ""); [contradiction|].
    now rewrite (split_concat "," items Hne Hall).
Qed.

(** Two origins, with a space after the comma. *)
Lemma frontendUrls_reads_origins_witness :
  Main.frontendUrls (Some "https://persona.example, https://staging.persona.example")
  = [ "https://persona.example"; "https://staging.persona.example" ].
Proof.
  exact (proj2 (proj2 (proj2
           (frontendUrls_reads_origins
              (Some "https://persona.example, https://staging.persona.example"))))
           [ "https://persona.example"; " https://staging.persona.example" ]
           eq_refl ltac:(discriminate) ltac:(discriminate)
           ltac:(repeat constructor)).
Defined.
